(** * nts.hardware.serial: the virtual serial network

    A shallow embedding of [virtual/worker.py], [virtual/virtual_serial_network.py]
    and [virtual/virtual_serial_pair.py], and the properties of the worker's
    command handling, of its forwarding step and of the controller; with
    them the validators and the minimal configuration class of [config/],
    and the integer and checksum helpers of [utilities/]. *)

From Stdlib Require Import ZArith List Bool Lia Permutation.
From Stdlib.Strings Require Import Byte.
From stdpp Require Import gmap strings list pretty.

Local Open Scope Z_scope.
Local Open Scope string_scope.
Local Open Scope list_scope.

(** ** Python containers *)

Module Py.

(** A [dict] with integer keys, in insertion order: [d[k] = v] overwrites in
    place or appends, [del d[k]] drops the entry, [d.items()] is the list. *)
Fixpoint dict_get {V : Type} (d : list (Z * V)) (k : Z) : option V :=
  match d with
  | [] => None
  | (k', v) :: r => if Z.eqb k' k then Some v else dict_get r k
  end.

Fixpoint dict_set {V : Type} (d : list (Z * V)) (k : Z) (v : V) : list (Z * V) :=
  match d with
  | [] => [(k, v)]
  | (k', v') :: r => if Z.eqb k' k then (k', v) :: r else (k', v') :: dict_set r k v
  end.

Fixpoint dict_del {V : Type} (d : list (Z * V)) (k : Z) : list (Z * V) :=
  match d with
  | [] => []
  | (k', v') :: r => if Z.eqb k' k then r else (k', v') :: dict_del r k
  end.

Definition keys {V : Type} (d : list (Z * V)) : list Z := map fst d.

(** [set(l)] keeps one element of every class of the elements' [__eq__]: the
    one inserted first. *)
Fixpoint set_of {A : Type} (eqb : A -> A -> bool) (l : list A) : list A :=
  match l with
  | [] => []
  | x :: r => x :: List.filter (fun y => negb (eqb x y)) (set_of eqb r)
  end.

(** [set(a) - set(b)]. *)
Definition set_diff {A : Type} (eqb : A -> A -> bool) (a b : list A) : list A :=
  List.filter (fun x => negb (existsb (eqb x) b)) (set_of eqb a).

(** The order in which a set is iterated depends on the hashes of its
    elements; [list(s)] is some arrangement of the elements of [s]. *)
Class SetOrder (A : Type) := {
  iter : list A -> list A;
  iter_perm : forall l, Permutation (iter l) l
}.

(** [list(set(l))] and [list(set(a) - set(b))]. *)
Definition list_set {A : Type} `{SetOrder A} (eqb : A -> A -> bool) (l : list A) : list A :=
  iter (set_of eqb l).

Definition list_set_diff {A : Type} `{SetOrder A} (eqb : A -> A -> bool) (a b : list A) : list A :=
  iter (set_diff eqb a b).

(** One admissible iteration order: insertion order. *)
Definition insertion_order (A : Type) : SetOrder A :=
  {| iter := fun l => l; iter_perm := fun l => Permutation_refl l |}.

(** Another one: the reverse of it. *)
Definition reverse_order (A : Type) : SetOrder A :=
  {| iter := fun l => List.rev l; iter_perm := fun l => Permutation_sym (Permutation_rev l) |}.

End Py.

(** ** Messages of the pipe between controller and worker *)

(** [con_params.to_dict()] of [SerialConnectionMinimalConfig]: the keyword
    arguments of [Serial]. *)
Record ConParams := {
  cp_port : string;
  cp_baudrate : Z;
  cp_bytesize : Z;
  cp_parity : string;
  cp_stopbits : Z
}.

(** [{"cmd": "stop"}], [{"cmd": "remove", "data": names}],
    [{"cmd": "add", "data": ext_ports}], [{"cmd": "create", "data": n}], each
    with its command in any case; a message with another command; and a
    message whose ["cmd"] cannot be read and lowered, with the exception that
    raises. The controller sends the first four.

    The last three are the messages with the command [remove], [add] or
    [create] whose ["data"] the worker cannot use, with the exception [e]
    that raises: the key is missing ([message["data"]]), the value cannot be
    iterated, or for [create] is no integer ([range(ports_number)]), or one
    of its items is not what the loop asks of it before its [try]: a name
    that cannot be hashed ([slave_name in slave_names]), a dictionary
    without ["port"] ([con_params["port"]]). [data] holds the items in
    front of that item, which the loop has handled when the statement
    raises; it is empty when the key is missing or the value is no list. *)
Inductive Command :=
| CmdStop
| CmdRemove (data : list string)
| CmdAdd (data : list ConParams)
| CmdCreate (data : Z)
| CmdOther (cmd : string)
| CmdMissing (e : string)
| CmdRemoveUnusable (data : list string) (e : string)
| CmdAddUnusable (data : list ConParams) (e : string)
| CmdCreateUnusable (e : string).

(** [{"status": "OK", "data": name}],
    [{"status": "ERROR", "data": {"error": ..., "traceback": ...}}],
    [{"status": "EXIST", "data": name}], [{"status": "NOT_EXIST", "data": name}]. *)
Inductive Response :=
| OK (data : string)
| ERROR (error traceback : string)
| EXIST (data : string)
| NOT_EXIST (data : string).

(** A pty factory ([openpty_func]): what its successive calls return,
    [(master_fd, slave_fd)], or [None] where the call raises. *)
Definition Callable : Type := nat -> option (Z * Z).

(** ** The operating system, as the worker sees it *)

Inductive ReadResult :=
| ReadRaises
| ReadNone                       (* nothing to read on a non-blocking file *)
| ReadBytes (data : list byte).

Record OS := {
  pty_openpty : Callable;                      (* pty.openpty() *)
  tty_setraw : Z -> bool;                      (* false: the call raises *)
  os_set_blocking : Z -> bool;
  os_ttyname : Z -> option string;
  io_open : Z -> bool;                         (* open(fd, "r+b", buffering=0) *)
  Serial_open : ConParams -> option Z;         (* the descriptor of Serial(port=..., ...) *)
  file_close : Z -> bool;
  file_read : Z -> ReadResult;
  file_write : Z -> list byte -> bool
}.

(** ** worker.py *)

Module Worker.

(** A value of [master_files]: the unbuffered file of a pty master, or the
    [Serial] object of an external port. Its descriptor is its key. *)
Inductive FileObj :=
| FileIO
| Serial (con_params : ConParams).

(** Everything the worker process owns or touches. *)
Record State := {
  master_files : list (Z * FileObj);
  slave_names : gmap string Z;
  selector : list Z;                 (* descriptors registered for EVENT_READ *)
  stack : list Z;                    (* contexts entered in the ExitStack *)
  worker_io : list Response;         (* sent, not yet received by the controller *)
  openpty_calls : nat;               (* calls of the pty factory so far *)
  written : list (Z * list byte);    (* completed writes, oldest first *)
  closed : list Z                    (* descriptors closed, oldest first *)
}.

Definition empty : State :=
  {| master_files := []; slave_names := ∅; selector := []; stack := [];
     worker_io := []; openpty_calls := 0%nat; written := []; closed := [] |}.

(** Statements either return or raise; what they did before raising stays. *)
Inductive Result (A : Type) :=
| Ret (a : A)
| Raise (e : string).
Arguments Ret {A} a.
Arguments Raise {A} e.

Definition M (A : Type) : Type := State -> Result A * State.

Definition ret {A : Type} (a : A) : M A := fun w => (Ret a, w).

Definition raise {A : Type} (e : string) : M A := fun w => (Raise e, w).

Definition bind {A B : Type} (m : M A) (k : A -> M B) : M B :=
  fun w => match m w with
           | (Ret a, w') => k a w'
           | (Raise e, w') => (Raise e, w')
           end.

Definition try_except {A : Type} (body : M A) (handler : string -> M A) : M A :=
  fun w => match body w with
           | (Ret a, w') => (Ret a, w')
           | (Raise e, w') => handler e w'
           end.

#[global] Instance worker_ret : MRet M := @ret.
#[global] Instance worker_bind : MBind M := fun A B k m => bind m k.

(** [for x in l: body(x)] *)
Fixpoint for_each {A : Type} (l : list A) (body : A -> M unit) : M unit :=
  match l with
  | [] => ret tt
  | x :: r => body x ;; for_each r body
  end.

(** [for _ in range(n): body] *)
Fixpoint for_range (n : nat) (body : M unit) : M unit :=
  match n with
  | O => ret tt
  | S n' => body ;; for_range n' body
  end.

Definition get {A : Type} (f : State -> A) : M A := fun w => (Ret (f w), w).

Definition modify (f : State -> State) : M unit := fun w => (Ret tt, f w).

Definition set_master_files (v : list (Z * FileObj)) (w : State) : State :=
  {| master_files := v; slave_names := slave_names w; selector := selector w;
     stack := stack w; worker_io := worker_io w; openpty_calls := openpty_calls w;
     written := written w; closed := closed w |}.

Definition set_slave_names (v : gmap string Z) (w : State) : State :=
  {| master_files := master_files w; slave_names := v; selector := selector w;
     stack := stack w; worker_io := worker_io w; openpty_calls := openpty_calls w;
     written := written w; closed := closed w |}.

Definition set_selector (v : list Z) (w : State) : State :=
  {| master_files := master_files w; slave_names := slave_names w; selector := v;
     stack := stack w; worker_io := worker_io w; openpty_calls := openpty_calls w;
     written := written w; closed := closed w |}.

Definition set_stack (v : list Z) (w : State) : State :=
  {| master_files := master_files w; slave_names := slave_names w; selector := selector w;
     stack := v; worker_io := worker_io w; openpty_calls := openpty_calls w;
     written := written w; closed := closed w |}.

Definition set_worker_io (v : list Response) (w : State) : State :=
  {| master_files := master_files w; slave_names := slave_names w; selector := selector w;
     stack := stack w; worker_io := v; openpty_calls := openpty_calls w;
     written := written w; closed := closed w |}.

Definition set_openpty_calls (v : nat) (w : State) : State :=
  {| master_files := master_files w; slave_names := slave_names w; selector := selector w;
     stack := stack w; worker_io := worker_io w; openpty_calls := v;
     written := written w; closed := closed w |}.

Definition set_written (v : list (Z * list byte)) (w : State) : State :=
  {| master_files := master_files w; slave_names := slave_names w; selector := selector w;
     stack := stack w; worker_io := worker_io w; openpty_calls := openpty_calls w;
     written := v; closed := closed w |}.

Definition set_closed (v : list Z) (w : State) : State :=
  {| master_files := master_files w; slave_names := slave_names w; selector := selector w;
     stack := stack w; worker_io := worker_io w; openpty_calls := openpty_calls w;
     written := written w; closed := v |}.

Definition EVENT_READ : Z := 1.

Definition format_exc (e : string) : string := "Traceback (most recent call last): " +:+ e.

Section Process.

Variable os : OS.

(** *** Primitives *)

(** A call that returns nothing and may raise. *)
Definition check (ok : bool) (e : string) : M unit :=
  if ok then ret tt else raise e.

(** A call that returns a value or raises. *)
Definition expect {A : Type} (r : option A) (e : string) : M A :=
  match r with
  | Some a => ret a
  | None => raise e
  end.

(** [openpty_func()], after
    [openpty_func = openpty_func if callable(openpty_func) else pty.openpty]. *)
Definition call_openpty (openpty_func : option Callable) : M (Z * Z) :=
  k ← get openpty_calls;
  modify (set_openpty_calls (S k)) ;;
  expect (match openpty_func with
          | Some f => f k
          | None => pty_openpty os k
          end) "OSError: out of pty devices".

(** [worker_io.send(message)] *)
Definition send (message : Response) : M unit :=
  modify (fun w => set_worker_io (worker_io w ++ [message]) w).

(** [selector.register(fd, EVENT_READ)] *)
Definition selector_register (fd : Z) : M unit :=
  sel ← get selector;
  if Z.ltb fd 0 then raise "ValueError: Invalid file descriptor"
  else if existsb (Z.eqb fd) sel then raise "KeyError: already registered"
  else modify (set_selector (sel ++ [fd])).

(** [selector.unregister(fd)] *)
Definition selector_unregister (fd : Z) : M unit :=
  sel ← get selector;
  if existsb (Z.eqb fd) sel
  then modify (set_selector (List.filter (fun x => negb (Z.eqb fd x)) sel))
  else raise "KeyError: not registered".

(** [master_files[fd]] *)
Definition master_files_get (fd : Z) : M FileObj :=
  d ← get master_files;
  expect (Py.dict_get d fd) "KeyError".

(** [f.read()] on the file of descriptor [fd]; Python's [None] when there
    is nothing to read. *)
Definition read (fd : Z) : M (option (list byte)) :=
  match file_read os fd with
  | ReadRaises => raise "OSError: read"
  | ReadNone => ret None
  | ReadBytes data => ret (Some data)
  end.

(** [f.write(data)] on the file of descriptor [fd]. *)
Definition write (fd : Z) (data : option (list byte)) : M unit :=
  match data with
  | None => raise "TypeError: a bytes-like object is required, not 'NoneType'"
  | Some b =>
      if file_write os fd b
      then modify (fun w => set_written (written w ++ [(fd, b)]) w)
      else raise "OSError: write"
  end.

(** [f.close()] *)
Definition close (fd : Z) : M unit :=
  check (file_close os fd) "OSError: close" ;;
  modify (fun w => set_closed (closed w ++ [fd]) w).

(** *** forward_data *)

(** The broadcast of one event: the inner [for fd, f in master_files.items()]. *)
Definition broadcast (key_fd : Z) (data : option (list byte)) (loopback : bool)
    (items : list (Z * FileObj)) : M unit :=
  for_each items (fun '(fd, f) =>
    if loopback || negb (Z.eqb fd key_fd)
    then write fd data
    else ret tt).

(** The body of the loop over [selector.select(timeout=1)], for the event
    [(key, events)] with [key.fileobj = key_fd]. Only integers are ever
    registered, so [isinstance(key_fd, int)] holds. *)
Definition forward_event (loopback : bool) (event : Z * Z) : M unit :=
  let '(key_fd, events) := event in
  if negb (Z.eqb (Z.land events EVENT_READ) 0)
  then try_except
         (_ ← master_files_get key_fd;
          data ← read key_fd;
          items ← get master_files;
          broadcast key_fd data loopback items)
         (fun _ => ret tt)
  else ret tt.

(** [forward_data(selector, master_files, loopback)], for the list of events
    that [selector.select] returns. *)
Definition forward_data (ready : list (Z * Z)) (loopback : bool) : M unit :=
  for_each ready (forward_event loopback).

(** *** generate_virtual_ports *)

(** One pass of the loop of [generate_virtual_ports]. *)
Definition generate_virtual_port (openpty_func : option Callable) : M unit :=
  try_except
    ('(master_fd, slave_fd) ← call_openpty openpty_func;
     check (tty_setraw os master_fd) "termios.error" ;;
     check (os_set_blocking os master_fd) "OSError: set_blocking" ;;
     slave_name ← expect (os_ttyname os slave_fd) "OSError: ttyname";
     check (io_open os master_fd) "OSError: open" ;;
     modify (fun w => set_master_files (Py.dict_set (master_files w) master_fd FileIO) w) ;;
     modify (fun w => set_slave_names (<[slave_name := master_fd]> (slave_names w)) w) ;;
     modify (fun w => set_stack (stack w ++ [master_fd]) w) ;;
     selector_register master_fd ;;
     send (OK slave_name))
    (fun e => send (ERROR e (format_exc e))).

(** [generate_virtual_ports(stack, selector, ports_number, master_files,
    slave_names, worker_io, openpty_func)]; [range] of a negative number is
    empty. *)
Definition generate_virtual_ports (ports_number : Z) (openpty_func : option Callable) : M unit :=
  for_range (Z.to_nat ports_number) (generate_virtual_port openpty_func).

(** *** add_external_ports *)

(** One pass of the loop of [add_external_ports]. *)
Definition add_external_port (con_params : ConParams) : M unit :=
  names ← get slave_names;
  if decide (is_Some (names !! cp_port con_params))
  then send (EXIST (cp_port con_params))
  else try_except
         (port_fd ← expect (Serial_open os con_params) "SerialException: could not open port";
          check (os_set_blocking os port_fd) "OSError: set_blocking" ;;
          modify (fun w => set_master_files
                             (Py.dict_set (master_files w) port_fd (Serial con_params)) w) ;;
          modify (fun w => set_slave_names (<[cp_port con_params := port_fd]> (slave_names w)) w) ;;
          modify (fun w => set_stack (stack w ++ [port_fd]) w) ;;
          selector_register port_fd ;;
          send (OK (cp_port con_params)))
         (fun e => send (ERROR e (format_exc e))).

Definition add_external_ports (external_ports : list ConParams) : M unit :=
  for_each external_ports add_external_port.

(** *** remove_ports *)

(** One pass of the loop of [remove_ports]. *)
Definition remove_port (slave_name : string) : M unit :=
  names ← get slave_names;
  match names !! slave_name with
  | Some master_fd =>
      try_except
        (selector_unregister master_fd ;;
         _ ← master_files_get master_fd;
         close master_fd ;;
         modify (fun w => set_master_files (Py.dict_del (master_files w) master_fd) w) ;;
         modify (fun w => set_slave_names (delete slave_name (slave_names w)) w) ;;
         send (OK slave_name))
        (fun e => send (ERROR e (format_exc e)))
  | None => send (NOT_EXIST slave_name)
  end.

Definition remove_ports (remove_list : list string) : M unit :=
  for_each remove_list remove_port.

(** *** process_cmd *)

(** [process_cmd]: [message] is the command waiting in the pipe, [None]
    when [worker_io.poll()] is false. The result is [keep_running]. Only
    the reading of ["cmd"] is in a [try]: what raises while ["data"] is read
    or iterated leaves [process_cmd]. *)
Definition process_cmd (message : option Command) (openpty_func : option Callable) : M bool :=
  match message with
  | None => mret true
  | Some CmdStop => mret false
  | Some (CmdRemove remove_list) => remove_ports remove_list ;; mret true
  | Some (CmdAdd external_ports) => add_external_ports external_ports ;; mret true
  | Some (CmdCreate ports_number) => generate_virtual_ports ports_number openpty_func ;; mret true
  | Some (CmdOther _) => mret true
  | Some (CmdMissing e) => send (ERROR e (format_exc e)) ;; mret true
  | Some (CmdRemoveUnusable remove_list e) => remove_ports remove_list ;; raise e
  | Some (CmdAddUnusable external_ports e) => add_external_ports external_ports ;; raise e
  | Some (CmdCreateUnusable e) => raise e
  end.

(** *** create_serial_network *)

(** [create_serial_network] up to its loop. *)
Definition create_serial_network_setup (ports_number : Z)
    (external_ports : option (list ConParams)) (openpty_func : option Callable) : M unit :=
  generate_virtual_ports ports_number openpty_func ;;
  add_external_ports (default [] external_ports).

(** One turn of [while keep_running]. *)
Definition create_serial_network_turn (message : option Command) (ready : list (Z * Z))
    (loopback : bool) (openpty_func : option Callable) : M bool :=
  keep_running ← process_cmd message openpty_func;
  forward_data ready loopback ;;
  mret keep_running.

(** [while keep_running], over the turns of [schedule]: for each turn the
    message that waits in the pipe, if any, and the events that
    [selector.select] returns. The loop ends with the turn that leaves
    [keep_running] false, or with the turn whose message makes [process_cmd]
    raise; the result is [keep_running] after the last turn that ran. *)
Fixpoint create_serial_network_loop (schedule : list (option Command * list (Z * Z)))
    (loopback : bool) (openpty_func : option Callable) : M bool :=
  match schedule with
  | [] => ret true
  | (message, ready) :: rest =>
      bind (create_serial_network_turn message ready loopback openpty_func)
        (fun keep_running : bool =>
           if keep_running
           then create_serial_network_loop rest loopback openpty_func
           else ret false)
  end.

(** The body of the [with] block of [create_serial_network(worker_io,
    ports_number, external_ports, loopback, openpty_func)], for the turns of
    [schedule]: the setup and the loop. The exit of the block, where the
    [ExitStack] closes the files and the selector is closed, is no part of
    it. *)
Definition create_serial_network_body (ports_number : Z)
    (external_ports : option (list ConParams))
    (loopback : bool) (openpty_func : option Callable)
    (schedule : list (option Command * list (Z * Z))) : M bool :=
  create_serial_network_setup ports_number external_ports openpty_func ;;
  create_serial_network_loop schedule loopback openpty_func.

End Process.

End Worker.

(** ** config/defaults.py *)

Module Defaults.

Definition DEFAULT_BAUDRATE : Z := 9600.
Definition DEFAULT_BAUDRATE_LIST : list Z :=
  [300; 600; 1200; 2400; 4800; 9600; 14400; 19200; 38400; 57600; 115200].

Definition DEFAULT_BYTESIZE : Z := 8.
Definition DEFAULT_BYTESIZE_LIST : list Z := [5; 6; 7; 8].

Definition DEFAULT_PARITY : string := "N".
Definition DEFAULT_PARITY_LIST : list string := ["N"; "E"; "O"].

Definition DEFAULT_STOPBITS : Z := 1.
Definition DEFAULT_STOPBITS_LIST : list Z := [1; 2].

Definition DEFAULT_FRAMER : string := "RTU".
Definition DEFAULT_FRAMER_LIST : list string := ["RTU"; "ASCII"].

End Defaults.

(** ** config/validation.py *)

Module Validation.

Import Defaults.

(** What a caller may pass for a parameter: [None], a [str], an [int], a
    [bool], or an object of another type, of which the validators use its
    type, its text and whether it counts as true. The characters of a
    [str] are the characters of a [string] here. *)
Inductive Value :=
| PyNone
| PyStr (s : string)
| PyInt (n : Z)
| PyBool (b : bool)
| PyObject (type_name text : string) (truth : bool).

(** [bool(v)] *)
Definition truth_value (v : Value) : bool :=
  match v with
  | PyNone => false
  | PyStr s => negb (String.eqb s "")
  | PyInt n => negb (Z.eqb n 0)
  | PyBool b => b
  | PyObject _ _ truth => truth
  end.

(** [f"{type(v)}"] *)
Definition type_ (v : Value) : string :=
  "<class '" +:+
  match v with
  | PyNone => "NoneType"
  | PyStr _ => "str"
  | PyInt _ => "int"
  | PyBool _ => "bool"
  | PyObject type_name _ _ => type_name
  end +:+ "'>".

(** [f"{v}"] *)
Definition str (v : Value) : string :=
  match v with
  | PyNone => "None"
  | PyStr s => s
  | PyInt n => pretty n
  | PyBool b => if b then "True" else "False"
  | PyObject _ text _ => text
  end.

(** [isinstance(v, int)], with the integer that [v] is: [bool] is a
    subclass of [int], and [True] and [False] are, compare and hash as [1]
    and [0]. *)
Definition as_int (v : Value) : option Z :=
  match v with
  | PyInt n => Some n
  | PyBool b => Some (Z.b2z b)
  | _ => None
  end.

(** [isinstance(v, str)], with the string. *)
Definition as_str (v : Value) : option string :=
  match v with
  | PyStr s => Some s
  | _ => None
  end.

(** A validator returns the validated value or raises
    [SerialConnectionConfigError]. *)
Inductive Result (A : Type) :=
| Valid (a : A)
| SerialConnectionConfigError (message : string).
Arguments Valid {A} a.
Arguments SerialConnectionConfigError {A} message.

Definition and_then {A B : Type} (r : Result A) (k : A -> Result B) : Result B :=
  match r with
  | Valid a => k a
  | SerialConnectionConfigError message => SerialConnectionConfigError message
  end.

Definition validate_port (port : Value) : Result string :=
  if negb (truth_value port)
  then SerialConnectionConfigError "Port cannot be empty"
  else match as_str port with
       | None => SerialConnectionConfigError ("Port must be a string, got " +:+ type_ port)
       | Some s =>
           if Nat.ltb (String.length s) 3
           then SerialConnectionConfigError "Port name is too short"
           else Valid s
       end.

Definition validate_baudrate (baudrate : Value) : Result Z :=
  match baudrate with
  | PyNone => Valid DEFAULT_BAUDRATE
  | _ =>
      match as_int baudrate with
      | None =>
          SerialConnectionConfigError
            ("Baudrate must be integer number, got " +:+ type_ baudrate)
      | Some n =>
          if negb (existsb (Z.eqb n) DEFAULT_BAUDRATE_LIST)
          then SerialConnectionConfigError ("Invalid baudrate: " +:+ str baudrate)
          else Valid n
      end
  end.

Definition validate_bytesize (bytesize : Value) : Result Z :=
  match bytesize with
  | PyNone => Valid DEFAULT_BYTESIZE
  | _ =>
      match as_int bytesize with
      | None =>
          SerialConnectionConfigError
            ("Bytesize must be integer number, got " +:+ type_ bytesize)
      | Some n =>
          if negb (existsb (Z.eqb n) DEFAULT_BYTESIZE_LIST)
          then SerialConnectionConfigError ("Invalid bytesize: " +:+ str bytesize)
          else Valid n
      end
  end.

Definition validate_parity (parity : Value) : Result string :=
  match parity with
  | PyNone => Valid DEFAULT_PARITY
  | _ =>
      match as_str parity with
      | None => SerialConnectionConfigError ("Parity must be a string, got " +:+ type_ parity)
      | Some s =>
          if negb (existsb (String.eqb s) DEFAULT_PARITY_LIST)
          then SerialConnectionConfigError ("Invalid parity: " +:+ str parity)
          else Valid s
      end
  end.

Definition validate_stopbits (stopbits : Value) : Result Z :=
  match stopbits with
  | PyNone => Valid DEFAULT_STOPBITS
  | _ =>
      match as_int stopbits with
      | None =>
          SerialConnectionConfigError
            ("Stopbits must be integer number, got " +:+ type_ stopbits)
      | Some n =>
          if negb (existsb (Z.eqb n) DEFAULT_STOPBITS_LIST)
          then SerialConnectionConfigError ("Invalid stopbits: " +:+ str stopbits)
          else Valid n
      end
  end.

(** [validate_framer] has no type test: a value that is no string is in
    no tuple of strings. *)
Definition validate_framer (framer : Value) : Result string :=
  match framer with
  | PyNone => Valid DEFAULT_FRAMER
  | _ =>
      match as_str framer with
      | Some s =>
          if negb (existsb (String.eqb s) DEFAULT_FRAMER_LIST)
          then SerialConnectionConfigError ("Unsupported Framer type: " +:+ str framer)
          else Valid s
      | None => SerialConnectionConfigError ("Unsupported Framer type: " +:+ str framer)
      end
  end.

End Validation.

(** ** config/serial_connection_implementation.py *)

(** A [SerialConnectionMinimalConfig] object. [obj_id] is the identity of the
    object ([id(self)]): two objects can agree on every property. *)
Record SerialConnectionMinimalConfig := {
  obj_id : nat;
  port : string;
  baudrate : Z;
  bytesize : Z;
  parity : string;
  stopbits : Z
}.

Definition to_dict (self : SerialConnectionMinimalConfig) : ConParams :=
  {| cp_port := port self; cp_baudrate := baudrate self; cp_bytesize := bytesize self;
     cp_parity := parity self; cp_stopbits := stopbits self |}.

(** The [__eq__] and [__hash__] that [set()] applies to descriptors.
    [SerialConnectionMinimalConfig] defines neither; its base class
    [SerialConnectionMinimalConfigModel] (serial_connection_interface.py) is
    not among the sources, so the comparison is a parameter of the
    controller. *)
Class ConfigEq := config_eqb : SerialConnectionMinimalConfig -> SerialConnectionMinimalConfig -> bool.

(** Python's default for a class that defines no [__eq__]: identity. *)
Definition identity_eq : ConfigEq :=
  fun a b => Nat.eqb (obj_id a) (obj_id b).

(** A base class that compared descriptors by port name would give this. *)
Definition port_name_eq : ConfigEq :=
  fun a b => String.eqb (port a) (port b).

(** The constructor and the property setters of
    [SerialConnectionMinimalConfig]; [obj_id] is the identity the new
    object gets. An integer property holds the integer its argument is. *)
Module MinimalConfig.

Import Validation.

Definition init (obj_id : nat) (port baudrate bytesize parity stopbits : Value)
    : Result SerialConnectionMinimalConfig :=
  and_then (validate_port port) (fun _port =>
  and_then (validate_baudrate baudrate) (fun _baudrate =>
  and_then (validate_bytesize bytesize) (fun _bytesize =>
  and_then (validate_parity parity) (fun _parity =>
  and_then (validate_stopbits stopbits) (fun _stopbits =>
  Valid {| obj_id := obj_id; port := _port; baudrate := _baudrate; bytesize := _bytesize;
           parity := _parity; stopbits := _stopbits |}))))).

Definition set_port (self : SerialConnectionMinimalConfig) (value : Value)
    : Result SerialConnectionMinimalConfig :=
  and_then (validate_port value) (fun _port =>
  Valid {| obj_id := obj_id self; port := _port; baudrate := baudrate self;
           bytesize := bytesize self; parity := parity self; stopbits := stopbits self |}).

Definition set_baudrate (self : SerialConnectionMinimalConfig) (value : Value)
    : Result SerialConnectionMinimalConfig :=
  and_then (validate_baudrate value) (fun _baudrate =>
  Valid {| obj_id := obj_id self; port := port self; baudrate := _baudrate;
           bytesize := bytesize self; parity := parity self; stopbits := stopbits self |}).

Definition set_bytesize (self : SerialConnectionMinimalConfig) (value : Value)
    : Result SerialConnectionMinimalConfig :=
  and_then (validate_bytesize value) (fun _bytesize =>
  Valid {| obj_id := obj_id self; port := port self; baudrate := baudrate self;
           bytesize := _bytesize; parity := parity self; stopbits := stopbits self |}).

Definition set_parity (self : SerialConnectionMinimalConfig) (value : Value)
    : Result SerialConnectionMinimalConfig :=
  and_then (validate_parity value) (fun _parity =>
  Valid {| obj_id := obj_id self; port := port self; baudrate := baudrate self;
           bytesize := bytesize self; parity := _parity; stopbits := stopbits self |}).

Definition set_stopbits (self : SerialConnectionMinimalConfig) (value : Value)
    : Result SerialConnectionMinimalConfig :=
  and_then (validate_stopbits value) (fun _stopbits =>
  Valid {| obj_id := obj_id self; port := port self; baudrate := baudrate self;
           bytesize := bytesize self; parity := parity self; stopbits := _stopbits |}).

(** The constructor called with the entries of a dictionary as [to_dict]
    gives it for its keyword arguments. *)
Definition from_dict (obj_id : nat) (con_params : ConParams)
    : Result SerialConnectionMinimalConfig :=
  init obj_id (PyStr (cp_port con_params)) (PyInt (cp_baudrate con_params))
    (PyInt (cp_bytesize con_params)) (PyStr (cp_parity con_params))
    (PyInt (cp_stopbits con_params)).

End MinimalConfig.

(** ** virtual_serial_network.py *)

Inductive Level := debug | info | warning | error.

Module VirtualSerialNetwork.

Inductive Connection := Pipe_end.
Inductive ProcessHandle := Process_handle.

(** The attributes of a [VirtualSerialNetwork] object;
    [master_io], [worker_io] and [p] are its private [__master_io],
    [__worker_io] and [__p]. *)
Record Self := {
  master_io : option Connection;
  worker_io : option Connection;
  p : option ProcessHandle;
  loopback : bool;
  external_ports : list SerialConnectionMinimalConfig;
  virtual_ports_num : Z;
  serial_ports : list string
}.

(** The worker process behind the pipe: its state and the arguments
    [create_serial_network] was started with. *)
Record Process := {
  state : Worker.State;
  process_loopback : bool;
  process_openpty_func : option Callable
}.

(** What the controller acts on besides its own attributes. *)
Record World := {
  process : option Process;          (* the worker, while it runs *)
  pipe : list Response;              (* sent by the worker, not yet received *)
  commands : list Command;           (* every message sent to the worker *)
  received : list Response;          (* every message received from the worker *)
  logger : list (Level * string)     (* records passed to the logger *)
}.

Definition set_process (v : option Process) (w : World) : World :=
  {| process := v; pipe := pipe w; commands := commands w; received := received w;
     logger := logger w |}.

Definition set_pipe (v : list Response) (w : World) : World :=
  {| process := process w; pipe := v; commands := commands w; received := received w;
     logger := logger w |}.

Definition set_commands (v : list Command) (w : World) : World :=
  {| process := process w; pipe := pipe w; commands := v; received := received w;
     logger := logger w |}.

Definition set_received (v : list Response) (w : World) : World :=
  {| process := process w; pipe := pipe w; commands := commands w; received := v;
     logger := logger w |}.

Definition set_logger (v : list (Level * string)) (w : World) : World :=
  {| process := process w; pipe := pipe w; commands := commands w; received := received w;
     logger := v |}.

Definition set_master_io (v : option Connection) (s : Self) : Self :=
  {| master_io := v; worker_io := worker_io s; p := p s; loopback := loopback s;
     external_ports := external_ports s; virtual_ports_num := virtual_ports_num s;
     serial_ports := serial_ports s |}.

Definition set_worker_io (v : option Connection) (s : Self) : Self :=
  {| master_io := master_io s; worker_io := v; p := p s; loopback := loopback s;
     external_ports := external_ports s; virtual_ports_num := virtual_ports_num s;
     serial_ports := serial_ports s |}.

Definition set_p (v : option ProcessHandle) (s : Self) : Self :=
  {| master_io := master_io s; worker_io := worker_io s; p := v; loopback := loopback s;
     external_ports := external_ports s; virtual_ports_num := virtual_ports_num s;
     serial_ports := serial_ports s |}.

Definition set_external_ports (v : list SerialConnectionMinimalConfig) (s : Self) : Self :=
  {| master_io := master_io s; worker_io := worker_io s; p := p s; loopback := loopback s;
     external_ports := v; virtual_ports_num := virtual_ports_num s;
     serial_ports := serial_ports s |}.

Definition set_virtual_ports_num (v : Z) (s : Self) : Self :=
  {| master_io := master_io s; worker_io := worker_io s; p := p s; loopback := loopback s;
     external_ports := external_ports s; virtual_ports_num := v;
     serial_ports := serial_ports s |}.

Definition set_serial_ports (v : list string) (s : Self) : Self :=
  {| master_io := master_io s; worker_io := worker_io s; p := p s; loopback := loopback s;
     external_ports := external_ports s; virtual_ports_num := virtual_ports_num s;
     serial_ports := v |}.

(** A method either returns, with the object and the world as it left
    them, or blocks for ever in [recv] ([None]). *)
Definition C (A : Type) : Type := Self * World -> option (A * (Self * World)).

#[global] Instance controller_ret : MRet C := fun A a s => Some (a, s).
#[global] Instance controller_bind : MBind C := fun A B k m s =>
  match m s with
  | Some (a, s') => k a s'
  | None => None
  end.

Definition get_self : C Self := fun s => Some (fst s, s).

Definition modify_self (f : Self -> Self) : C unit := fun s => Some (tt, (f (fst s), snd s)).

Definition modify_world (f : World -> World) : C unit := fun s => Some (tt, (fst s, f (snd s))).

(** [for _ in range(n)], threading the local variables of the loop. *)
Fixpoint for_range {A : Type} (n : nat) (acc : A) (body : A -> C A) : C A :=
  match n with
  | O => mret acc
  | S n' => acc' ← body acc; for_range n' acc' body
  end.

(** [for x in l], threading the local variables of the loop. *)
Fixpoint for_each {A B : Type} (l : list B) (acc : A) (body : B -> A -> C A) : C A :=
  match l with
  | [] => mret acc
  | x :: r => acc' ← body x acc; for_each r acc' body
  end.

(** [self.logger.debug(...)] and the like. *)
Definition log (level : Level) (msg : string) : C unit :=
  modify_world (fun w => set_logger (logger w ++ [(level, msg)]) w).

(** [_ext_ports_remove_duplicates] on a list. *)
Fixpoint remove_duplicates_from (new_external_ports_list external_ports : list SerialConnectionMinimalConfig)
    : list SerialConnectionMinimalConfig :=
  match external_ports with
  | [] => new_external_ports_list
  | port_params :: r =>
      let duplicate := existsb (fun added_port => String.eqb (port port_params) (port added_port))
                         new_external_ports_list in
      remove_duplicates_from
        (if duplicate then new_external_ports_list else new_external_ports_list ++ [port_params]) r
  end.

Definition _ext_ports_remove_duplicates : C unit :=
  modify_self (fun s => set_external_ports (remove_duplicates_from [] (external_ports s)) s).

(** [_update_ext_ports(ports_connected)] *)
Definition _update_ext_ports (ports_connected : list string) : C unit :=
  modify_self (fun s =>
    set_external_ports
      (List.filter (fun port_params => existsb (String.eqb (port port_params)) ports_connected)
         (external_ports s)) s).

(** [__init__(virtual_ports_num, external_ports, loopback, logger)] *)
Definition init (virtual_ports_num : Z) (external_ports : option (list SerialConnectionMinimalConfig))
    (loopback : bool) : Self :=
  {| master_io := None; worker_io := None; p := None; loopback := loopback;
     external_ports := remove_duplicates_from [] (default [] external_ports);
     virtual_ports_num := virtual_ports_num;
     serial_ports := [] |}.

Section Controller.

Variable os : OS.
Context {string_order : Py.SetOrder string}.
Context {config_order : Py.SetOrder SerialConnectionMinimalConfig}.
Context {config_eq : ConfigEq}.

(** What the worker does with [m], from the state [st]: the messages it
    sends go into the pipe. *)
Definition run_worker {A : Type} (m : Worker.M A) (st : Worker.State)
    : Worker.Result A * Worker.State * list Response :=
  let '(r, st') := m (Worker.set_worker_io [] st) in
  (r, Worker.set_worker_io [] st', Worker.worker_io st').

(** [self.__master_io, self.__worker_io = Pipe()] *)
Definition Pipe : C unit :=
  modify_self (set_master_io (Some Pipe_end)) ;;
  modify_self (set_worker_io (Some Pipe_end)) ;;
  modify_world (set_pipe []).

(** [Process(target=create_serial_network, args=...)] and [p.start()]: the
    worker runs up to its loop. *)
Definition spawn (ports_number : Z) (external_ports : option (list ConParams))
    (loopback : bool) (openpty_func : option Callable) : C unit :=
  modify_world (fun w =>
    let '(_, st, out) :=
      run_worker (Worker.create_serial_network_setup os ports_number external_ports openpty_func)
        Worker.empty in
    set_process (Some {| state := st; process_loopback := loopback;
                         process_openpty_func := openpty_func |})
      (set_pipe (pipe w ++ out) w)) ;;
  modify_self (set_p (Some Process_handle)).

(** [self.__master_io.send(message)]: the worker takes the message in the
    next turn of its loop and handles it to the end; [stop] ends the loop
    and with it the process. *)
Definition send (message : Command) : C unit :=
  modify_world (fun w =>
    let w := set_commands (commands w ++ [message]) w in
    match process w with
    | Some pr =>
        let '(r, st, out) :=
          run_worker (Worker.process_cmd os (Some message) (process_openpty_func pr)) (state pr) in
        set_process
          (match r with
           | Worker.Ret true =>
               Some {| state := st; process_loopback := process_loopback pr;
                       process_openpty_func := process_openpty_func pr |}
           | _ => None
           end)
          (set_pipe (pipe w ++ out) w)
    | None => w
    end).

(** [self.__master_io.recv()]: the oldest response in the pipe; when the
    pipe is empty the worker has nothing more to send and the call never
    returns. *)
Definition recv : C Response := fun s =>
  match pipe (snd s) with
  | response :: rest =>
      Some (response,
            (fst s, set_received (received (snd s) ++ [response]) (set_pipe rest (snd s))))
  | [] => None
  end.

(** The loop that [start] and [create] run over the responses for virtual
    ports. *)
Definition recv_virtual_ports (n : Z) : C unit :=
  for_range (Z.to_nat n) tt (fun _ =>
    response ← recv;
    match response with
    | ERROR e _ => log error ("VSN: ERROR (" +:+ e +:+ ")")
    | OK data =>
        modify_self (fun s => set_serial_ports (serial_ports s ++ [data]) s) ;;
        modify_self (fun s => set_virtual_ports_num (virtual_ports_num s + 1) s)
    | _ => mret tt
    end).

(** The loop that [start] runs over the responses for external ports; the
    result is [ports_connected]. *)
Definition recv_connected_ports (n : nat) : C (list string) :=
  for_range n [] (fun ports_connected =>
    response ← recv;
    match response with
    | ERROR e _ => log error ("VSN: ERROR (" +:+ e +:+ ")") ;; mret ports_connected
    | OK data => mret (ports_connected ++ [data])
    | _ => mret ports_connected
    end).

(** [start(openpty_func)] *)
Definition start (openpty_func : option Callable) : C unit :=
  log debug "VSN: STARTING" ;;
  Pipe ;;
  self ← get_self;
  let external_ports_dicts :=
    match external_ports self with
    | [] => None
    | _ => Some (map to_dict (external_ports self))
    end in
  let virtual_ports_num0 := virtual_ports_num self in
  spawn virtual_ports_num0 external_ports_dicts (loopback self) openpty_func ;;
  modify_self (set_virtual_ports_num 0) ;;
  recv_virtual_ports virtual_ports_num0 ;;
  ports_connected ← recv_connected_ports (length (external_ports self));
  _update_ext_ports ports_connected ;;
  _ext_ports_remove_duplicates ;;
  modify_self (fun s => set_serial_ports (serial_ports s ++ ports_connected) s) ;;
  modify_self (fun s => set_serial_ports (Py.list_set String.eqb (serial_ports s)) s) ;;
  log info "VSN: STARTED" ;;
  self ← get_self;
  log info ("VSN: " +:+ String.concat ", " (serial_ports self)).

(** [stop()] *)
Definition stop : C unit :=
  self ← get_self;
  match p self with
  | Some _ =>
      log debug "VSN: STOPPING" ;;
      send CmdStop ;;
      (* self.__p.join(timeout=5) *)
      modify_self (set_p None) ;;
      modify_self (set_master_io None) ;;
      modify_self (set_worker_io None) ;;
      modify_self (set_serial_ports []) ;;
      log info "VSN: STOPPED"
  | None => mret tt
  end.

(** The loop that [add] runs over the responses; [candidates] is
    [list(set(external_ports))] and the result is [ports_connected]. *)
Definition recv_added_ports (candidates : list SerialConnectionMinimalConfig) (n : nat)
    : C (list SerialConnectionMinimalConfig) :=
  for_range n [] (fun ports_connected =>
    response ← recv;
    match response with
    | ERROR e _ => log error ("VSN: ERROR (" +:+ e +:+ ")") ;; mret ports_connected
    | EXIST data =>
        log error ("VSN: Port (" +:+ data +:+ ") already added.") ;; mret ports_connected
    | OK data =>
        match List.find (fun port_ => String.eqb (port port_) data) candidates with
        | Some port_ => mret (ports_connected ++ [port_])
        | None => mret ports_connected
        end
    | _ => mret ports_connected
    end).

(** [add(external_ports)] *)
Definition add (external_ports_arg : list SerialConnectionMinimalConfig) : C unit :=
  self ← get_self;
  match master_io self with
  | Some _ =>
      let ext_ports := map to_dict (Py.list_set config_eqb external_ports_arg) in
      send (CmdAdd ext_ports) ;;
      ports_connected ←
        recv_added_ports (Py.list_set config_eqb external_ports_arg) (length ext_ports);
      modify_self (fun s => set_external_ports (external_ports s ++ ports_connected) s) ;;
      _ext_ports_remove_duplicates ;;
      modify_self (fun s => set_serial_ports (serial_ports s ++ map port ports_connected) s) ;;
      modify_self (fun s => set_serial_ports (Py.list_set String.eqb (serial_ports s)) s)
  | None => mret tt
  end.

(** [create(ports_num)] *)
Definition create (ports_num : Z) : C unit :=
  self ← get_self;
  match master_io self with
  | Some _ =>
      send (CmdCreate ports_num) ;;
      recv_virtual_ports ports_num
  | None => mret tt
  end.

(** [del self.external_ports[i]] for the first [i] with
    [self.external_ports[i].port == port]; [None] when the loop ends with
    [found] still false. *)
Fixpoint del_first (port_ : string) (external_ports : list SerialConnectionMinimalConfig)
    : option (list SerialConnectionMinimalConfig) :=
  match external_ports with
  | [] => None
  | ext_port :: r =>
      if String.eqb (port ext_port) port_ then Some r
      else option_map (cons ext_port) (del_first port_ r)
  end.

(** The loop that [remove] runs over the responses; the result is
    [removed_ports]. *)
Definition recv_removed_ports (n : nat) : C (list string) :=
  for_range n [] (fun removed_ports =>
    response ← recv;
    match response with
    | ERROR e _ => log error ("VSN: ERROR (" +:+ e +:+ ")") ;; mret removed_ports
    | NOT_EXIST data =>
        log warning ("VSN: Port " +:+ data +:+ " not found") ;; mret removed_ports
    | OK data => mret (removed_ports ++ [data])
    | _ => mret removed_ports
    end).

(** The loop of [remove] over [removed_ports]. *)
Definition forget_ports (removed_ports : list string) : C unit :=
  for_each removed_ports tt (fun port_ _ =>
    s ← get_self;
    match del_first port_ (external_ports s) with
    | Some l => modify_self (set_external_ports l)
    | None => modify_self (set_virtual_ports_num (virtual_ports_num s - 1))
    end).

(** [remove(remove_list)] *)
Definition remove (remove_list : list string) : C unit :=
  self ← get_self;
  match master_io self with
  | Some _ =>
      send (CmdRemove remove_list) ;;
      removed_ports ← recv_removed_ports (length remove_list);
      forget_ports removed_ports ;;
      modify_self (fun s =>
        set_serial_ports (Py.list_set_diff String.eqb (serial_ports s) removed_ports) s)
  | None => mret tt
  end.

End Controller.

End VirtualSerialNetwork.

(** ** virtual_serial_pair.py *)

Module VirtualSerialPair.

Import VirtualSerialNetwork.

(** [__init__(logger)] *)
Definition init : Self := VirtualSerialNetwork.init 2 None false.

Section Pair.

Variable os : OS.
Context {string_order : Py.SetOrder string}.

(** [start(openpty_func)]; [self.stop()] is the inherited method. *)
Definition start (openpty_func : option Callable) : C unit :=
  VirtualSerialNetwork.start os openpty_func ;;
  self ← get_self;
  if Z.ltb (virtual_ports_num self) 2
  then log error "VSN: Failed to create virtual serial ports." ;;
       VirtualSerialNetwork.stop os
  else mret tt.

Definition add (external_ports : list SerialConnectionMinimalConfig) : C unit :=
  log info "VSN: Not implemented for Virtual Serial Pair.".

Definition create (ports_num : Z) : C unit :=
  log info "VSN: Not implemented for Virtual Serial Pair.".

Definition remove (remove_list : list string) : C unit :=
  log info "VSN: Not implemented for Virtual Serial Pair.".

End Pair.

End VirtualSerialPair.

(** ** utilities/mock.py *)

Module Mock.

(** [mock_openpty]: every call raises [OSError]. *)
Definition mock_openpty : Callable := fun _ => None.

End Mock.

(** ** utilities/numeric.py *)

Module Numeric.

Inductive Raised (A : Type) :=
| Returns (a : A)
| ValueError (message : string).
Arguments Returns {A} a.
Arguments ValueError {A} message.

(** The members of [ByteOrder], and what else a caller may pass for
    [byteorder]. *)
Inductive ByteOrder :=
| LITTLE_ENDIAN
| BIG_ENDIAN
| NotAByteOrder.

Definition to_signed32 (n : Z) : Z :=
  let n := Z.land n 0xFFFFFFFF in
  if Z.eqb (Z.land n 0x80000000) 0 then n else n - 0x100000000.

Definition from_signed32 (n : Z) : Z := Z.land n 0xFFFFFFFF.

Definition to_signed16 (n : Z) : Z :=
  let n := Z.land n 0xFFFF in
  if Z.eqb (Z.land n 0x8000) 0 then n else n - 0x10000.

Definition from_signed16 (n : Z) : Z := Z.land n 0xFFFF.

(** [split_32bit(n, byteorder)] and [combine_32bit(a, b, byteorder)] for
    integers [n], [a] and [b]; the functions raise [TypeError] for
    arguments that are no integers. *)
Definition split_32bit (n : Z) (byteorder : ByteOrder) : Raised (Z * Z) :=
  match byteorder with
  | BIG_ENDIAN => Returns (Z.shiftr (Z.land n 0xFFFFFFFF) 16, Z.land n 0xFFFF)
  | LITTLE_ENDIAN => Returns (Z.land n 0xFFFF, Z.shiftr (Z.land n 0xFFFFFFFF) 16)
  | NotAByteOrder => ValueError "Invalid byteorder value"
  end.

Definition combine_32bit (a b : Z) (byteorder : ByteOrder) : Raised Z :=
  match byteorder with
  | LITTLE_ENDIAN => Returns (Z.shiftl (Z.land b 0xFFFF) 16 + Z.land a 0xFFFF)
  | BIG_ENDIAN => Returns (Z.shiftl (Z.land a 0xFFFF) 16 + Z.land b 0xFFFF)
  | NotAByteOrder => ValueError "Invalid byteorder value"
  end.

End Numeric.

(** ** utilities/checksum.py *)

Module Checksum.

(** Iterating over [bytes] yields integers from 0 to 255. *)
Definition int (b : byte) : Z := Z.of_N (Byte.to_N b).

(** The body of [for _ in range(8)], run [k] times. *)
Fixpoint shift_bits (k : nat) (cs : Z) : Z :=
  match k with
  | O => cs
  | S k' =>
      shift_bits k'
        (if Z.eqb (Z.land cs 0x0001) 0
         then Z.shiftr cs 1
         else Z.lxor (Z.shiftr cs 1) 0xA001)
  end.

(** The loop of [check_sum] over [payload], started with [cs]. *)
Definition check_sum_from (cs : Z) (payload : list byte) : Z :=
  fold_left (fun cs data_byte => shift_bits 8 (Z.lxor cs (int data_byte))) payload cs.

Definition check_sum (payload : list byte) : Z := check_sum_from 0xFFFF payload.

Definition lrc (payload : list byte) : Z :=
  let cs := fold_left (fun cs data_byte => cs + int data_byte) payload 0 in
  Z.land (Z.lxor cs 0xFF + 1) 0xFF.

(** [message[-1]] raises [IndexError] on the empty message, which the
    function catches; [message[:-1]] is the message without its last byte. *)
Definition check_lrc (message : list byte) : bool :=
  match message with
  | [] => false
  | _ :: _ =>
      let cs := int (List.last message x00) in
      let payload := removelast message in
      if Z.eqb (lrc payload) cs then true else false
  end.

End Checksum.

(** ** Concrete machines *)

Module Examples.

Import VirtualSerialNetwork.

Definition PING : list byte := [x50; x49; x4e; x47].

(** Slave descriptor [11 + 2k] is the terminal [/dev/pts/k], for [k < 4]. *)
Definition ttyname (fd : Z) : option string :=
  if Z.eqb fd 11 then Some "/dev/pts/0"
  else if Z.eqb fd 13 then Some "/dev/pts/1"
  else if Z.eqb fd 15 then Some "/dev/pts/2"
  else if Z.eqb fd 17 then Some "/dev/pts/3"
  else None.

(** The [k]-th pty has master [10 + 2k] and slave [11 + 2k]. *)
Definition openpty : Callable :=
  fun k => Some (10 + 2 * Z.of_nat k, 11 + 2 * Z.of_nat k).

(** A factory that runs out after two ptys. *)
Definition openpty_two : Callable :=
  fun k => if Nat.ltb k 2 then openpty k else None.

(** A factory that runs out after one pty. *)
Definition openpty_one : Callable :=
  fun k => if Nat.ltb k 1 then openpty k else None.

(** A factory whose ptys all share the slave of the first. *)
Definition openpty_same_slave : Callable :=
  fun k => Some (10 + 2 * Z.of_nat k, 11).

(** Serial devices open on descriptor 40; everything works. *)
Definition os_ok : OS :=
  {| pty_openpty := openpty;
     tty_setraw := fun _ => true;
     os_set_blocking := fun _ => true;
     os_ttyname := ttyname;
     io_open := fun _ => true;
     Serial_open := fun _ => Some 40;
     file_close := fun _ => true;
     file_read := fun fd => if Z.eqb fd 3 then ReadBytes PING else ReadNone;
     file_write := fun _ _ => true |}.

(** The same machine, but writing to descriptor 4 fails. *)
Definition os_broken_4 : OS :=
  {| pty_openpty := openpty;
     tty_setraw := fun _ => true;
     os_set_blocking := fun _ => true;
     os_ttyname := ttyname;
     io_open := fun _ => true;
     Serial_open := fun _ => Some 40;
     file_close := fun _ => true;
     file_read := fun fd => if Z.eqb fd 3 then ReadBytes PING else ReadNone;
     file_write := fun fd _ => negb (Z.eqb fd 4) |}.

(** The same machine, but closing a file fails. *)
Definition os_no_close : OS :=
  {| pty_openpty := openpty;
     tty_setraw := fun _ => true;
     os_set_blocking := fun _ => true;
     os_ttyname := ttyname;
     io_open := fun _ => true;
     Serial_open := fun _ => Some 40;
     file_close := fun _ => false;
     file_read := fun fd => if Z.eqb fd 3 then ReadBytes PING else ReadNone;
     file_write := fun _ _ => true |}.

(** A worker with three ports, on descriptors 3, 4 and 5. *)
Definition three_ports : Worker.State :=
  Worker.set_master_files [(3, Worker.FileIO); (4, Worker.FileIO); (5, Worker.FileIO)]
    (Worker.set_selector [3; 4; 5]
       (Worker.set_slave_names
          (<["/dev/pts/0" := 3]> (<["/dev/pts/1" := 4]> (<["/dev/pts/2" := 5]> ∅)))
          Worker.empty)).

Definition world0 : World :=
  {| process := None; pipe := []; commands := []; received := []; logger := [] |}.

(** Two descriptor objects for the same device. *)
Definition usb_a : SerialConnectionMinimalConfig :=
  {| obj_id := 1; port := "/dev/ttyUSB0"; baudrate := 9600; bytesize := 8;
     parity := "N"; stopbits := 1 |}.

Definition usb_b : SerialConnectionMinimalConfig :=
  {| obj_id := 2; port := "/dev/ttyUSB0"; baudrate := 9600; bytesize := 8;
     parity := "N"; stopbits := 1 |}.

End Examples.

(** ** The vocabulary of the properties *)

(** *** The forwarding step *)

Module ForwardSpec.

Import Worker.

(** The descriptors one event is broadcast to, in the order of
    [master_files.items()]. *)
Definition targets (loopback : bool) (key_fd : Z) (items : list (Z * FileObj)) : list Z :=
  List.filter (fun fd => loopback || negb (Z.eqb fd key_fd)) (Py.keys items).

(** The longest prefix of [fds] on which writing [data] works. *)
Fixpoint delivered (os : OS) (data : list byte) (fds : list Z) : list Z :=
  match fds with
  | [] => []
  | fd :: r => if file_write os fd data then fd :: delivered os data r else []
  end.

(** The statement that a failed write costs no other target its copy: every
    target that can be written gets the data of the event. *)
Definition delivery_survives_failures (os : OS) (w : State) (loopback : bool)
    (key_fd events : Z) (data : list byte) : Prop :=
  forall fd,
    In fd (targets loopback key_fd (master_files w)) ->
    file_write os fd data = true ->
    In (fd, data) (written (snd (forward_event os loopback (key_fd, events) w))).

(** An event that gives nothing to forward: it is no read event, its
    descriptor has no file, or the read raises or returns [None]. *)
Definition idle (os : OS) (w : State) (event : Z * Z) : Prop :=
  Z.land (snd event) EVENT_READ = 0 \/
  Py.dict_get (master_files w) (fst event) = None \/
  file_read os (fst event) = ReadRaises \/
  file_read os (fst event) = ReadNone.

End ForwardSpec.

(** *** Responses of the worker *)

Module ReplySpec.

Import Worker.

(** [m] sends nothing. *)
Definition silent {A : Type} (m : M A) : Prop :=
  forall w, worker_io (snd (m w)) = worker_io w.

(** [m] sends one response, a [P] one, when it returns and none when it
    raises. *)
Definition replies {A : Type} (P : Response -> Prop) (m : M A) : Prop :=
  forall w,
    match m w with
    | (Ret _, w') => exists r, worker_io w' = worker_io w ++ [r] /\ P r
    | (Raise _, w') => worker_io w' = worker_io w
    end.

(** [m] returns and has sent exactly one response, a [P] one. *)
Definition answers (P : Response -> Prop) (m : M unit) : Prop :=
  forall w, exists r,
    fst (m w) = Ret tt /\ worker_io (snd (m w)) = worker_io w ++ [r] /\ P r.

Definition is_error (r : Response) : Prop := exists e t, r = ERROR e t.

(** The possible responses for one port to create, one external port to
    add, one name to remove. *)
Definition create_reply (r : Response) : Prop :=
  (exists slave_name, r = OK slave_name) \/ is_error r.

Definition add_reply (con_params : ConParams) (r : Response) : Prop :=
  r = OK (cp_port con_params) \/ r = EXIST (cp_port con_params) \/ is_error r.

Definition remove_reply (slave_name : string) (r : Response) : Prop :=
  r = OK slave_name \/ r = NOT_EXIST slave_name \/ is_error r.

End ReplySpec.

(** *** The loops of the controller *)

Module ControllerSpec.

Import VirtualSerialNetwork.

(** The names of the [OK] responses of a batch. *)
Fixpoint ok_names (rs : list Response) : list string :=
  match rs with
  | [] => []
  | OK data :: r => data :: ok_names r
  | _ :: r => ok_names r
  end.

(** A handler of one response that never blocks and touches nothing but
    the loop variable ([g]), the object ([u]) and the logger. *)
Definition local_handler {A : Type} (h : Response -> A -> C A)
    (g : Response -> A -> A) (u : Response -> Self -> Self) : Prop :=
  forall r acc s w, exists lg,
    h r acc (s, w) = Some (g r acc, (u r s, set_logger (logger w ++ lg) w)).

(** [for _ in range(n): response = recv(); h(response)] *)
Definition recv_loop {A : Type} (h : Response -> A -> C A) (n : nat) (acc : A) : C A :=
  for_range n acc (fun acc => response ← recv; h response acc).

(** What consuming the responses [rs] for virtual ports does to the object. *)
Definition absorb_virtual (rs : list Response) (s : Self) : Self :=
  set_virtual_ports_num (virtual_ports_num s + Z.of_nat (length (ok_names rs)))
    (set_serial_ports (serial_ports s ++ ok_names rs) s).

End ControllerSpec.

(** *** Running networks *)

Module RunSpec.

Import VirtualSerialNetwork ControllerSpec.

(** What the worker sends while it runs [m] from the state [st], and the
    state it is left in. *)
Definition worker_out {A : Type} (m : Worker.M A) (st : Worker.State) : list Response :=
  Worker.worker_io (snd (m (Worker.set_worker_io [] st))).

Definition worker_next {A : Type} (m : Worker.M A) (st : Worker.State) : Worker.State :=
  Worker.set_worker_io [] (snd (m (Worker.set_worker_io [] st))).

(** The descriptor objects that [add] connects: for each [OK] name, the
    first candidate with that port name. *)
Definition connected (candidates : list SerialConnectionMinimalConfig) (rs : list Response)
    : list SerialConnectionMinimalConfig :=
  flat_map (fun data =>
              match List.find (fun port_ => String.eqb (port port_) data) candidates with
              | Some port_ => [port_]
              | None => []
              end) (ok_names rs).

(** What [remove] does to the object for one removed name: the matching
    external descriptor goes if there is one, otherwise the count of
    virtual ports goes down by one. *)
Definition forget (port_ : string) (s : Self) : Self :=
  match del_first port_ (external_ports s) with
  | Some l => set_external_ports l s
  | None => set_virtual_ports_num (virtual_ports_num s - 1) s
  end.

(** The network runs: the controller holds the pipe and the process, the
    worker is alive and no response is pending. *)
Definition running (s : Self) (w : World) (pr : Process) : Prop :=
  master_io s <> None /\ p s <> None /\ process w = Some pr /\ pipe w = [].

End RunSpec.

(** *** Removed names *)

Module RemoveSpec.

Import VirtualSerialNetwork RunSpec.

(** What the removal of [name] is to do to the descriptors and the count
    of virtual ports: the first descriptor with that port name goes and the
    count stays, or, where no descriptor has that port name, the descriptors
    stay and the count goes down by one. *)
Definition forgets (name : string) (s s' : Self) : Prop :=
  (exists before d after,
     external_ports s = before ++ d :: after /\
     port d = name /\
     (forall c, In c before -> port c <> name) /\
     external_ports s' = before ++ after /\
     virtual_ports_num s' = virtual_ports_num s) \/
  ((forall c, In c (external_ports s) -> port c <> name) /\
   external_ports s' = external_ports s /\
   virtual_ports_num s' = virtual_ports_num s - 1).

(** The same for the names of a list, one after the other. *)
Inductive forgets_all : list string -> Self -> Self -> Prop :=
| forgets_none s s' :
    external_ports s' = external_ports s ->
    virtual_ports_num s' = virtual_ports_num s ->
    forgets_all [] s s'
| forgets_next name names s s1 s' :
    forgets name s s1 -> forgets_all names s1 s' -> forgets_all (name :: names) s s'.

(** The statement that on a running network every registered name is
    removed: it draws [OK] and leaves the list of names. *)
Definition registered_name_goes `{Py.SetOrder string} (os : OS) (s : Self) (w : World)
    (pr : Process) (name : string) : Prop :=
  running s w pr ->
  is_Some (Worker.slave_names (state pr) !! name) ->
  exists s' w',
    remove os [name] (s, w) = Some (tt, (s', w')) /\
    received w' = received w ++ [OK name] /\
    ~ In name (serial_ports s').

End RemoveSpec.

(** *** Pty factories *)

Module FactorySpec.

Import Worker.

(** The factory the worker calls. *)
Definition factory (os : OS) (openpty_func : option Callable) : Callable :=
  match openpty_func with
  | Some f => f
  | None => pty_openpty os
  end.

(** A pty as the worker needs it: the master can be put in raw mode, made
    non-blocking, opened and registered, and the slave has the name [name]. *)
Definition pty_works (os : OS) (master_fd slave_fd : Z) (name : string) : Prop :=
  tty_setraw os master_fd = true /\
  os_set_blocking os master_fd = true /\
  os_ttyname os slave_fd = Some name /\
  io_open os master_fd = true /\
  0 <= master_fd.

(** From its [k]-th call on, the factory returns the ptys of the list, one
    per call. *)
Fixpoint returns_from (os : OS) (openpty_func : option Callable) (k : nat)
    (ptys : list (Z * Z * string)) : Prop :=
  match ptys with
  | [] => True
  | (master_fd, slave_fd, name) :: r =>
      factory os openpty_func k = Some (master_fd, slave_fd) /\
      pty_works os master_fd slave_fd name /\
      returns_from os openpty_func (S k) r
  end.

Definition masters (ptys : list (Z * Z * string)) : list Z := map (fun x => fst (fst x)) ptys.

Definition names (ptys : list (Z * Z * string)) : list string := map snd ptys.

(** The factory succeeds on each of its first calls: they return the ptys of
    the list, which work and are new, each with a master and a name of its
    own. *)
Definition factory_succeeds (os : OS) (openpty_func : option Callable)
    (ptys : list (Z * Z * string)) : Prop :=
  returns_from os openpty_func 0 ptys /\
  List.NoDup (masters ptys) /\
  List.NoDup (names ptys).

(** No call of the factory raises. *)
Definition never_fails (os : OS) (openpty_func : option Callable) : Prop :=
  forall k, is_Some (factory os openpty_func k).

(** The statement that with such a factory [start] ends with a name for
    each of the [n] ports. *)
Definition start_names_every_port `{Py.SetOrder string} (os : OS)
    (openpty_func : option Callable) (n : Z) : Prop :=
  never_fails os openpty_func ->
  forall loopback w s' w',
    VirtualSerialNetwork.start os openpty_func (VirtualSerialNetwork.init n None loopback, w)
      = Some (tt, (s', w')) ->
    Z.of_nat (length (VirtualSerialNetwork.serial_ports s')) = n.

End FactorySpec.

(** *** Stopped networks *)

Module StopSpec.

Import VirtualSerialNetwork.

(** The statement that [stop] resets the three parts of the controller's state. *)
Definition cleared (s : Self) : Prop :=
  serial_ports s = [] /\ external_ports s = [] /\ virtual_ports_num s = 0.

Definition stop_clears_everything (os : OS) (s : Self) (w : World) : Prop :=
  forall s' w', stop os (s, w) = Some (tt, (s', w')) -> cleared s'.

(** What a method call leaves behind, or the state it started from if it
    never returns. *)
Definition after (start_state : Self * World) (m : C unit) : Self * World :=
  match m start_state with
  | Some (_, sw) => sw
  | None => start_state
  end.

(** [__master_io] and [__p] are set and cleared together. *)
Definition handles_agree (s : Self) : Prop :=
  p s = None -> master_io s = None.

(** The statement that the [start] of a pair which got fewer than two
    [OK] leaves the pair stopped and its state empty. *)
Definition failed_start_clears_everything `{Py.SetOrder string} (os : OS)
    (openpty_func : option Callable) (s : Self) (w : World) : Prop :=
  forall s' w',
    VirtualSerialPair.start os openpty_func (s, w) = Some (tt, (s', w')) ->
    (length (ControllerSpec.ok_names (received w')) < 2)%nat ->
    p s' = None /\ cleared s'.

End StopSpec.

(** *** The list of names *)

Module NamesSpec.

Import VirtualSerialNetwork.

(** The statement for [create]: names that are distinct stay so. *)
Definition create_keeps_names_distinct (os : OS) (s : Self) (w : World)
    (ports_num : Z) : Prop :=
  List.NoDup (serial_ports s) ->
  forall s' w', create os ports_num (s, w) = Some (tt, (s', w')) -> List.NoDup (serial_ports s').

End NamesSpec.

(** *** The registry of the worker *)

Module RegistrySpec.

Import Worker.

(** The external port of [con_params] can be added to the worker in state
    [st]: the device opens on a descriptor that can be made non-blocking and
    is not registered yet. *)
Definition opens (os : OS) (st : State) (con_params : ConParams) (port_fd : Z) : Prop :=
  Serial_open os con_params = Some port_fd /\
  os_set_blocking os port_fd = true /\
  0 <= port_fd /\
  ~ In port_fd (selector st).

(** The registry is in order: every name stands for a descriptor that the
    selector knows, that has its file in [master_files] and that closes
    without an error; and no descriptor serves two names. *)
Definition registry_ok (os : OS) (st : State) : Prop :=
  (forall name fd,
     slave_names st !! name = Some fd ->
     In fd (selector st) /\ is_Some (Py.dict_get (master_files st) fd) /\
     file_close os fd = true) /\
  (forall name1 name2 fd,
     slave_names st !! name1 = Some fd -> slave_names st !! name2 = Some fd -> name1 = name2).

(** The responses to [Remove(names)], name by name: [OK] for a name that
    is registered when its turn comes, [NOT_EXIST] for one that is not. *)
Fixpoint remove_replies (registered : gmap string Z) (names : list string) : list Response :=
  match names with
  | [] => []
  | name :: r =>
      match registered !! name with
      | Some _ => OK name :: remove_replies (delete name registered) r
      | None => NOT_EXIST name :: remove_replies registered r
      end
  end.

End RegistrySpec.

(** *** Added descriptors *)

Module AddSpec.

Import VirtualSerialNetwork.

Definition is_OK_for (name : string) (r : Response) : bool :=
  match r with
  | OK data => String.eqb data name
  | _ => false
  end.

Definition is_EXIST_for (name : string) (r : Response) : bool :=
  match r with
  | EXIST data => String.eqb data name
  | _ => false
  end.

(** The statement that [add] sends one descriptor per port name and that the
    call nevertheless draws one [OK] and one [EXIST] for [name]. *)
Definition add_dedups_by_name `{ConfigEq} `{Py.SetOrder SerialConnectionMinimalConfig}
    `{Py.SetOrder string} (os : OS) (s : Self) (w : World)
    (external_ports_arg : list SerialConnectionMinimalConfig) (name : string) : Prop :=
  exists s' w' dicts rs,
    add os external_ports_arg (s, w) = Some (tt, (s', w')) /\
    commands w' = commands w ++ [CmdAdd dicts] /\
    received w' = received w ++ rs /\
    List.NoDup (map cp_port dicts) /\
    length (List.filter (is_OK_for name) rs) = 1%nat /\
    length (List.filter (is_EXIST_for name) rs) = 1%nat.

End AddSpec.

(** *** Runs of the worker *)

Module LoopSpec.

Import Worker.

Definition is_stop (message : option Command) : bool :=
  match message with
  | Some CmdStop => true
  | _ => false
  end.

(** The exception of a message whose data the worker cannot use. *)
Definition unusable (message : option Command) : option string :=
  match message with
  | Some (CmdRemoveUnusable _ e) => Some e
  | Some (CmdAddUnusable _ e) => Some e
  | Some (CmdCreateUnusable e) => Some e
  | _ => None
  end.

(** How the handling of a message is to end: with the exception of a
    message that cannot be used, with [False] for [stop], with [True] for
    any other message and for none. *)
Definition outcome (message : option Command) : Result bool :=
  match unusable message with
  | Some e => Raise e
  | None => Ret (negb (is_stop message))
  end.

(** The last turn of a run: the message is [stop], or cannot be used. *)
Definition is_last (message : option Command) : bool :=
  is_stop message || match unusable message with Some _ => true | None => false end.

(** The units of work of a message: the responses it asks for. Of a message
    that cannot be used, the items in front of the one that raises. *)
Definition units (message : option Command) : nat :=
  match message with
  | Some (CmdCreate ports_number) => Z.to_nat ports_number
  | Some (CmdAdd external_ports) => length external_ports
  | Some (CmdRemove remove_list) => length remove_list
  | Some (CmdMissing _) => 1
  | Some (CmdRemoveUnusable remove_list _) => length remove_list
  | Some (CmdAddUnusable external_ports _) => length external_ports
  | _ => 0
  end.

(** The turns of a schedule up to its last turn, that turn included. *)
Fixpoint until_last (schedule : list (option Command * list (Z * Z)))
    : list (option Command * list (Z * Z)) :=
  match schedule with
  | [] => []
  | (message, ready) :: rest =>
      if is_last message then [(message, ready)] else (message, ready) :: until_last rest
  end.

(** How a run over the turns of a schedule is to end: as its last turn
    does, and with [True] when no turn is the last. *)
Fixpoint run_outcome (schedule : list (option Command * list (Z * Z))) : Result bool :=
  match schedule with
  | [] => Ret true
  | (message, _) :: rest =>
      if is_last message then outcome message else run_outcome rest
  end.

Definition total_units (schedule : list (option Command * list (Z * Z))) : nat :=
  list_sum (map (fun turn => units (fst turn)) schedule).

(** Every registered descriptor is a valid one with its file in
    [master_files], and none is registered twice. *)
Definition selector_ok (st : State) : Prop :=
  List.NoDup (selector st) /\
  forall fd, In fd (selector st) ->
             0 <= fd /\ is_Some (Py.dict_get (master_files st) fd).

End LoopSpec.

(** *** Ports that were created *)

Module CreatedSpec.

Import Worker.

(** The worker after it has created the port of one pty. *)
Definition with_pty (w : State) (pty : Z * Z * string) : State :=
  let '(master_fd, _, name) := pty in
  {| master_files := Py.dict_set (master_files w) master_fd FileIO;
     slave_names := <[name := master_fd]> (slave_names w);
     selector := selector w ++ [master_fd];
     stack := stack w ++ [master_fd];
     worker_io := worker_io w ++ [OK name];
     openpty_calls := S (openpty_calls w);
     written := written w;
     closed := closed w |}.

(** The worker after it has created the ports of the ptys of a list. *)
Definition with_ptys (w : State) (ptys : list (Z * Z * string)) : State :=
  fold_left with_pty ptys w.

(** The registry of a worker that has created the ports of [done_], and
    nothing else. *)
Definition created_only (os : OS) (done_ : list (Z * Z * string)) (w : State) : Prop :=
  RegistrySpec.registry_ok os w /\
  (forall fd, In fd (selector w) -> In fd (FactorySpec.masters done_)) /\
  (forall name, is_Some (slave_names w !! name) <-> In name (FactorySpec.names done_)).

(** [name] is registered for the descriptor [fd]: the selector watches
    [fd] and its file is in [master_files], so that the port takes part in
    the forwarding. *)
Definition registered (st : State) (name : string) (fd : Z) : Prop :=
  slave_names st !! name = Some fd /\
  In fd (selector st) /\
  is_Some (Py.dict_get (master_files st) fd).

(** Files, names and selector are the same in both states. *)
Definition same_registry (st st' : State) : Prop :=
  master_files st' = master_files st /\
  slave_names st' = slave_names st /\
  selector st' = selector st.

(** What the response to one port to create says about the worker that
    sent it. *)
Definition create_says (st st' : State) (r : Response) : Prop :=
  match r with
  | OK name => exists fd, registered st' name fd /\ ~ In fd (selector st)
  | ERROR _ _ => selector st' = selector st
  | _ => False
  end.

(** The same for one external port to add. *)
Definition add_says (con_params : ConParams) (st st' : State) (r : Response) : Prop :=
  match r with
  | OK name =>
      name = cp_port con_params /\ slave_names st !! name = None /\
      exists fd, registered st' name fd /\ ~ In fd (selector st)
  | EXIST name =>
      name = cp_port con_params /\ is_Some (slave_names st !! name) /\ same_registry st st'
  | ERROR _ _ =>
      slave_names st !! cp_port con_params = None /\ selector st' = selector st
  | NOT_EXIST _ => False
  end.

(** The same for one name to remove. *)
Definition remove_says (slave_name : string) (st st' : State) (r : Response) : Prop :=
  match r with
  | OK name =>
      name = slave_name /\
      (exists fd, slave_names st !! name = Some fd /\ ~ In fd (selector st')) /\
      slave_names st' = delete name (slave_names st)
  | NOT_EXIST name =>
      name = slave_name /\ slave_names st !! name = None /\ same_registry st st'
  | ERROR _ _ =>
      is_Some (slave_names st !! slave_name) /\ slave_names st' = slave_names st /\
      master_files st' = master_files st
  | EXIST _ => False
  end.

End CreatedSpec.

(** *** Valid descriptors *)

Module ConfigSpec.

Import Defaults.

(** The values a descriptor may hold. *)
Definition valid (c : SerialConnectionMinimalConfig) : Prop :=
  (3 <= String.length (port c))%nat /\
  In (baudrate c) DEFAULT_BAUDRATE_LIST /\
  In (bytesize c) DEFAULT_BYTESIZE_LIST /\
  In (parity c) DEFAULT_PARITY_LIST /\
  In (stopbits c) DEFAULT_STOPBITS_LIST.

(** The descriptor objects a program can get hold of: the constructor
    returned them, or a property of such an object was set. *)
Inductive built : SerialConnectionMinimalConfig -> Prop :=
| built_init obj_id port baudrate bytesize parity stopbits self :
    MinimalConfig.init obj_id port baudrate bytesize parity stopbits = Validation.Valid self ->
    built self
| built_set_port self value self' :
    built self -> MinimalConfig.set_port self value = Validation.Valid self' -> built self'
| built_set_baudrate self value self' :
    built self -> MinimalConfig.set_baudrate self value = Validation.Valid self' -> built self'
| built_set_bytesize self value self' :
    built self -> MinimalConfig.set_bytesize self value = Validation.Valid self' -> built self'
| built_set_parity self value self' :
    built self -> MinimalConfig.set_parity self value = Validation.Valid self' -> built self'
| built_set_stopbits self value self' :
    built self -> MinimalConfig.set_stopbits self value = Validation.Valid self' -> built self'.

(** No two descriptors of the list have the same port name. *)
Definition distinct_ports (l : list SerialConnectionMinimalConfig) : Prop :=
  List.NoDup (map port l).

(** The list of descriptors and the list of names agree: no two
    descriptors have the same port name, and the port name of every
    descriptor is in the list of names. *)
Definition descriptors_named (s : VirtualSerialNetwork.Self) : Prop :=
  distinct_ports (VirtualSerialNetwork.external_ports s) /\
  forall c, In c (VirtualSerialNetwork.external_ports s) ->
            In (port c) (VirtualSerialNetwork.serial_ports s).

(** The first descriptor of the list with the port name [name]. *)
Definition first_with (name : string) (l : list SerialConnectionMinimalConfig)
    : option SerialConnectionMinimalConfig :=
  List.find (fun c => String.eqb (port c) name) l.

End ConfigSpec.

(** *** Sums of bytes *)

Module ChecksumSpec.

Import Checksum.

(** The sum of the bytes of a payload. *)
Definition total (payload : list byte) : Z :=
  fold_left (fun cs data_byte => cs + int data_byte) payload 0.

End ChecksumSpec.

(** *** Concrete networks *)

Module Scenarios.

Import VirtualSerialNetwork StopSpec Examples.

Definition in_order : Py.SetOrder string := Py.insertion_order string.

Definition objects_in_order : Py.SetOrder SerialConnectionMinimalConfig :=
  Py.insertion_order SerialConnectionMinimalConfig.

(** A network started for two virtual ports on the machine where
    everything works. *)
Definition two_ports : Self * World :=
  after (init 2 None false, world0) (start (string_order := in_order) os_ok None).

(** A network built for three virtual ports and one external port, started
    with a factory that runs out after two ptys. *)
Definition two_of_three : Self * World :=
  after (init 3 (Some [usb_a]) false, world0)
    (start (string_order := in_order) os_ok (Some openpty_two)).

(** A running network without ports whose factory hands out ptys that all
    have the same slave. *)
Definition same_slave : Self * World :=
  after (init 0 None false, world0)
    (start (string_order := in_order) os_ok (Some openpty_same_slave)).

(** A network built for two virtual ports and started with that factory. *)
Definition two_on_one_slave : Self * World :=
  after (init 2 None false, world0)
    (start (string_order := in_order) os_ok (Some openpty_same_slave)).

(** A pair whose [start] got one pty only. *)
Definition failed_pair : Self * World :=
  after (VirtualSerialPair.init, world0)
    (VirtualSerialPair.start (string_order := in_order) os_ok (Some openpty_one)).

(** The worker of a network. *)
Definition process_of (net : Self * World) : Process :=
  match process (snd net) with
  | Some pr => pr
  | None => {| state := Worker.empty; process_loopback := false; process_openpty_func := None |}
  end.

(** Two ptys of the machine. *)
Definition ptys : list (Z * Z * string) :=
  [(10, 11, "/dev/pts/0"); (12, 13, "/dev/pts/1")].

End Scenarios.

(** ** Properties of the forwarding step *)

Section ForwardProofs.

Import Worker ForwardSpec.

Variable os : OS.

Lemma set_written_app (w : State) (l1 l2 : list (Z * list byte)) :
  set_written (written (set_written (written w ++ l1) w) ++ l2) (set_written (written w ++ l1) w)
  = set_written (written w ++ l1 ++ l2) w.
Proof. destruct w; unfold set_written; simpl. by rewrite app_assoc. Qed.

Lemma set_written_nil (w : State) : set_written (written w ++ []) w = w.
Proof. destruct w; unfold set_written; simpl. by rewrite app_nil_r. Qed.

(** The inner loop writes to the targets in order and stops at the first
    write that raises. *)
Lemma broadcast_run key_fd data loopback items w :
  broadcast os key_fd (Some data) loopback items w =
  ((if forallb (fun fd => file_write os fd data) (targets loopback key_fd items)
    then Ret tt else Raise "OSError: write"),
   set_written
     (written w ++ map (fun fd => (fd, data)) (delivered os data (targets loopback key_fd items)))
     w).
Proof.
  revert w. induction items as [| [fd f] items IH]; intros w.
  - simpl. by rewrite set_written_nil.
  - unfold broadcast, targets, write in *. simpl in *.
    unfold mbind, worker_bind, bind.
    destruct (loopback || negb (Z.eqb fd key_fd)) eqn:Hsel; simpl.
    + destruct (file_write os fd data) eqn:Hw; simpl.
      * unfold modify at 1. rewrite IH. by rewrite set_written_app.
      * unfold raise. by rewrite set_written_nil.
    + unfold ret at 1. apply IH.
Qed.

Lemma dict_get_keys {V : Type} (d : list (Z * V)) (k : Z) (v : V) :
  Py.dict_get d k = Some v -> In k (Py.keys d).
Proof.
  induction d as [| [k' v'] d IH]; simpl; [done |].
  destruct (Z.eqb_spec k' k); [by left | right; auto].
Qed.

(** What one event does when its descriptor is registered and its read
    returns bytes: the handler returns, and the data went to the targets up
    to the first failing one. *)
Lemma forward_event_run key_fd events f data loopback w :
  Z.land events EVENT_READ <> 0 ->
  Py.dict_get (master_files w) key_fd = Some f ->
  file_read os key_fd = ReadBytes data ->
  forward_event os loopback (key_fd, events) w =
  (Ret tt,
   set_written
     (written w ++ map (fun fd => (fd, data))
                     (delivered os data (targets loopback key_fd (master_files w))))
     w).
Proof.
  intros Hev Hget Hread. unfold forward_event.
  destruct (Z.eqb_spec (Z.land events EVENT_READ) 0) as [|_]; [done |]. simpl.
  cbv beta iota delta [try_except mbind worker_bind bind master_files_get get expect read].
  rewrite Hget, Hread. unfold ret at 1 2.
  rewrite broadcast_run.
  by destruct (forallb _ _).
Qed.

Lemma delivered_all data fds :
  (forall fd, In fd fds -> file_write os fd data = true) -> delivered os data fds = fds.
Proof.
  induction fds as [| fd fds IH]; intros H; simpl; [done |].
  rewrite H by (by left). f_equal. apply IH. intros; apply H. by right.
Qed.

Lemma in_targets loopback key_fd items fd :
  In fd (targets loopback key_fd items) <->
  In fd (Py.keys items) /\ (loopback = true \/ fd <> key_fd).
Proof.
  unfold targets. rewrite filter_In. split; intros [Hin Hsel]; split; auto.
  - destruct loopback; [by left | right]. simpl in Hsel.
    destruct (Z.eqb_spec fd key_fd); [done | done].
  - destruct Hsel as [-> | Hne]; [done |].
    destruct (Z.eqb_spec fd key_fd); [done |]. by rewrite orb_true_r.
Qed.

End ForwardProofs.

Section ForwardFailures.

Import Worker ForwardSpec.

Variable os : OS.

Lemma delivered_until_failure data before bad after :
  (forall fd, In fd before -> file_write os fd data = true) ->
  file_write os bad data = false ->
  delivered os data (before ++ bad :: after) = before.
Proof.
  intros Hok Hbad. induction before as [| fd before IH]; simpl.
  - by rewrite Hbad.
  - rewrite Hok by (by left). f_equal. apply IH. intros; apply Hok. by right.
Qed.

(** No event makes the handler raise. *)
Lemma forward_event_returns loopback event w :
  fst (forward_event os loopback event w) = Ret tt.
Proof.
  destruct event as [key_fd events]. unfold forward_event.
  destruct (negb _); [| done].
  unfold try_except.
  match goal with |- context [match ?b w with _ => _ end] => destruct (b w) as [[[] | e] w'] end;
    done.
Qed.

Lemma forward_data_returns ready loopback w :
  fst (forward_data os ready loopback w) = Ret tt.
Proof.
  revert w. induction ready as [| event ready IH]; intros w; [done |].
  unfold forward_data in *. simpl.
  cbv beta iota delta [mbind worker_bind bind].
  pose proof (forward_event_returns loopback event w) as H.
  destruct (forward_event os loopback event w) as [r w']. simpl in H. subst r.
  apply IH.
Qed.

(** C2, what the code does where a write fails. The failed write is
    swallowed: the handler of the event returns, and so does the whole
    forwarding step, whatever fails. But the [try] encloses the whole loop
    over the targets, so the failure ends the broadcast of that event: the
    targets before the failing one in the order of [master_files] have the
    data, the failing one and those after it get nothing, writable as they
    may be. *)
Theorem forward_event_write_failure key_fd events f data loopback w before bad after :
  Z.land events EVENT_READ <> 0 ->
  Py.dict_get (master_files w) key_fd = Some f ->
  file_read os key_fd = ReadBytes data ->
  targets loopback key_fd (master_files w) = before ++ bad :: after ->
  (forall fd, In fd before -> file_write os fd data = true) ->
  file_write os bad data = false ->
  fst (forward_event os loopback (key_fd, events) w) = Ret tt /\
  written (snd (forward_event os loopback (key_fd, events) w))
    = written w ++ map (fun fd => (fd, data)) before /\
  (forall ready w0, fst (forward_data os ready loopback w0) = Ret tt).
Proof.
  intros Hev Hget Hread Htargets Hok Hbad.
  rewrite (forward_event_run os _ _ f data) by done. simpl.
  rewrite Htargets, delivered_until_failure by done.
  repeat split. intros; apply forward_data_returns.
Qed.

Lemma broadcast_none key_fd loopback items w :
  snd (broadcast os key_fd None loopback items w) = w.
Proof.
  induction items as [| [fd f] items IH]; [done |].
  unfold broadcast in *. cbn [for_each].
  cbv beta iota delta [mbind worker_bind bind].
  destruct (loopback || negb (Z.eqb fd key_fd)); [done |].
  unfold ret at 1. apply IH.
Qed.

(** Forwarding writes, and does nothing else: the registry, the selector
    and the pipe are as they were. So the responses to a command do not
    depend on the traffic the worker forwards between two commands. *)
Lemma forward_event_frame loopback event w :
  exists out, snd (forward_event os loopback event w) = set_written (written w ++ out) w.
Proof.
  destruct event as [key_fd events]. unfold forward_event.
  destruct (negb _); [| exists []; by rewrite set_written_nil].
  cbv beta iota delta [try_except mbind worker_bind bind master_files_get get expect read].
  destruct (Py.dict_get (master_files w) key_fd) as [f |];
    [| exists []; by rewrite set_written_nil].
  unfold ret at 1. destruct (file_read os key_fd) as [| | data].
  - exists []. by rewrite set_written_nil.
  - unfold ret at 1. pose proof (broadcast_none key_fd loopback (master_files w) w) as H.
    destruct (broadcast os key_fd None loopback (master_files w) w) as [[[] | e] w'];
      cbn in *; subst w'; exists []; by rewrite set_written_nil.
  - unfold ret at 1. rewrite broadcast_run. eexists. by destruct (forallb _ _).
Qed.

Lemma forward_data_frame ready loopback w :
  exists out, snd (forward_data os ready loopback w) = set_written (written w ++ out) w.
Proof.
  revert w. induction ready as [| event ready IH]; intros w.
  - exists []. by rewrite set_written_nil.
  - unfold forward_data in *. cbn [for_each].
    cbv beta iota delta [mbind worker_bind bind].
    pose proof (forward_event_returns loopback event w) as Hret.
    destruct (forward_event_frame loopback event w) as (out1 & Hw).
    destruct (forward_event os loopback event w) as [r w']. cbn in *. subst r w'.
    destruct (IH (set_written (written w ++ out1) w)) as (out2 & ->).
    exists (out1 ++ out2). apply set_written_app.
Qed.

Lemma forward_data_keeps_registry ready loopback w :
  master_files (snd (forward_data os ready loopback w)) = master_files w /\
  slave_names (snd (forward_data os ready loopback w)) = slave_names w /\
  selector (snd (forward_data os ready loopback w)) = selector w /\
  worker_io (snd (forward_data os ready loopback w)) = worker_io w.
Proof. by destruct (forward_data_frame ready loopback w) as (out & ->). Qed.

Lemma forward_data_app ready1 ready2 loopback w :
  forward_data os (ready1 ++ ready2) loopback w
  = forward_data os ready2 loopback (snd (forward_data os ready1 loopback w)).
Proof.
  revert w. induction ready1 as [| event ready1 IH]; intros w; [done |].
  unfold forward_data in *. cbn [for_each app].
  cbv beta iota delta [mbind worker_bind bind].
  pose proof (forward_event_returns loopback event w) as Hret.
  destruct (forward_event os loopback event w) as [r w1]. cbn [fst] in Hret. subst r.
  apply IH.
Qed.

Lemma set_written_id (w : State) : set_written (written w) w = w.
Proof. by destruct w. Qed.

Lemma set_written_twice (w : State) (v v' : list (Z * list byte)) :
  set_written v' (set_written v w) = set_written v' w.
Proof. done. Qed.

(** What an event, and a whole step, writes does not depend on what was
    written before it. *)
Lemma forward_event_written loopback event w :
  exists out, forall v,
    forward_event os loopback event (set_written v w) = (Ret tt, set_written (v ++ out) w).
Proof.
  destruct event as [key_fd events]. unfold forward_event.
  destruct (negb _); [| exists []; intros v; by rewrite app_nil_r].
  cbv beta iota delta [try_except mbind worker_bind bind master_files_get get expect read].
  destruct (Py.dict_get (master_files w) key_fd) as [f |] eqn:Hf.
  2: { exists []. intros v. change (master_files (set_written v w)) with (master_files w).
       rewrite Hf. by rewrite app_nil_r. }
  destruct (file_read os key_fd) as [| | data].
  - exists []. intros v. change (master_files (set_written v w)) with (master_files w).
    rewrite Hf. by rewrite app_nil_r.
  - exists []. intros v. change (master_files (set_written v w)) with (master_files w).
    rewrite Hf. unfold ret at 1 2.
    change (master_files (set_written v w)) with (master_files w).
    pose proof (broadcast_none key_fd loopback (master_files w) (set_written v w)) as H.
    destruct (broadcast os key_fd None loopback (master_files w) (set_written v w))
      as [[[] | e] w1]; cbn [snd] in *; subst w1; by rewrite app_nil_r.
  - eexists. intros v. change (master_files (set_written v w)) with (master_files w).
    rewrite Hf. unfold ret at 1 2.
    change (master_files (set_written v w)) with (master_files w).
    rewrite broadcast_run.
    by destruct (forallb _ _).
Qed.

Lemma forward_data_written ready loopback w :
  exists out, forall v,
    forward_data os ready loopback (set_written v w) = (Ret tt, set_written (v ++ out) w).
Proof.
  induction ready as [| event ready IH].
  - exists []. intros v. by rewrite app_nil_r.
  - destruct (forward_event_written loopback event w) as (out1 & H1).
    destruct IH as (out2 & H2).
    exists (out1 ++ out2). intros v.
    unfold forward_data in *. cbn [for_each].
    cbv beta iota delta [mbind worker_bind bind].
    rewrite H1, H2. by rewrite app_assoc.
Qed.


End ForwardFailures.

Section ForwardExamples.

Import Worker ForwardSpec Examples.


(** C2, as stated, fails: the write to descriptor 4 raises, and descriptor
    5, which is next in [master_files] and could be written, gets nothing. *)
Lemma broadcast_stops_at_failed_write :
  ~ delivery_survives_failures os_broken_4 three_ports false 3 1 PING.
Proof.
  intros H. specialize (H 5). vm_compute in H.
  destruct H as []; auto.
Qed.

(** With loopback, an event on descriptor 3: the source gets its copy, the
    write to 4 raises, and 5 gets nothing. *)
Lemma forward_event_write_failure_witness :
  (Z.land 1 EVENT_READ <> 0 /\
   Py.dict_get (master_files three_ports) 3 = Some FileIO /\
   file_read os_broken_4 3 = ReadBytes PING /\
   targets true 3 (master_files three_ports) = [3] ++ 4 :: [5] /\
   file_write os_broken_4 3 PING = true /\
   file_write os_broken_4 4 PING = false /\
   file_write os_broken_4 5 PING = true) /\
  fst (forward_event os_broken_4 true (3, 1) three_ports) = Ret tt /\
  written (snd (forward_event os_broken_4 true (3, 1) three_ports))
    = written three_ports ++ [(3, PING)].
Proof.
  assert (H1 : Z.land 1 EVENT_READ <> 0) by (vm_compute; discriminate).
  assert (H2 : Py.dict_get (master_files three_ports) 3 = Some FileIO) by reflexivity.
  assert (H3 : file_read os_broken_4 3 = ReadBytes PING) by reflexivity.
  assert (H4 : targets true 3 (master_files three_ports) = [3] ++ 4 :: [5]) by reflexivity.
  assert (H5 : forall fd, In fd [3] -> file_write os_broken_4 fd PING = true)
    by (intros fd [<- | []]; reflexivity).
  assert (H6 : file_write os_broken_4 4 PING = false) by reflexivity.
  split; [by repeat split |].
  destruct (forward_event_write_failure os_broken_4 3 1 FileIO PING true three_ports
              [3] 4 [5] H1 H2 H3 H4 H5 H6) as (Hret & Hw & _).
  split; [exact Hret | exact Hw].
Defined.

End ForwardExamples.

(** ** One response per unit of work *)

Section ReplyProofs.

Import Worker ReplySpec.

Variable os : OS.

Lemma silent_ret {A : Type} (a : A) : silent (ret a).
Proof. done. Qed.

Lemma silent_mret {A : Type} (a : A) : silent (mret a : M A).
Proof. done. Qed.

Lemma silent_raise {A : Type} (e : string) : silent (raise e : M A).
Proof. done. Qed.

Lemma silent_get {A : Type} (f : State -> A) : silent (get f).
Proof. done. Qed.

Lemma silent_check ok e : silent (check ok e).
Proof. by destruct ok. Qed.

Lemma silent_expect {A : Type} (r : option A) e : silent (expect r e).
Proof. by destruct r. Qed.

Lemma silent_modify (f : State -> State) :
  (forall w, worker_io (f w) = worker_io w) -> silent (modify f).
Proof. intros H w. apply H. Qed.

Lemma silent_bind {A B : Type} (m : M A) (k : A -> M B) :
  silent m -> (forall a, silent (k a)) -> silent (m ≫= k).
Proof.
  intros Hm Hk w. cbv beta iota delta [mbind worker_bind bind].
  specialize (Hm w). destruct (m w) as [[a | e] w']; simpl in *; [| done].
  by rewrite Hk.
Qed.

Lemma silent_call_openpty openpty_func : silent (call_openpty os openpty_func).
Proof.
  apply silent_bind; [apply silent_get |]. intros k.
  apply silent_bind; [by apply silent_modify |]. intros _. apply silent_expect.
Qed.

Lemma silent_selector_register fd : silent (selector_register fd).
Proof.
  apply silent_bind; [apply silent_get |]. intros sel.
  destruct (Z.ltb fd 0); [apply silent_raise |].
  destruct (existsb _ _); [apply silent_raise | by apply silent_modify].
Qed.

Lemma silent_selector_unregister fd : silent (selector_unregister fd).
Proof.
  apply silent_bind; [apply silent_get |]. intros sel.
  destruct (existsb _ _); [by apply silent_modify | apply silent_raise].
Qed.

Lemma silent_master_files_get fd : silent (master_files_get fd).
Proof.
  apply silent_bind; [apply silent_get |]. intros d. apply silent_expect.
Qed.

Lemma silent_close fd : silent (close os fd).
Proof.
  apply silent_bind; [apply silent_check |]. intros _. by apply silent_modify.
Qed.

Lemma replies_send (P : Response -> Prop) r : P r -> replies P (send r).
Proof. intros HP w. simpl. eauto. Qed.

Lemma replies_bind {A B : Type} (P : Response -> Prop) (m : M A) (k : A -> M B) :
  silent m -> (forall a, replies P (k a)) -> replies P (m ≫= k).
Proof.
  intros Hm Hk w. cbv beta iota delta [mbind worker_bind bind].
  specialize (Hm w). destruct (m w) as [[a | e] w']; simpl in *; [| done].
  specialize (Hk a w'). by rewrite Hm in Hk.
Qed.

(** [try: ...; send(ok) / except: send(error)] sends exactly one response. *)
Lemma answers_try (P : Response -> Prop) (body : M unit) :
  replies P body -> (forall e t, P (ERROR e t)) ->
  answers P (try_except body (fun e => send (ERROR e (format_exc e)))).
Proof.
  intros Hbody Herr w. unfold try_except. specialize (Hbody w).
  destruct (body w) as [[[] | e] w']; simpl.
  - destruct Hbody as (r & Hio & HP). eauto.
  - exists (ERROR e (format_exc e)). rewrite Hbody. auto.
Qed.

Lemma answers_send (P : Response -> Prop) r : P r -> answers P (send r).
Proof. intros HP w. exists r. auto. Qed.

Lemma answers_get {A : Type} (P : Response -> Prop) (f : State -> A) (k : A -> M unit) :
  (forall a, answers P (k a)) -> answers P (get f ≫= k).
Proof. intros Hk w. apply (Hk (f w) w). Qed.

Create HintDb worker_io.

#[local] Hint Resolve silent_ret silent_mret silent_raise silent_get silent_check silent_expect
  silent_call_openpty silent_selector_register silent_selector_unregister
  silent_master_files_get silent_close : worker_io.

Ltac step_reply :=
  lazymatch goal with
  | |- replies _ (send _) => apply replies_send
  | |- replies _ (mbind _ _) =>
      apply replies_bind; [first [by apply silent_modify | by auto with worker_io] | intros ? ]
  end.

Lemma generate_virtual_port_answers openpty_func :
  answers create_reply (generate_virtual_port os openpty_func).
Proof.
  apply answers_try; [| intros e t; right; by exists e, t].
  apply replies_bind; [auto with worker_io | intros [master_fd slave_fd]].
  do 8 step_reply. step_reply. left. eauto.
Qed.

Lemma add_external_port_answers con_params :
  answers (add_reply con_params) (add_external_port os con_params).
Proof.
  apply answers_get. intros names.
  destruct (decide _).
  - apply answers_send. right. by left.
  - apply answers_try; [| intros e t; right; right; by exists e, t].
    do 6 step_reply. step_reply. by left.
Qed.

Lemma remove_port_answers slave_name :
  answers (remove_reply slave_name) (remove_port os slave_name).
Proof.
  apply answers_get. intros names.
  destruct (names !! slave_name) as [master_fd |].
  - apply answers_try; [| intros e t; right; right; by exists e, t].
    do 5 step_reply. step_reply. by left.
  - apply answers_send. right. by left.
Qed.

(** A loop over a list sends one response per element, in order. *)
Lemma for_each_answers {A : Type} (P : A -> Response -> Prop) (body : A -> M unit) l :
  (forall x, answers (P x) (body x)) ->
  forall w, exists rs,
    fst (for_each l body w) = Ret tt /\
    worker_io (snd (for_each l body w)) = worker_io w ++ rs /\
    Forall2 P l rs.
Proof.
  intros Hbody. induction l as [| x l IH]; intros w.
  - exists []. simpl. by rewrite app_nil_r.
  - simpl. cbv beta iota delta [mbind worker_bind bind].
    destruct (Hbody x w) as (r & Hret & Hio & HP).
    destruct (body x w) as [res w']. simpl in *. subst res.
    destruct (IH w') as (rs & Hret' & Hio' & HPs).
    exists (r :: rs). rewrite Hret', Hio', Hio, <- app_assoc. auto.
Qed.

Lemma for_range_answers (P : Response -> Prop) (body : M unit) n :
  answers P body ->
  forall w, exists rs,
    fst (for_range n body w) = Ret tt /\
    worker_io (snd (for_range n body w)) = worker_io w ++ rs /\
    length rs = n /\ Forall P rs.
Proof.
  intros Hbody. induction n as [| n IH]; intros w.
  - exists []. simpl. by rewrite app_nil_r.
  - simpl. cbv beta iota delta [mbind worker_bind bind].
    destruct (Hbody w) as (r & Hret & Hio & HP).
    destruct (body w) as [res w']. simpl in *. subst res.
    destruct (IH w') as (rs & Hret' & Hio' & Hlen & HPs).
    exists (r :: rs). rewrite Hret', Hio', Hio, <- app_assoc. simpl. auto.
Qed.

Lemma generate_virtual_ports_answers ports_number openpty_func w :
  exists rs,
    fst (generate_virtual_ports os ports_number openpty_func w) = Ret tt /\
    worker_io (snd (generate_virtual_ports os ports_number openpty_func w)) = worker_io w ++ rs /\
    length rs = Z.to_nat ports_number /\ Forall create_reply rs.
Proof. apply for_range_answers, generate_virtual_port_answers. Qed.

Lemma add_external_ports_answers external_ports w :
  exists rs,
    fst (add_external_ports os external_ports w) = Ret tt /\
    worker_io (snd (add_external_ports os external_ports w)) = worker_io w ++ rs /\
    Forall2 add_reply external_ports rs.
Proof. apply for_each_answers, add_external_port_answers. Qed.

Lemma remove_ports_answers remove_list w :
  exists rs,
    fst (remove_ports os remove_list w) = Ret tt /\
    worker_io (snd (remove_ports os remove_list w)) = worker_io w ++ rs /\
    Forall2 remove_reply remove_list rs.
Proof. apply for_each_answers, remove_port_answers. Qed.

(** C3. Whatever succeeds or fails, the worker handles [Create(n)] by
    sending exactly [n] responses, [AddExternal(l)] by sending one response
    per descriptor of [l], and [Remove(names)] by sending one response per
    name, each response being one for its own unit; and it goes on running. *)
Theorem process_cmd_one_response_per_unit
    (n : Z) (external_ports : list ConParams) (remove_list : list string)
    (openpty_func : option Callable) (w : State) :
  0 <= n ->
  (exists rs,
     process_cmd os (Some (CmdCreate n)) openpty_func w
       = (Ret true, snd (process_cmd os (Some (CmdCreate n)) openpty_func w)) /\
     worker_io (snd (process_cmd os (Some (CmdCreate n)) openpty_func w)) = worker_io w ++ rs /\
     Z.of_nat (length rs) = n /\ Forall create_reply rs) /\
  (exists rs,
     process_cmd os (Some (CmdAdd external_ports)) openpty_func w
       = (Ret true, snd (process_cmd os (Some (CmdAdd external_ports)) openpty_func w)) /\
     worker_io (snd (process_cmd os (Some (CmdAdd external_ports)) openpty_func w))
       = worker_io w ++ rs /\
     length rs = length external_ports /\ Forall2 add_reply external_ports rs) /\
  (exists rs,
     process_cmd os (Some (CmdRemove remove_list)) openpty_func w
       = (Ret true, snd (process_cmd os (Some (CmdRemove remove_list)) openpty_func w)) /\
     worker_io (snd (process_cmd os (Some (CmdRemove remove_list)) openpty_func w))
       = worker_io w ++ rs /\
     length rs = length remove_list /\ Forall2 remove_reply remove_list rs).
Proof.
  intros Hn. unfold process_cmd. cbv beta iota delta [mbind worker_bind bind].
  repeat split.
  - destruct (generate_virtual_ports_answers n openpty_func w) as (rs & Hret & Hio & Hlen & HP).
    destruct (generate_virtual_ports os n openpty_func w) as [res w']. simpl in *. subst res.
    exists rs. repeat split; auto. lia.
  - destruct (add_external_ports_answers external_ports w) as (rs & Hret & Hio & HP).
    destruct (add_external_ports os external_ports w) as [res w']. simpl in *. subst res.
    exists rs. repeat split; auto. symmetry. by eapply Forall2_length.
  - destruct (remove_ports_answers remove_list w) as (rs & Hret & Hio & HP).
    destruct (remove_ports os remove_list w) as [res w']. simpl in *. subst res.
    exists rs. repeat split; auto. symmetry. by eapply Forall2_length.
Qed.

End ReplyProofs.

(** ** Python sets of strings *)

Section SetLemmas.

Context {A : Type} (eqb : A -> A -> bool).
Hypothesis eqb_spec : forall x y, eqb x y = true <-> x = y.

Lemma set_of_length (e : A -> A -> bool) (l : list A) :
  (length (Py.set_of e l) <= length l)%nat.
Proof.
  induction l as [| x l IH]; simpl; [lia |].
  pose proof (filter_length_le (fun y => negb (e x y)) (Py.set_of e l)). lia.
Qed.

Lemma set_of_In l x : In x (Py.set_of eqb l) <-> In x l.
Proof.
  induction l as [| y l IH]; simpl; [done |].
  rewrite filter_In, IH. split.
  - intros [? | [? _]]; auto.
  - intros [-> | Hin]; [by left |].
    destruct (eqb y x) eqn:E.
    + left. by apply eqb_spec.
    + right. auto.
Qed.

Lemma set_of_NoDup l : List.NoDup (Py.set_of eqb l).
Proof.
  induction l as [| y l IH]; simpl; [constructor |].
  constructor.
  - rewrite filter_In. intros [_ H].
    assert (eqb y y = true) as E by (by apply eqb_spec). by rewrite E in H.
  - by apply List.NoDup_filter.
Qed.

Lemma set_of_id l : List.NoDup l -> Py.set_of eqb l = l.
Proof.
  induction l as [| y l IH]; intros Hnd; simpl; [done |].
  apply List.NoDup_cons_iff in Hnd as [Hy Hl].
  rewrite IH by done. f_equal.
  apply forallb_filter_id. apply forallb_forall. intros x Hx.
  destruct (eqb y x) eqn:E; [| done].
  apply eqb_spec in E. by subst.
Qed.

Lemma set_diff_In a b x : In x (Py.set_diff eqb a b) <-> In x a /\ ~ In x b.
Proof.
  unfold Py.set_diff. rewrite filter_In, set_of_In, negb_true_iff.
  split; intros [Ha Hb]; split; auto.
  - intros Hin. assert (existsb (eqb x) b = true) as E; [| by rewrite E in Hb].
    apply existsb_exists. exists x. split; [done | by apply eqb_spec].
  - destruct (existsb (eqb x) b) eqn:E; [| done].
    apply existsb_exists in E as (y & Hy & Hxy). apply eqb_spec in Hxy. by subst.
Qed.

Lemma set_diff_NoDup a b : List.NoDup (Py.set_diff eqb a b).
Proof. unfold Py.set_diff. apply List.NoDup_filter, set_of_NoDup. Qed.

Context {order : Py.SetOrder A}.

Lemma list_set_In l x : In x (Py.list_set eqb l) <-> In x l.
Proof.
  unfold Py.list_set. rewrite <- (set_of_In l x).
  split; apply Permutation_in; [| symmetry]; apply Py.iter_perm.
Qed.

Lemma list_set_NoDup l : List.NoDup (Py.list_set eqb l).
Proof.
  unfold Py.list_set. eapply Permutation_NoDup; [symmetry; apply Py.iter_perm |].
  apply set_of_NoDup.
Qed.

Lemma list_set_length (e : A -> A -> bool) l :
  (length (Py.list_set e l) <= length l)%nat.
Proof.
  unfold Py.list_set. rewrite (Permutation_length (Py.iter_perm _)). apply set_of_length.
Qed.

Lemma list_set_length_NoDup l : List.NoDup l -> length (Py.list_set eqb l) = length l.
Proof.
  intros Hnd. unfold Py.list_set.
  rewrite (Permutation_length (Py.iter_perm _)). by rewrite set_of_id.
Qed.

Lemma list_set_diff_In a b x : In x (Py.list_set_diff eqb a b) <-> In x a /\ ~ In x b.
Proof.
  unfold Py.list_set_diff. rewrite <- (set_diff_In a b x).
  split; apply Permutation_in; [| symmetry]; apply Py.iter_perm.
Qed.

Lemma list_set_diff_NoDup a b : List.NoDup (Py.list_set_diff eqb a b).
Proof.
  unfold Py.list_set_diff. eapply Permutation_NoDup; [symmetry; apply Py.iter_perm |].
  apply set_diff_NoDup.
Qed.

End SetLemmas.

Lemma string_eqb_spec (x y : string) : String.eqb x y = true <-> x = y.
Proof. apply String.eqb_eq. Qed.

(** ** The controller's loops over the pipe *)

Section LoopProofs.

Import VirtualSerialNetwork ControllerSpec.

Context {A : Type} (h : Response -> A -> C A)
  (g : Response -> A -> A) (u : Response -> Self -> Self).
Hypothesis h_local : local_handler h g u.

Lemma recv_loop_run rs rest acc s w :
  pipe w = rs ++ rest ->
  exists lg,
    recv_loop h (length rs) acc (s, w) =
    Some (fold_left (fun a r => g r a) rs acc,
          (fold_left (fun s r => u r s) rs s,
           {| process := process w; pipe := rest; commands := commands w;
              received := received w ++ rs; logger := logger w ++ lg |})).
Proof.
  revert acc s w. induction rs as [| r rs IH]; intros acc s w Hpipe.
  - exists []. destruct w. simpl in *. subst. by rewrite !app_nil_r.
  - unfold recv_loop in *. simpl.
    cbv beta iota delta [mbind controller_bind recv fst snd]. rewrite Hpipe. simpl.
    destruct (h_local r acc s (set_received (received w ++ [r]) (set_pipe (rs ++ rest) w)))
      as (lg1 & ->).
    edestruct IH as (lg2 & ->); [reflexivity |].
    exists (lg1 ++ lg2). destruct w. simpl. by rewrite <- !app_assoc.
Qed.

Lemma recv_loop_blocks n acc s w :
  (length (pipe w) < n)%nat -> recv_loop h n acc (s, w) = None.
Proof.
  revert acc s w. induction n as [| n IH]; intros acc s w Hlen; [lia |].
  unfold recv_loop in *. simpl.
  cbv beta iota delta [mbind controller_bind recv fst snd].
  destruct (pipe w) as [| r rest] eqn:Hpipe; [done |]. simpl.
  destruct (h_local r acc s (set_received (received w ++ [r]) (set_pipe rest w)))
    as (lg1 & ->).
  apply IH. simpl in *. lia.
Qed.

(** A loop that returns has consumed [n] responses. *)
Lemma recv_loop_inv n acc s w acc' s' w' :
  recv_loop h n acc (s, w) = Some (acc', (s', w')) ->
  exists rs,
    length rs = n /\ pipe w = rs ++ pipe w' /\
    acc' = fold_left (fun a r => g r a) rs acc /\
    s' = fold_left (fun s r => u r s) rs s /\
    process w' = process w /\ commands w' = commands w /\
    received w' = received w ++ rs.
Proof.
  intros Hrun.
  destruct (Nat.lt_ge_cases (length (pipe w)) n) as [Hlt | Hge].
  - by rewrite recv_loop_blocks in Hrun.
  - pose proof (take_drop n (pipe w)) as Hsplit.
    assert (length (take n (pipe w)) = n) as Hlen by (rewrite length_take; lia).
    destruct (recv_loop_run (take n (pipe w)) (drop n (pipe w)) acc s w) as (lg & Heq);
      [done |].
    rewrite Hlen, Hrun in Heq. injection Heq as -> -> ->.
    exists (take n (pipe w)). simpl. by rewrite Hsplit.
Qed.

End LoopProofs.

Section Handlers.

Import VirtualSerialNetwork ControllerSpec.

Lemma fold_ok_names (rs : list Response) (acc : list string) :
  fold_left (fun a r => match r with OK data => a ++ [data] | _ => a end) rs acc
  = acc ++ ok_names rs.
Proof.
  revert acc. induction rs as [| r rs IH]; intros acc; simpl; [by rewrite app_nil_r |].
  rewrite IH. destruct r; [| done ..]. by rewrite <- app_assoc.
Qed.

Lemma fold_absorb_virtual (rs : list Response) (s : Self) :
  fold_left (fun s r => match r with
                        | OK data =>
                            set_virtual_ports_num (virtual_ports_num s + 1)
                              (set_serial_ports (serial_ports s ++ [data]) s)
                        | _ => s
                        end) rs s
  = absorb_virtual rs s.
Proof.
  revert s. induction rs as [| r rs IH]; intros s.
  - destruct s. unfold absorb_virtual, set_virtual_ports_num, set_serial_ports. simpl.
    rewrite app_nil_r. f_equal. lia.
  - simpl. rewrite IH. destruct r; [| done ..].
    destruct s. unfold absorb_virtual, set_virtual_ports_num, set_serial_ports. simpl.
    rewrite <- app_assoc. f_equal. lia.
Qed.

Lemma fold_id {B : Type} (rs : list Response) (s : B) : fold_left (fun s _ => s) rs s = s.
Proof. by induction rs. Qed.

End Handlers.

Section ControllerLoops.

Import VirtualSerialNetwork ControllerSpec.

Ltac local_handler_tac :=
  first
    [ eexists; reflexivity
    | exists []; match goal with w : World |- _ => destruct w end;
      unfold set_logger; simpl; rewrite app_nil_r; reflexivity ].

Lemma recv_virtual_ports_run n rs rest s w :
  Z.to_nat n = length rs ->
  pipe w = rs ++ rest ->
  exists lg,
    recv_virtual_ports n (s, w) =
    Some (tt, (absorb_virtual rs s,
               {| process := process w; pipe := rest; commands := commands w;
                  received := received w ++ rs; logger := logger w ++ lg |})).
Proof.
  intros Hn Hpipe. unfold recv_virtual_ports. rewrite Hn.
  edestruct (recv_loop_run
               (fun response (_ : unit) =>
                  match response with
                  | ERROR e _ => log error ("VSN: ERROR (" +:+ e +:+ ")")
                  | OK data =>
                      modify_self (fun s => set_serial_ports (serial_ports s ++ [data]) s) ;;
                      modify_self (fun s => set_virtual_ports_num (virtual_ports_num s + 1) s)
                  | _ => mret tt
                  end)
               (fun _ a => a)
               (fun r s => match r with
                           | OK data =>
                               set_virtual_ports_num (virtual_ports_num s + 1)
                                 (set_serial_ports (serial_ports s ++ [data]) s)
                           | _ => s
                           end)) as (lg & Heq); [| exact Hpipe |].
  - intros r [] s0 w0. destruct r; local_handler_tac.
  - exists lg. rewrite fold_absorb_virtual, fold_id in Heq. exact Heq.
Qed.

Lemma recv_virtual_ports_inv n s w s' w' :
  recv_virtual_ports n (s, w) = Some (tt, (s', w')) ->
  exists rs,
    length rs = Z.to_nat n /\ pipe w = rs ++ pipe w' /\ s' = absorb_virtual rs s /\
    process w' = process w /\ commands w' = commands w /\ received w' = received w ++ rs.
Proof.
  intros Hrun.
  edestruct (recv_loop_inv
               (fun response (_ : unit) =>
                  match response with
                  | ERROR e _ => log error ("VSN: ERROR (" +:+ e +:+ ")")
                  | OK data =>
                      modify_self (fun s => set_serial_ports (serial_ports s ++ [data]) s) ;;
                      modify_self (fun s => set_virtual_ports_num (virtual_ports_num s + 1) s)
                  | _ => mret tt
                  end)
               (fun _ a => a)
               (fun r s => match r with
                           | OK data =>
                               set_virtual_ports_num (virtual_ports_num s + 1)
                                 (set_serial_ports (serial_ports s ++ [data]) s)
                           | _ => s
                           end)) as (rs & Hlen & Hpipe & _ & Hs & Hrest); [| exact Hrun |].
  - intros r [] s0 w0. destruct r; local_handler_tac.
  - exists rs. rewrite fold_absorb_virtual in Hs. auto.
Qed.

Lemma recv_connected_ports_run rs rest s w :
  pipe w = rs ++ rest ->
  exists lg,
    recv_connected_ports (length rs) (s, w) =
    Some (ok_names rs,
          (s, {| process := process w; pipe := rest; commands := commands w;
                 received := received w ++ rs; logger := logger w ++ lg |})).
Proof.
  intros Hpipe. unfold recv_connected_ports.
  edestruct (recv_loop_run
               (fun response ports_connected =>
                  match response with
                  | ERROR e _ =>
                      log error ("VSN: ERROR (" +:+ e +:+ ")") ;; mret ports_connected
                  | OK data => mret (ports_connected ++ [data])
                  | _ => mret ports_connected
                  end)
               (fun r a => match r with OK data => a ++ [data] | _ => a end)
               (fun _ s => s)) as (lg & Heq); [| exact Hpipe |].
  - intros r acc s0 w0. destruct r; local_handler_tac.
  - exists lg. rewrite fold_ok_names, fold_id in Heq. exact Heq.
Qed.

Lemma recv_removed_ports_run rs rest s w :
  pipe w = rs ++ rest ->
  exists lg,
    recv_removed_ports (length rs) (s, w) =
    Some (ok_names rs,
          (s, {| process := process w; pipe := rest; commands := commands w;
                 received := received w ++ rs; logger := logger w ++ lg |})).
Proof.
  intros Hpipe. unfold recv_removed_ports.
  edestruct (recv_loop_run
               (fun response removed_ports =>
                  match response with
                  | ERROR e _ =>
                      log error ("VSN: ERROR (" +:+ e +:+ ")") ;; mret removed_ports
                  | NOT_EXIST data =>
                      log warning ("VSN: Port " +:+ data +:+ " not found") ;;
                      mret removed_ports
                  | OK data => mret (removed_ports ++ [data])
                  | _ => mret removed_ports
                  end)
               (fun r a => match r with OK data => a ++ [data] | _ => a end)
               (fun _ s => s)) as (lg & Heq); [| exact Hpipe |].
  - intros r acc s0 w0. destruct r; local_handler_tac.
  - exists lg. rewrite fold_ok_names, fold_id in Heq. exact Heq.
Qed.

End ControllerLoops.

(** ** The controller's methods, run *)

Section RunProofs.

Import VirtualSerialNetwork ControllerSpec RunSpec ReplySpec.

Variable os : OS.
Context {string_order : Py.SetOrder string}.
Context {config_order : Py.SetOrder SerialConnectionMinimalConfig}.
Context {config_eq : ConfigEq}.

Lemma run_worker_eq {A : Type} (m : Worker.M A) (st : Worker.State) :
  run_worker m st = (fst (m (Worker.set_worker_io [] st)), worker_next m st, worker_out m st).
Proof.
  unfold run_worker, worker_next, worker_out. by destruct (m (Worker.set_worker_io [] st)).
Qed.

(** A command that leaves the worker running: its responses join the
    pipe. *)
Lemma send_run message s w pr :
  process w = Some pr ->
  fst (Worker.process_cmd os (Some message) (process_openpty_func pr)
         (Worker.set_worker_io [] (state pr))) = Worker.Ret true ->
  send os message (s, w) =
  Some (tt, (s,
    {| process :=
         Some {| state := worker_next (Worker.process_cmd os (Some message)
                                         (process_openpty_func pr)) (state pr);
                 process_loopback := process_loopback pr;
                 process_openpty_func := process_openpty_func pr |};
       pipe := pipe w ++ worker_out (Worker.process_cmd os (Some message)
                                       (process_openpty_func pr)) (state pr);
       commands := commands w ++ [message];
       received := received w;
       logger := logger w |})).
Proof.
  intros Hpr Hret. unfold send, modify_world.
  cbn [fst snd set_commands process]. rewrite Hpr.
  rewrite run_worker_eq, Hret. done.
Qed.

(** With no worker behind the pipe the message is sent and that is all. *)
Lemma send_no_process message s w :
  process w = None ->
  send os message (s, w) = Some (tt, (s, set_commands (commands w ++ [message]) w)).
Proof.
  intros Hpr. unfold send, modify_world. cbn [fst snd set_commands process]. by rewrite Hpr.
Qed.

Lemma fold_connected candidates (rs : list Response) acc :
  fold_left (fun a r =>
               match r with
               | OK data =>
                   match List.find (fun port_ => String.eqb (port port_) data) candidates with
                   | Some port_ => a ++ [port_]
                   | None => a
                   end
               | _ => a
               end) rs acc
  = acc ++ connected candidates rs.
Proof.
  revert acc. induction rs as [| r rs IH]; intros acc; simpl.
  - by rewrite app_nil_r.
  - rewrite IH. unfold connected. destruct r; simpl; [| done ..].
    destruct (List.find _ candidates); simpl; [by rewrite <- app_assoc | done].
Qed.

Lemma recv_added_ports_run candidates rs rest s w :
  pipe w = rs ++ rest ->
  exists lg,
    recv_added_ports candidates (length rs) (s, w) =
    Some (connected candidates rs,
          (s, {| process := process w; pipe := rest; commands := commands w;
                 received := received w ++ rs; logger := logger w ++ lg |})).
Proof.
  intros Hpipe. unfold recv_added_ports.
  edestruct (recv_loop_run
               (fun response ports_connected =>
                  match response with
                  | ERROR e _ =>
                      log error ("VSN: ERROR (" +:+ e +:+ ")") ;; mret ports_connected
                  | EXIST data =>
                      log error ("VSN: Port (" +:+ data +:+ ") already added.") ;;
                      mret ports_connected
                  | OK data =>
                      match List.find (fun port_ => String.eqb (port port_) data) candidates with
                      | Some port_ => mret (ports_connected ++ [port_])
                      | None => mret ports_connected
                      end
                  | _ => mret ports_connected
                  end)
               (fun r a =>
                  match r with
                  | OK data =>
                      match List.find (fun port_ => String.eqb (port port_) data) candidates with
                      | Some port_ => a ++ [port_]
                      | None => a
                      end
                  | _ => a
                  end)
               (fun _ s => s)) as (lg & Heq); [| exact Hpipe |].
  - intros r acc s0 w0. destruct r;
      [destruct (List.find _ candidates) | ..];
      first
        [ eexists; reflexivity
        | exists []; destruct w0; unfold set_logger; simpl; rewrite app_nil_r; reflexivity ].
  - exists lg. rewrite fold_connected, fold_id in Heq. exact Heq.
Qed.

Lemma forget_ports_run removed s w :
  forget_ports removed (s, w) = Some (tt, (fold_left (fun s port_ => forget port_ s) removed s, w)).
Proof.
  revert s. induction removed as [| port_ removed IH]; intros s; [done |].
  unfold forget_ports in *. simpl.
  cbv beta iota delta [mbind controller_bind get_self fst snd].
  unfold forget at 2.
  destruct (del_first port_ (external_ports s)); simpl; apply IH.
Qed.

(** The worker's start-up: one response per virtual port, then one per
    external port. *)
Lemma setup_run ports_number external_ports openpty_func :
  exists rs2,
    run_worker (Worker.create_serial_network_setup os ports_number external_ports openpty_func)
      Worker.empty
    = (Worker.Ret tt,
       worker_next (Worker.create_serial_network_setup os ports_number external_ports
                      openpty_func) Worker.empty,
       Worker.worker_io
         (snd (Worker.generate_virtual_ports os ports_number openpty_func Worker.empty)) ++ rs2) /\
    Forall2 add_reply (default [] external_ports) rs2.
Proof.
  rewrite run_worker_eq. unfold worker_out, Worker.create_serial_network_setup.
  change (Worker.set_worker_io [] Worker.empty) with Worker.empty.
  cbv beta iota delta [mbind Worker.worker_bind Worker.bind].
  destruct (generate_virtual_ports_answers os ports_number openpty_func Worker.empty)
    as (rs1 & Hret1 & Hio1 & _).
  destruct (Worker.generate_virtual_ports os ports_number openpty_func Worker.empty)
    as [res1 st1]. simpl in *. subst res1.
  destruct (add_external_ports_answers os (default [] external_ports) st1)
    as (rs2 & Hret2 & Hio2 & HP).
  exists rs2. rewrite Hret2, Hio2. done.
Qed.

Lemma default_dicts (ext : list SerialConnectionMinimalConfig) :
  default [] (match ext with [] => None | _ => Some (map to_dict ext) end) = map to_dict ext.
Proof. by destruct ext. Qed.

(** [start] always returns; what it leaves behind. [rs1] are the responses
    for the virtual ports, [rs2] those for the external ports. *)
Lemma start_run openpty_func s w :
  exists rs2 lg st,
    Forall2 add_reply (map to_dict (external_ports s)) rs2 /\
    start os openpty_func (s, w) =
    Some (tt,
      ({| master_io := Some Pipe_end; worker_io := Some Pipe_end; p := Some Process_handle;
          loopback := loopback s;
          external_ports :=
            remove_duplicates_from []
              (List.filter (fun c => existsb (String.eqb (port c)) (ok_names rs2))
                 (external_ports s));
          virtual_ports_num :=
            Z.of_nat (length (ok_names (Worker.worker_io
              (snd (Worker.generate_virtual_ports os (virtual_ports_num s) openpty_func
                      Worker.empty)))));
          serial_ports :=
            Py.list_set String.eqb
              ((serial_ports s ++
                ok_names (Worker.worker_io
                  (snd (Worker.generate_virtual_ports os (virtual_ports_num s) openpty_func
                          Worker.empty)))) ++ ok_names rs2) |},
       {| process := Some {| state := st; process_loopback := loopback s;
                             process_openpty_func := openpty_func |};
          pipe := []; commands := commands w;
          received := received w ++
            Worker.worker_io
              (snd (Worker.generate_virtual_ports os (virtual_ports_num s) openpty_func
                      Worker.empty)) ++ rs2;
          logger := logger w ++ lg |})).
Proof.
  destruct (setup_run (virtual_ports_num s)
              (match external_ports s with [] => None | _ => Some (map to_dict (external_ports s)) end)
              openpty_func) as (rs2 & Hsetup & HP).
  rewrite default_dicts in HP.
  destruct (generate_virtual_ports_answers os (virtual_ports_num s) openpty_func Worker.empty)
    as (rs1 & _ & Hio1 & Hlen1 & _).
  simpl in Hio1. rewrite Hio1 in *. clear Hio1.
  unfold start, Pipe, spawn.
  cbv beta iota delta [mbind controller_bind log modify_world modify_self get_self fst snd].
  cbn [external_ports virtual_ports_num loopback set_worker_io set_master_io pipe set_pipe
       set_logger].
  rewrite Hsetup.
  edestruct (recv_virtual_ports_run (virtual_ports_num s) rs1 rs2) as (lg1 & ->);
    [by rewrite Hlen1 | reflexivity |].
  cbn [process pipe commands received logger set_process set_pipe].
  assert (length (external_ports s) = length rs2) as ->
    by (rewrite <- (Forall2_length _ _ _ HP); by rewrite length_map).
  edestruct (recv_connected_ports_run rs2 []) as (lg2 & ->);
    [cbn [pipe]; by rewrite app_nil_r |].
  unfold _update_ext_ports, _ext_ports_remove_duplicates.
  cbv beta iota delta [mbind controller_bind log modify_world modify_self get_self fst snd].
  destruct s, w. unfold absorb_virtual, set_logger.
  eexists rs2, _, _. split; [exact HP |].
  cbn. rewrite <- !app_assoc. reflexivity.
Qed.

End RunProofs.

(** ** The number of ports after start *)

Section FactoryProofs.

Import Worker FactorySpec ReplySpec.

Variable os : OS.

Lemma generate_virtual_port_ok openpty_func w master_fd slave_fd name :
  factory os openpty_func (openpty_calls w) = Some (master_fd, slave_fd) ->
  pty_works os master_fd slave_fd name ->
  ~ In master_fd (selector w) ->
  generate_virtual_port os openpty_func w =
  (Ret tt,
   {| master_files := Py.dict_set (master_files w) master_fd FileIO;
      slave_names := <[name := master_fd]> (slave_names w);
      selector := selector w ++ [master_fd];
      stack := stack w ++ [master_fd];
      worker_io := worker_io w ++ [OK name];
      openpty_calls := S (openpty_calls w);
      written := written w;
      closed := closed w |}).
Proof.
  intros Hf (Hraw & Hblock & Hname & Hopen & Hpos) Hnew.
  assert (existsb (Z.eqb master_fd) (selector w) = false) as Hsel.
  { destruct (existsb _ _) eqn:E; [| done].
    apply existsb_exists in E as (x & Hx & Heq). apply Z.eqb_eq in Heq. by subst. }
  assert (Z.ltb master_fd 0 = false) as Hlt by lia.
  assert (match openpty_func with
          | Some f => f (openpty_calls w)
          | None => pty_openpty os (openpty_calls w)
          end = Some (master_fd, slave_fd)) as Hf'
    by (by destruct openpty_func).
  unfold generate_virtual_port, call_openpty, selector_register, send.
  cbv beta iota delta [try_except mbind worker_bind bind get modify expect check ret raise].
  rewrite Hf', Hraw, Hblock, Hname, Hopen, Hlt.
  cbn [selector set_stack set_slave_names set_master_files set_openpty_calls].
  rewrite Hsel. by destruct w.
Qed.

Lemma generate_fresh_ptys openpty_func todo done_ w :
  returns_from os openpty_func (length done_) todo ->
  openpty_calls w = length done_ ->
  (forall fd, In fd (selector w) -> In fd (masters done_)) ->
  List.NoDup (masters (done_ ++ todo)) ->
  fst (for_range (length todo) (generate_virtual_port os openpty_func) w) = Ret tt /\
  worker_io (snd (for_range (length todo) (generate_virtual_port os openpty_func) w))
    = worker_io w ++ map OK (names todo).
Proof.
  revert done_ w. induction todo as [| [[master_fd slave_fd] name] todo IH];
    intros done_ w Hret Hcalls Hsel Hnd.
  - simpl. by rewrite app_nil_r.
  - destruct Hret as (Hf & Hworks & Hrest). simpl.
    cbv beta iota delta [mbind worker_bind bind].
    rewrite (generate_virtual_port_ok openpty_func w master_fd slave_fd name);
      [| by rewrite Hcalls | done |].
    + edestruct (IH (done_ ++ [(master_fd, slave_fd, name)])) as (Hret' & Hio');
        [| | | | rewrite Hret', Hio'; cbn; by rewrite <- app_assoc].
      * by rewrite length_app, Nat.add_1_r.
      * cbn. rewrite length_app, Nat.add_1_r. by rewrite Hcalls.
      * cbn. intros fd Hin. unfold masters. rewrite map_app, in_app_iff.
        apply in_app_iff in Hin as [Hin | [<- | []]]; [left; by apply Hsel | right; by left].
      * by rewrite <- app_assoc.
    + intros Hin. apply Hsel in Hin. unfold masters in Hnd. rewrite map_app in Hnd.
      apply List.NoDup_remove_2 in Hnd. apply Hnd, in_app_iff. by left.
Qed.

(** With a factory that succeeds, every port gets its [OK]. *)
Lemma generate_virtual_ports_fresh openpty_func ptys :
  factory_succeeds os openpty_func ptys ->
  worker_io (snd (generate_virtual_ports os (Z.of_nat (length ptys)) openpty_func Worker.empty))
  = map OK (names ptys).
Proof.
  intros (Hret & Hnd & _). unfold generate_virtual_ports. rewrite Nat2Z.id.
  by destruct (generate_fresh_ptys openpty_func ptys [] Worker.empty) as (_ & ->).
Qed.

End FactoryProofs.

Section StartCount.

Import VirtualSerialNetwork ControllerSpec RunSpec ReplySpec FactorySpec.

Variable os : OS.
Context {string_order : Py.SetOrder string}.

Lemma ok_names_length (rs : list Response) : (length (ok_names rs) <= length rs)%nat.
Proof. induction rs as [| [] rs IH]; simpl; lia. Qed.

Lemma ok_names_map_OK (l : list string) : ok_names (map OK l) = l.
Proof. induction l; simpl; by f_equal. Qed.

(** C4, as the code has it. For every count [n >= 0], [start] on a network
    built for [n] virtual ports and no external ones returns with at most
    [n] names. It returns with exactly [n], the names of the new ptys, when
    each of the [n] calls of the factory returns a pty that the worker can
    set up (raw mode, non-blocking, a slave with a name, a file for the
    master) and no two of these ptys have the same master or the same slave
    name: that no call of the factory raises is not enough. *)
Theorem start_port_count (n : Z) (loopback : bool) (openpty_func : option Callable) (w : World) :
  0 <= n ->
  exists s' w',
    start os openpty_func (init n None loopback, w) = Some (tt, (s', w')) /\
    Z.of_nat (length (serial_ports s')) <= n /\
    (forall ptys,
       Z.of_nat (length ptys) = n ->
       factory_succeeds os openpty_func ptys ->
       Z.of_nat (length (serial_ports s')) = n /\
       Permutation (serial_ports s') (names ptys)).
Proof.
  intros Hn.
  destruct (start_run os openpty_func (init n None loopback) w) as (rs2 & lg & st & HP & Hrun).
  cbn in HP. apply Forall2_nil_inv_l in HP. subst rs2.
  eexists _, _. split; [exact Hrun |]. cbn.
  destruct (generate_virtual_ports_answers os n openpty_func Worker.empty)
    as (rs1 & _ & Hio1 & Hlen1 & _).
  cbn in Hio1. rewrite Hio1, app_nil_r. split.
  - pose proof (list_set_length String.eqb (ok_names rs1)).
    pose proof (ok_names_length rs1). lia.
  - intros ptys Hlen Hok. subst n.
    rewrite <- Hio1, (generate_virtual_ports_fresh os openpty_func ptys Hok), ok_names_map_OK.
    destruct Hok as (_ & _ & Hnd).
    split.
    + rewrite (list_set_length_NoDup String.eqb string_eqb_spec) by done.
      unfold names. by rewrite length_map.
    + unfold Py.list_set. rewrite (set_of_id String.eqb string_eqb_spec) by done.
      apply Py.iter_perm.
Qed.

End StartCount.

(** ** stop, and the methods of a network that is not running *)

Section StopProofs.

Import VirtualSerialNetwork StopSpec Examples.

Variable os : OS.
Context {string_order : Py.SetOrder string}.
Context {config_order : Py.SetOrder SerialConnectionMinimalConfig}.
Context {config_eq : ConfigEq}.

(** What [stop] does, with a process and without one. *)
Lemma stop_run (s : Self) (w : World) :
  (p s <> None ->
   exists w',
     stop os (s, w) =
     Some (tt, ({| master_io := None; worker_io := None; p := None; loopback := loopback s;
                   external_ports := external_ports s;
                   virtual_ports_num := virtual_ports_num s;
                   serial_ports := [] |}, w')) /\
     process w' = None /\ commands w' = commands w ++ [CmdStop]) /\
  (p s = None -> stop os (s, w) = Some (tt, (s, w))).
Proof.
  split; intros Hp.
  - unfold stop. cbv beta iota delta [mbind controller_bind get_self fst snd].
    destruct (p s) eqn:E; [| done].
    unfold send.
    cbv beta iota delta [mbind controller_bind log modify_world modify_self fst snd].
    eexists. split; [reflexivity |].
    destruct w as [[pr |] ? ? ? ?]; cbn; done.
  - unfold stop. cbv beta iota delta [mbind controller_bind get_self fst snd].
    by rewrite Hp.
Qed.

(** C7, as the code has it. [stop] on a network with a process sends
    [stop], drops the process and both ends of the pipe and empties the list
    of names, whatever state the worker is in; the external descriptors and
    the count of virtual ports stay as they were. Without a process [stop]
    does nothing. *)
Theorem stop_clears_names (s : Self) (w : World) :
  (p s <> None ->
   exists s' w',
     stop os (s, w) = Some (tt, (s', w')) /\
     p s' = None /\ master_io s' = None /\ worker_io s' = None /\
     serial_ports s' = [] /\
     external_ports s' = external_ports s /\
     virtual_ports_num s' = virtual_ports_num s /\
     loopback s' = loopback s /\
     process w' = None /\ commands w' = commands w ++ [CmdStop]) /\
  (p s = None -> stop os (s, w) = Some (tt, (s, w))).
Proof.
  destruct (stop_run s w) as [Hrun Hidle]. split; [| exact Hidle].
  intros Hp. destruct (Hrun Hp) as (w' & Heq & Hproc & Hcmd).
  eexists _, w'. split; [exact Heq |]. cbn. by repeat split.
Qed.

(** C8. A network that was never started has no pipe, and neither has one
    that was stopped; and without a pipe [add], [create] and [remove]
    return at once, with the object and the world (the messages sent and the
    log among it) exactly as they were. *)
Theorem mutations_without_pipe
    (s : Self) (w : World) (external_ports_arg : list SerialConnectionMinimalConfig)
    (ports_num : Z) (remove_list : list string) :
  master_io s = None ->
  add os external_ports_arg (s, w) = Some (tt, (s, w)) /\
  create os ports_num (s, w) = Some (tt, (s, w)) /\
  remove os remove_list (s, w) = Some (tt, (s, w)) /\
  (forall n ext lb, master_io (init n ext lb) = None) /\
  (forall s0 w0 s' w',
     handles_agree s0 -> stop os (s0, w0) = Some (tt, (s', w')) -> master_io s' = None).
Proof.
  intros Hio. repeat split.
  - unfold add. cbv beta iota delta [mbind controller_bind get_self fst snd]. by rewrite Hio.
  - unfold create. cbv beta iota delta [mbind controller_bind get_self fst snd]. by rewrite Hio.
  - unfold remove. cbv beta iota delta [mbind controller_bind get_self fst snd]. by rewrite Hio.
  - intros s0 w0 s' w' Hagree Hstop.
    destruct (stop_run s0 w0) as [Hrun Hidle].
    destruct (p s0) eqn:E.
    + destruct Hrun as (w1 & Heq & _); [done |]. rewrite Heq in Hstop. by injection Hstop as <- _.
    + rewrite Hidle in Hstop by done. injection Hstop as <- _. by apply Hagree.
Qed.

End StopProofs.

(** ** The pair *)

Section PairProofs.

Import VirtualSerialNetwork ControllerSpec RunSpec.

Variable os : OS.
Context {string_order : Py.SetOrder string}.

(** C9, as the code has it. On a pair, [add], [create] and [remove] log one
    line and change nothing else. [start] always returns, and the count of
    virtual ports is then the number of ports the worker created. If these
    are fewer than two, [start] has stopped the network again: no process,
    no pipe, no names, the worker gone, and still no external descriptor;
    the count is not reset. With two ports created the network is left
    running. *)
Theorem pair_is_fixed
    (openpty_func : option Callable) (s : Self) (w : World)
    (external_ports_arg : list SerialConnectionMinimalConfig) (ports_num : Z)
    (remove_list : list string) :
  external_ports s = [] ->
  VirtualSerialPair.add external_ports_arg (s, w)
    = Some (tt, (s, set_logger
                      (logger w ++ [(info, "VSN: Not implemented for Virtual Serial Pair.")]) w)) /\
  VirtualSerialPair.create ports_num (s, w)
    = Some (tt, (s, set_logger
                      (logger w ++ [(info, "VSN: Not implemented for Virtual Serial Pair.")]) w)) /\
  VirtualSerialPair.remove remove_list (s, w)
    = Some (tt, (s, set_logger
                      (logger w ++ [(info, "VSN: Not implemented for Virtual Serial Pair.")]) w)) /\
  exists s' w',
    VirtualSerialPair.start os openpty_func (s, w) = Some (tt, (s', w')) /\
    virtual_ports_num s'
      = Z.of_nat (length (ok_names (Worker.worker_io
          (snd (Worker.generate_virtual_ports os (virtual_ports_num s) openpty_func
                  Worker.empty))))) /\
    (virtual_ports_num s' < 2 ->
     p s' = None /\ master_io s' = None /\ worker_io s' = None /\
     serial_ports s' = [] /\ external_ports s' = [] /\ process w' = None) /\
    (2 <= virtual_ports_num s' ->
     p s' <> None /\ master_io s' <> None /\ process w' <> None).
Proof.
  intros Hext. do 3 (split; [reflexivity |]).
  destruct (start_run os openpty_func s w) as (rs2 & lg & st & HP & Hrun).
  rewrite Hext in HP. cbn in HP. apply Forall2_nil_inv_l in HP. subst rs2.
  unfold VirtualSerialPair.start.
  cbv beta iota delta [mbind controller_bind get_self fst snd].
  rewrite Hrun. cbn [virtual_ports_num].
  set (created := Z.of_nat _).
  destruct (Z.ltb_spec created 2) as [Hlt | Hge].
  - cbv beta iota delta [mbind controller_bind log modify_world fst snd].
    match goal with
    | |- context [stop os (?s1, ?w1)] =>
        destruct (stop_run os s1 w1) as [Hstop _]
    end.
    destruct Hstop as (w' & Hstop & Hproc & _); [done |].
    rewrite Hstop.
    eexists _, w'. split; [reflexivity |]. cbn. rewrite Hext. cbn.
    repeat split; auto; lia.
  - eexists _, _. split; [reflexivity |]. cbn. repeat split; try done; lia.
Qed.

End PairProofs.

(** ** No name twice in the list of ports *)

Section NamesProofs.

Import VirtualSerialNetwork ControllerSpec RunSpec NamesSpec.

Variable os : OS.
Context {string_order : Py.SetOrder string}.
Context {config_order : Py.SetOrder SerialConnectionMinimalConfig}.
Context {config_eq : ConfigEq}.

(** Sending changes neither the object nor what was received. *)
Lemma send_frame message s w :
  exists w1,
    send os message (s, w) = Some (tt, (s, w1)) /\
    received w1 = received w /\ commands w1 = commands w ++ [message].
Proof.
  unfold send, modify_world. cbn [fst snd set_commands process].
  eexists. split; [reflexivity |].
  destruct (process w) as [pr |]; [| done].
  destruct (run_worker _ _) as [[r st] out]. done.
Qed.

Lemma add_names_distinct external_ports_arg s w s' w' :
  List.NoDup (serial_ports s) ->
  add os external_ports_arg (s, w) = Some (tt, (s', w')) ->
  List.NoDup (serial_ports s').
Proof.
  intros Hnd. unfold add. cbv beta iota delta [mbind controller_bind get_self fst snd].
  destruct (master_io s); [| by intros [= <- _]].
  destruct (send_frame (CmdAdd (map to_dict (Py.list_set config_eqb external_ports_arg))) s w)
    as (w1 & -> & _).
  destruct (recv_added_ports _ _ _) as [[a [s1 w2]] |]; [| done].
  unfold _ext_ports_remove_duplicates.
  cbv beta iota delta [mbind controller_bind modify_self fst snd].
  intros [= <- _]. cbn. apply (list_set_NoDup String.eqb string_eqb_spec).
Qed.

Lemma remove_names_distinct remove_list s w s' w' :
  List.NoDup (serial_ports s) ->
  remove os remove_list (s, w) = Some (tt, (s', w')) ->
  List.NoDup (serial_ports s').
Proof.
  intros Hnd. unfold remove. cbv beta iota delta [mbind controller_bind get_self fst snd].
  destruct (master_io s); [| by intros [= <- _]].
  destruct (send_frame (CmdRemove remove_list) s w) as (w1 & -> & _).
  destruct (recv_removed_ports _ _) as [[a [s1 w2]] |]; [| done].
  rewrite forget_ports_run.
  cbv beta iota delta [mbind controller_bind modify_self fst snd].
  intros [= <- _]. cbn. apply (list_set_diff_NoDup String.eqb string_eqb_spec).
Qed.

Lemma create_names ports_num s w s' w' :
  create os ports_num (s, w) = Some (tt, (s', w')) ->
  exists rs,
    received w' = received w ++ rs /\
    serial_ports s' = serial_ports s ++ ok_names rs.
Proof.
  unfold create. cbv beta iota delta [mbind controller_bind get_self fst snd].
  destruct (master_io s).
  - destruct (send_frame (CmdCreate ports_num) s w) as (w1 & -> & Hrecv & _).
    intros Hrun. apply recv_virtual_ports_inv in Hrun as (rs & _ & _ & -> & _ & _ & Hrecv').
    exists rs. rewrite Hrecv', Hrecv. done.
  - intros [= <- <-]. exists []. by rewrite !app_nil_r.
Qed.

(** C10, as the code has it. The constructor leaves no name twice in the
    list; [start] returns with distinct names whatever it started from;
    [add], [remove] and [stop] keep distinct names distinct, whatever the
    worker answers. [create] appends the [OK] names it receives, as they
    come: the names stay distinct exactly when those are new, that is
    distinct from one another and from the names already there. *)
Theorem names_stay_distinct (s : Self) (w : World) (s' : Self) (w' : World) :
  List.NoDup (serial_ports s) ->
  (forall n ext lb, List.NoDup (serial_ports (init n ext lb))) /\
  (forall openpty_func s0 w0,
     exists s1 w1, start os openpty_func (s0, w0) = Some (tt, (s1, w1)) /\
                   List.NoDup (serial_ports s1)) /\
  (forall l, add os l (s, w) = Some (tt, (s', w')) -> List.NoDup (serial_ports s')) /\
  (forall l, remove os l (s, w) = Some (tt, (s', w')) -> List.NoDup (serial_ports s')) /\
  (stop os (s, w) = Some (tt, (s', w')) -> List.NoDup (serial_ports s')) /\
  (forall n,
     create os n (s, w) = Some (tt, (s', w')) ->
     exists rs,
       received w' = received w ++ rs /\
       serial_ports s' = serial_ports s ++ ok_names rs /\
       (List.NoDup (serial_ports s') <->
        List.NoDup (ok_names rs) /\
        forall x, In x (ok_names rs) -> ~ In x (serial_ports s))).
Proof.
  intros Hnd. repeat split.
  - intros. cbn. constructor.
  - intros openpty_func s0 w0.
    destruct (start_run os openpty_func s0 w0) as (rs2 & lg & st & _ & Hrun).
    eexists _, _. split; [exact Hrun |]. cbn.
    apply (list_set_NoDup String.eqb string_eqb_spec).
  - intros l. by apply add_names_distinct.
  - intros l. by apply remove_names_distinct.
  - intros Hstop. destruct (stop_run os s w) as [Hrun Hidle].
    destruct (p s) eqn:E.
    + destruct Hrun as (w1 & Heq & _); [done |]. rewrite Heq in Hstop.
      injection Hstop as <- _. cbn. constructor.
    + rewrite Hidle in Hstop by done. by injection Hstop as <- _.
  - intros n H. apply create_names in H as (rs & Hrecv & Hnames). exists rs.
    split; [done |]. split; [done |]. rewrite Hnames. split.
    + intros Hnd'. split; [by apply List.NoDup_app_remove_l in Hnd' |].
      intros x Hx Hin. revert Hnd' Hx Hin. clear.
      induction (serial_ports s) as [| y l IH]; simpl; [done |].
      intros Hnd' Hx [-> | Hin].
      * apply List.NoDup_cons_iff in Hnd' as [Hy _]. apply Hy, in_app_iff. by right.
      * apply List.NoDup_cons_iff in Hnd' as [_ Hl]. by apply IH.
    + intros [Hrs Hnew]. revert Hnd Hnew. clear -Hrs.
      induction (serial_ports s) as [| y l IH]; simpl; [done |].
      intros Hnd Hnew. apply List.NoDup_cons_iff in Hnd as [Hy Hl].
      constructor.
      * rewrite in_app_iff. intros [? | Hin]; [done |]. apply (Hnew y Hin). by left.
      * apply IH; [done |]. intros x Hx Hin. apply (Hnew x Hx). by right.
Qed.

End NamesProofs.

(** ** Adding and removing single ports in the worker *)

Section RegistryProofs.

Import Worker RegistrySpec.

Variable os : OS.

Lemma existsb_In_Z (fd : Z) (l : list Z) : In fd l -> existsb (Z.eqb fd) l = true.
Proof. intros Hin. apply existsb_exists. exists fd. split; [done | apply Z.eqb_refl]. Qed.

Lemma existsb_not_In_Z (fd : Z) (l : list Z) : ~ In fd l -> existsb (Z.eqb fd) l = false.
Proof.
  intros Hnew. destruct (existsb _ _) eqn:E; [| done].
  apply existsb_exists in E as (x & Hx & Heq). apply Z.eqb_eq in Heq. by subst.
Qed.

Lemma add_external_port_ok con_params port_fd w :
  slave_names w !! cp_port con_params = None ->
  opens os w con_params port_fd ->
  add_external_port os con_params w =
  (Ret tt,
   {| master_files := Py.dict_set (master_files w) port_fd (Serial con_params);
      slave_names := <[cp_port con_params := port_fd]> (slave_names w);
      selector := selector w ++ [port_fd];
      stack := stack w ++ [port_fd];
      worker_io := worker_io w ++ [OK (cp_port con_params)];
      openpty_calls := openpty_calls w;
      written := written w;
      closed := closed w |}).
Proof.
  intros Hfree (Hopen & Hblock & Hpos & Hnew).
  apply existsb_not_In_Z in Hnew.
  assert (Z.ltb port_fd 0 = false) as Hlt by lia.
  unfold add_external_port, selector_register, send.
  cbv beta iota delta [try_except mbind worker_bind bind get modify expect check ret raise].
  rewrite Hfree. destruct (decide (is_Some None)) as [[? [=]] | _].
  rewrite Hopen, Hblock, Hlt.
  cbn [selector set_stack set_slave_names set_master_files].
  rewrite Hnew. by destruct w.
Qed.

Lemma add_external_port_exists con_params w :
  is_Some (slave_names w !! cp_port con_params) ->
  add_external_port os con_params w =
  (Ret tt, set_worker_io (worker_io w ++ [EXIST (cp_port con_params)]) w).
Proof.
  intros Hreg. unfold add_external_port, send.
  cbv beta iota delta [mbind worker_bind bind get modify].
  by destruct (decide _).
Qed.

Lemma remove_port_registered slave_name master_fd w :
  slave_names w !! slave_name = Some master_fd ->
  In master_fd (selector w) ->
  is_Some (Py.dict_get (master_files w) master_fd) ->
  file_close os master_fd = true ->
  remove_port os slave_name w =
  (Ret tt,
   {| master_files := Py.dict_del (master_files w) master_fd;
      slave_names := delete slave_name (slave_names w);
      selector := List.filter (fun x => negb (Z.eqb master_fd x)) (selector w);
      stack := stack w;
      worker_io := worker_io w ++ [OK slave_name];
      openpty_calls := openpty_calls w;
      written := written w;
      closed := closed w ++ [master_fd] |}).
Proof.
  intros Hreg Hsel [f Hfile] Hclose. apply existsb_In_Z in Hsel.
  unfold remove_port, selector_unregister, master_files_get, close, send.
  cbv beta iota delta [try_except mbind worker_bind bind get modify expect check ret raise].
  rewrite Hreg, Hsel. cbn [master_files set_selector]. rewrite Hfile, Hclose.
  by destruct w.
Qed.

Lemma remove_port_unregistered slave_name w :
  slave_names w !! slave_name = None ->
  remove_port os slave_name w = (Ret tt, set_worker_io (worker_io w ++ [NOT_EXIST slave_name]) w).
Proof.
  intros Hreg. unfold remove_port, send.
  cbv beta iota delta [mbind worker_bind bind get modify]. by rewrite Hreg.
Qed.

Lemma dict_get_del_ne {V : Type} (d : list (Z * V)) (k k' : Z) :
  k <> k' -> Py.dict_get (Py.dict_del d k) k' = Py.dict_get d k'.
Proof.
  intros Hne. induction d as [| [k0 v0] d IH]; simpl; [done |].
  destruct (Z.eqb_spec k0 k) as [-> | Hk0].
  - destruct (Z.eqb_spec k k'); done.
  - simpl. by rewrite IH.
Qed.

Lemma registry_ok_remove slave_name master_fd w w' :
  registry_ok os w ->
  slave_names w !! slave_name = Some master_fd ->
  master_files w' = Py.dict_del (master_files w) master_fd ->
  slave_names w' = delete slave_name (slave_names w) ->
  selector w' = List.filter (fun x => negb (Z.eqb master_fd x)) (selector w) ->
  registry_ok os w'.
Proof.
  intros [Hok Hinj] Hreg Hfiles Hnames Hsel. split.
  - intros name fd. rewrite Hnames, Hfiles, Hsel. intros Hlook.
    apply lookup_delete_Some in Hlook as [Hne Hlook].
    destruct (Hok name fd Hlook) as (Hin & Hfile & Hclose).
    assert (master_fd <> fd) as Hfd by (intros <-; by apply Hne, (Hinj _ _ master_fd)).
    repeat split; [| by rewrite dict_get_del_ne | done].
    apply filter_In. split; [done |]. by destruct (Z.eqb_spec master_fd fd).
  - intros name1 name2 fd. rewrite Hnames. intros H1 H2.
    apply lookup_delete_Some in H1 as [_ H1]. apply lookup_delete_Some in H2 as [_ H2].
    by apply (Hinj _ _ fd).
Qed.

(** With the registry in order, [remove_ports] answers name by name as
    [remove_replies] says, and afterwards none of the names is registered. *)
Lemma remove_ports_exact remove_list w :
  registry_ok os w ->
  fst (remove_ports os remove_list w) = Ret tt /\
  worker_io (snd (remove_ports os remove_list w))
    = worker_io w ++ remove_replies (slave_names w) remove_list /\
  registry_ok os (snd (remove_ports os remove_list w)) /\
  (forall name, In name remove_list ->
                slave_names (snd (remove_ports os remove_list w)) !! name = None) /\
  (forall name, slave_names w !! name = None ->
                slave_names (snd (remove_ports os remove_list w)) !! name = None).
Proof.
  revert w. induction remove_list as [| name remove_list IH]; intros w Hok.
  - change (remove_ports os [] w) with (Ret tt, w).
    cbn [fst snd remove_replies]. rewrite app_nil_r.
    split; [done |]. split; [done |]. split; [done |]. split; [by intros ? [] | done].
  - unfold remove_ports in *. cbn [for_each remove_replies].
    cbv beta iota delta [mbind worker_bind bind].
    destruct (slave_names w !! name) as [master_fd |] eqn:Hreg.
    + destruct Hok as [Hfds Hinj]. destruct (Hfds name master_fd Hreg) as (Hsel & Hfile & Hclose).
      rewrite (remove_port_registered name master_fd) by done.
      match goal with
      | |- context [for_each remove_list (remove_port os) ?w1] =>
          destruct (IH w1) as (Hret & Hio & Hok' & Hgone & Hstay);
            [by eapply (registry_ok_remove name master_fd w) |]
      end.
      cbn [worker_io slave_names] in *.
      split; [done |]. split; [by rewrite Hio, <- app_assoc |]. split; [done |].
      split.
      * intros name' [<- | Hin]; [apply Hstay, lookup_delete_eq | by apply Hgone].
      * intros name' Hnone. apply Hstay. rewrite lookup_delete_None. by right.
    + rewrite (remove_port_unregistered name) by done.
      match goal with
      | |- context [for_each remove_list (remove_port os) ?w1] =>
          destruct (IH w1) as (Hret & Hio & Hok' & Hgone & Hstay); [by destruct w |]
      end.
      assert (forall v, slave_names (set_worker_io v w) = slave_names w) as Hsame by done.
      rewrite Hsame in *.
      split; [done |]. split; [rewrite Hio; cbn; by rewrite <- app_assoc |]. split; [done |].
      split.
      * intros name' [<- | Hin]; [by apply Hstay | by apply Hgone].
      * intros name' Hnone. by apply Hstay.
Qed.

End RegistryProofs.

(** ** remove *)

Section RemoveProofs.

Import VirtualSerialNetwork ControllerSpec RunSpec RegistrySpec RemoveSpec.

Variable os : OS.
Context {string_order : Py.SetOrder string}.

Lemma remove_replies_length registered names :
  length (remove_replies registered names) = length names.
Proof.
  revert registered. induction names as [| name names IH]; intros registered; [done |].
  simpl. destruct (registered !! name); simpl; by rewrite IH.
Qed.

Lemma remove_replies_unregistered registered names :
  (forall name, In name names -> registered !! name = None) ->
  remove_replies registered names = map NOT_EXIST names.
Proof.
  induction names as [| name names IH]; intros Hnone; [done |].
  simpl. rewrite Hnone by (by left). f_equal. apply IH. intros; apply Hnone. by right.
Qed.

Lemma ok_names_NOT_EXIST (names : list string) : ok_names (map NOT_EXIST names) = [].
Proof. by induction names. Qed.

Lemma registry_ok_set_worker_io v st :
  registry_ok os st -> registry_ok os (Worker.set_worker_io v st).
Proof. by destruct st. Qed.

Lemma process_cmd_remove remove_list openpty_func st :
  registry_ok os st ->
  Worker.process_cmd os (Some (CmdRemove remove_list)) openpty_func st
  = (Worker.Ret true, snd (Worker.remove_ports os remove_list st)).
Proof.
  intros Hok. destruct (remove_ports_exact os remove_list st Hok) as (Hret & _).
  unfold Worker.process_cmd. cbv beta iota delta [mbind Worker.worker_bind Worker.bind].
  destruct (Worker.remove_ports os remove_list st) as [r st']. cbn in *. by subst r.
Qed.

Lemma del_first_None name l c : del_first name l = None -> In c l -> port c <> name.
Proof.
  induction l as [| x l IH]; [done |]. cbn [del_first].
  destruct (String.eqb_spec (port x) name) as [Heq | Hne]; [done |].
  destruct (del_first name l) as [r |] eqn:E; [done |].
  intros _ [<- | Hin]; [done | by apply IH].
Qed.

Lemma del_first_split name l l' :
  del_first name l = Some l' ->
  exists before d after,
    l = before ++ d :: after /\ port d = name /\
    (forall c, In c before -> port c <> name) /\
    l' = before ++ after.
Proof.
  revert l'. induction l as [| x l IH]; intros l'; [done |]. cbn [del_first].
  destruct (String.eqb_spec (port x) name) as [Heq | Hne].
  - intros [= <-]. exists [], x, l. by repeat split.
  - destruct (del_first name l) as [r |] eqn:E; [| done].
    intros [= <-]. destruct (IH r eq_refl) as (before & d & after & -> & Hd & Hbefore & ->).
    exists (x :: before), d, after. repeat split; [done |].
    intros c [<- | Hin]; [done | by apply Hbefore].
Qed.

(** [forget], the step of the loop of [remove], does what [forgets] asks. *)
Lemma forget_forgets name s : forgets name s (forget name s).
Proof.
  unfold forget, forgets. destruct (del_first name (external_ports s)) as [l' |] eqn:E.
  - left. destruct (del_first_split _ _ _ E) as (before & d & after & Hl & Hd & Hbefore & ->).
    by exists before, d, after.
  - right. split; [| done]. intros c Hin. by apply (del_first_None name (external_ports s)).
Qed.

Lemma fold_forget_forgets_all removed s s' :
  external_ports s' = external_ports (fold_left (fun s0 name => forget name s0) removed s) ->
  virtual_ports_num s'
    = virtual_ports_num (fold_left (fun s0 name => forget name s0) removed s) ->
  forgets_all removed s s'.
Proof.
  revert s. induction removed as [| name removed IH]; intros s Hext Hnum.
  - by constructor.
  - apply (forgets_next name removed s (forget name s)); [apply forget_forgets | by apply IH].
Qed.

(** C6. On a running network whose registry is in order (every registered
    name stands for a descriptor of its own that the selector knows and whose
    file closes without an error), [remove] returns after one response per
    name. A name that is registered when its turn comes gets [OK]: the
    controller drops it from its list of names and, name by name, drops the
    first external descriptor with that port name or, where there is none,
    takes one from the count of virtual ports. A name that is not
    registered, be it because an earlier [remove] took it, gets [NOT_EXIST],
    never [ERROR], and changes nothing: with no name of the call registered
    the descriptors and the count are as before and the list holds the names
    it held. After the call none of its names is registered. *)
Theorem remove_registered_or_not (remove_list : list string) (s : Self) (w : World)
    (pr : Process) :
  running s w pr ->
  registry_ok os (state pr) ->
  exists s' w' pr',
    remove os remove_list (s, w) = Some (tt, (s', w')) /\
    received w' = received w ++ remove_replies (Worker.slave_names (state pr)) remove_list /\
    running s' w' pr' /\
    (forall name, In name remove_list -> Worker.slave_names (state pr') !! name = None) /\
    registry_ok os (state pr') /\
    (let removed := ok_names (remove_replies (Worker.slave_names (state pr)) remove_list) in
     forgets_all removed s s' /\
     (forall x, In x (serial_ports s') <-> In x (serial_ports s) /\ ~ In x removed) /\
     List.NoDup (serial_ports s')) /\
    ((forall name, In name remove_list -> Worker.slave_names (state pr) !! name = None) ->
     remove_replies (Worker.slave_names (state pr)) remove_list = map NOT_EXIST remove_list /\
     external_ports s' = external_ports s /\
     virtual_ports_num s' = virtual_ports_num s /\
     (forall x, In x (serial_ports s') <-> In x (serial_ports s)) /\
     (List.NoDup (serial_ports s) -> Permutation (serial_ports s') (serial_ports s))).
Proof.
  intros (Hio & Hp & Hpr & Hpipe) Hok.
  pose proof (registry_ok_set_worker_io [] _ Hok) as Hok0.
  pose proof (process_cmd_remove remove_list (process_openpty_func pr) _ Hok0) as Hcmd.
  destruct (remove_ports_exact os remove_list _ Hok0) as (_ & Hout & Hok' & Hgone & _).
  change (Worker.worker_io (Worker.set_worker_io [] (state pr))) with (@nil Response) in Hout.
  change (Worker.slave_names (Worker.set_worker_io [] (state pr)))
    with (Worker.slave_names (state pr)) in Hout.
  cbn [app] in Hout.
  unfold remove. cbv beta iota delta [mbind controller_bind get_self fst snd].
  destruct (master_io s) eqn:Hmaster; [| done].
  rewrite (send_run os _ s w pr Hpr) by (by rewrite Hcmd).
  unfold worker_out, worker_next. rewrite Hcmd. cbn [snd]. rewrite Hout, Hpipe. cbn [app].
  rewrite <- (remove_replies_length (Worker.slave_names (state pr)) remove_list).
  edestruct (recv_removed_ports_run
               (remove_replies (Worker.slave_names (state pr)) remove_list) [])
    as (lg & ->); [cbn [pipe]; by rewrite app_nil_r |].
  rewrite forget_ports_run.
  cbv beta iota delta [mbind controller_bind modify_self fst snd].
  eexists _, _, _. split; [reflexivity |].
  assert (forall removed s0,
            serial_ports (fold_left (fun s1 name => forget name s1) removed s0) = serial_ports s0 /\
            master_io (fold_left (fun s1 name => forget name s1) removed s0) = master_io s0 /\
            p (fold_left (fun s1 name => forget name s1) removed s0) = p s0)
    as Hkept.
  { induction removed as [| name removed IH]; intros s0; [done |]. simpl.
    destruct (IH (forget name s0)) as (-> & -> & ->).
    unfold forget. by destruct (del_first name (external_ports s0)). }
  assert (forall removed s0,
            serial_ports (fold_left (fun s1 name => forget name s1) removed s0) = serial_ports s0)
    as Hnames by (intros; apply Hkept).
  unfold running.
  cbn [received pipe process state serial_ports external_ports virtual_ports_num
       set_serial_ports master_io p].
  split; [done |].
  split.
  { destruct (Hkept (ok_names (remove_replies (Worker.slave_names (state pr)) remove_list)) s)
      as (_ & -> & ->). rewrite Hmaster. by repeat split. }
  split; [intros name Hin; by apply Hgone |].
  split; [by apply registry_ok_set_worker_io |].
  split; [| intros Hnone].
  - split; [by apply fold_forget_forgets_all |]. rewrite Hnames. split.
    + intros x. apply (list_set_diff_In String.eqb string_eqb_spec).
    + apply (list_set_diff_NoDup String.eqb string_eqb_spec).
  - rewrite (remove_replies_unregistered _ _ Hnone), ok_names_NOT_EXIST. cbn [fold_left].
    split; [done |]. split; [done |]. split; [done |]. split.
    + intros x. rewrite (list_set_diff_In String.eqb string_eqb_spec). cbn. tauto.
    + intros Hnd. unfold Py.list_set_diff, Py.set_diff.
      rewrite (Py.iter_perm _). cbn [existsb negb].
      rewrite (set_of_id String.eqb string_eqb_spec) by done.
      rewrite forallb_filter_id; [done | by apply forallb_forall].
Qed.

End RemoveProofs.

(** ** add *)

Section AddProofs.

Import VirtualSerialNetwork ControllerSpec RunSpec RegistrySpec AddSpec.

Variable os : OS.
Context {string_order : Py.SetOrder string}.
Context {config_order : Py.SetOrder SerialConnectionMinimalConfig}.
Context {config_eq : ConfigEq}.

(** Two descriptors for one free name: the first is opened, the second is
    found registered. *)
Lemma process_cmd_add_pair x y port_fd openpty_func st :
  port x = port y ->
  Worker.worker_io st = [] ->
  Worker.slave_names st !! port x = None ->
  opens os st (to_dict x) port_fd ->
  fst (Worker.process_cmd os (Some (CmdAdd [to_dict x; to_dict y])) openpty_func st)
    = Worker.Ret true /\
  Worker.worker_io
    (snd (Worker.process_cmd os (Some (CmdAdd [to_dict x; to_dict y])) openpty_func st))
    = [OK (port x); EXIST (port x)].
Proof.
  intros Hport Hio Hfree Hopens.
  unfold Worker.process_cmd, Worker.add_external_ports. cbn [Worker.for_each].
  cbv beta iota delta [mbind Worker.worker_bind Worker.bind].
  rewrite (add_external_port_ok os (to_dict x) port_fd) by done.
  rewrite add_external_port_exists.
  - cbn. rewrite Hio. by rewrite Hport.
  - cbn. rewrite <- Hport. rewrite lookup_insert_eq. by eexists.
Qed.

Lemma add_run_pair external_ports_arg x y port_fd s w pr :
  Py.list_set config_eqb external_ports_arg = [x; y] ->
  port x = port y ->
  running s w pr ->
  Worker.slave_names (state pr) !! port x = None ->
  opens os (state pr) (to_dict x) port_fd ->
  exists s' w',
    add os external_ports_arg (s, w) = Some (tt, (s', w')) /\
    commands w' = commands w ++ [CmdAdd [to_dict x; to_dict y]] /\
    received w' = received w ++ [OK (port x); EXIST (port x)] /\
    pipe w' = [] /\
    external_ports s' = remove_duplicates_from [] (external_ports s ++ [x]) /\
    serial_ports s' = Py.list_set String.eqb (serial_ports s ++ [port x]).
Proof.
  intros Hset Hport (Hio & _ & Hpr & Hpipe) Hfree Hopens.
  destruct (process_cmd_add_pair x y port_fd (process_openpty_func pr)
              (Worker.set_worker_io [] (state pr)) Hport) as (Hret & Hout);
    [done | done | by destruct (state pr) |].
  unfold add. cbv beta iota delta [mbind controller_bind get_self fst snd].
  destruct (master_io s); [| done].
  rewrite Hset. cbn [map length].
  rewrite (send_run os _ s w pr Hpr) by done.
  unfold worker_out. rewrite Hout, Hpipe. cbn [app].
  match goal with
  | |- context [recv_added_ports _ _ (?s1, ?w1)] =>
      destruct (recv_added_ports_run [x; y] [OK (port x); EXIST (port x)] [] s1 w1)
        as (lg & Heq); [reflexivity |]
  end.
  cbn [length] in Heq. rewrite Heq. clear Heq.
  unfold connected, _ext_ports_remove_duplicates.
  cbn [ok_names flat_map List.find]. rewrite String.eqb_refl. cbn [app map].
  cbv beta iota delta [mbind controller_bind modify_self fst snd].
  eexists _, _. split; [reflexivity |]. cbn. done.
Qed.

(** C5, as the code has it. [add] sends [list(set(external_ports))]: one
    descriptor per object, not one per port name. Given two descriptor
    objects that the set keeps apart, with the same port name, free in the
    worker and opening as a device: both are sent, in the order of the set;
    the worker answers [OK] for the first and [EXIST] for the second; and
    the controller keeps the first as its descriptor for the name, which is
    once in its list of names. *)
Theorem add_same_name_twice (a b : SerialConnectionMinimalConfig) (fd_a fd_b : Z)
    (s : Self) (w : World) (pr : Process) :
  running s w pr ->
  config_eqb a b = false ->
  port a = port b ->
  Worker.slave_names (state pr) !! port a = None ->
  opens os (state pr) (to_dict a) fd_a ->
  opens os (state pr) (to_dict b) fd_b ->
  exists s' w' first second,
    add os [a; b] (s, w) = Some (tt, (s', w')) /\
    (first = a /\ second = b \/ first = b /\ second = a) /\
    commands w' = commands w ++ [CmdAdd [to_dict first; to_dict second]] /\
    ~ List.NoDup (map cp_port [to_dict first; to_dict second]) /\
    received w' = received w ++ [OK (port a); EXIST (port a)] /\
    pipe w' = [] /\
    external_ports s' = remove_duplicates_from [] (external_ports s ++ [first]) /\
    In (port a) (serial_ports s') /\ List.NoDup (serial_ports s').
Proof.
  intros Hrun Hneq Hport Hfree Ha Hb.
  assert (Py.set_of config_eqb [a; b] = [a; b]) as Hset.
  { cbn. by rewrite Hneq. }
  assert (Py.list_set config_eqb [a; b] = [a; b] \/ Py.list_set config_eqb [a; b] = [b; a])
    as [Horder | Horder].
  { unfold Py.list_set. rewrite Hset.
    apply Permutation_length_2_inv. symmetry. apply Py.iter_perm. }
  - destruct (add_run_pair [a; b] a b fd_a s w pr Horder Hport Hrun Hfree Ha)
      as (s' & w' & Hadd & Hcmd & Hrecv & Hpipe & Hext & Hnames).
    exists s', w', a, b. split; [done |]. split; [by left |]. split; [done |].
    split.
    { cbn. rewrite Hport. intros Hnd. apply List.NoDup_cons_iff in Hnd as [Hnd _].
      apply Hnd. by left. }
    split; [done |]. split; [done |]. split; [done |]. rewrite Hnames. split.
    + apply (list_set_In String.eqb string_eqb_spec), in_app_iff. right. by left.
    + apply (list_set_NoDup String.eqb string_eqb_spec).
  - rewrite Hport in Hfree.
    destruct (add_run_pair [a; b] b a fd_b s w pr Horder (eq_sym Hport) Hrun Hfree Hb)
      as (s' & w' & Hadd & Hcmd & Hrecv & Hpipe & Hext & Hnames).
    exists s', w', b, a. rewrite Hport. split; [done |]. split; [by right |]. split; [done |].
    split.
    { cbn. rewrite Hport. intros Hnd. apply List.NoDup_cons_iff in Hnd as [Hnd _].
      apply Hnd. by left. }
    split; [done |]. split; [done |]. split; [done |]. rewrite Hnames. split.
    + apply (list_set_In String.eqb string_eqb_spec), in_app_iff. right. by left.
    + apply (list_set_NoDup String.eqb string_eqb_spec).
Qed.

End AddProofs.

(** ** The theorems on concrete networks *)

Section Witnesses.

Import VirtualSerialNetwork ControllerSpec RunSpec ReplySpec FactorySpec RegistrySpec
  RemoveSpec AddSpec StopSpec NamesSpec Examples Scenarios.

(** [Create(2)], [AddExternal] of one descriptor and [Remove] of one name
    on the worker with three ports. *)
Lemma process_cmd_one_response_per_unit_witness :
  0 <= 2 /\
  (exists rs,
     Worker.worker_io
       (snd (Worker.process_cmd os_ok (Some (CmdCreate 2)) None three_ports))
       = Worker.worker_io three_ports ++ rs /\
     Z.of_nat (length rs) = 2) /\
  (exists rs,
     Worker.worker_io
       (snd (Worker.process_cmd os_ok (Some (CmdRemove ["/dev/pts/0"])) None three_ports))
       = Worker.worker_io three_ports ++ rs /\
     length rs = 1%nat).
Proof.
  assert (H : 0 <= 2) by lia.
  destruct (process_cmd_one_response_per_unit os_ok 2 [to_dict usb_a] ["/dev/pts/0"] None
              three_ports H) as ((rs1 & _ & Hio1 & Hlen1 & _) & _ & (rs3 & _ & Hio3 & Hlen3 & _)).
  split; [exact H |]. split.
  - exists rs1. split; [exact Hio1 | exact Hlen1].
  - exists rs3. split; [exact Hio3 | exact Hlen3].
Defined.

Lemma ptys_succeed : factory_succeeds os_ok None ptys.
Proof.
  split; [| split].
  - vm_compute. repeat split; try reflexivity; discriminate.
  - vm_compute. repeat constructor; intros H;
      repeat (destruct H as [H | H]; [discriminate H |]); exact H.
  - vm_compute. repeat constructor; intros H;
      repeat (destruct H as [H | H]; [discriminate H |]); exact H.
Defined.

(** Two ports wanted, two ptys handed out: two names. *)
Lemma start_port_count_witness :
  0 <= 2 /\
  factory_succeeds os_ok None ptys /\
  exists s' w',
    start (string_order := in_order) os_ok None (init 2 None false, world0)
      = Some (tt, (s', w')) /\
    Z.of_nat (length (serial_ports s')) = 2.
Proof.
  assert (H : 0 <= 2) by lia.
  destruct (start_port_count (string_order := in_order) os_ok 2 false None world0 H)
    as (s' & w' & Hrun & _ & Hexact).
  split; [exact H |]. split; [exact ptys_succeed |].
  exists s', w'. split; [exact Hrun |].
  exact (proj1 (Hexact ptys eq_refl ptys_succeed)).
Defined.

(** C4, as stated, fails: no call of the factory fails, but its ptys share
    one slave, so that the worker answers [OK] twice with one name, and
    [start] ends with one name for two ports. *)
Lemma start_same_slave_one_name :
  ~ start_names_every_port (H := in_order) os_ok (Some openpty_same_slave) 2.
Proof.
  intros H.
  assert (Hf : never_fails os_ok (Some openpty_same_slave)) by (intros k; by eexists).
  assert (start (string_order := in_order) os_ok (Some openpty_same_slave)
            (init 2 None false, world0)
          = Some (tt, (fst two_on_one_slave, snd two_on_one_slave))) as Hstart
    by (vm_compute; reflexivity).
  specialize (H Hf false world0 _ _ Hstart). vm_compute in H. discriminate H.
Qed.

Lemma two_ports_running : running (fst two_ports) (snd two_ports) (process_of two_ports).
Proof. vm_compute. repeat split; discriminate. Defined.

Lemma usb_opens (c : SerialConnectionMinimalConfig) :
  opens os_ok (state (process_of two_ports)) (to_dict c) 40.
Proof.
  vm_compute. repeat split; try discriminate.
  intros H; repeat (destruct H as [H | H]; [discriminate H |]); exact H.
Defined.

(** Two objects for [/dev/ttyUSB0] added to the network of two ports. *)
Lemma add_same_name_twice_witness :
  running (fst two_ports) (snd two_ports) (process_of two_ports) /\
  @config_eqb identity_eq usb_a usb_b = false /\
  port usb_a = port usb_b /\
  exists s' w',
    add (string_order := in_order) (config_order := objects_in_order)
      (config_eq := identity_eq) os_ok [usb_a; usb_b] (fst two_ports, snd two_ports)
      = Some (tt, (s', w')) /\
    received w' = received (snd two_ports) ++ [OK (port usb_a); EXIST (port usb_a)].
Proof.
  assert (H1 : @config_eqb identity_eq usb_a usb_b = false) by (vm_compute; reflexivity).
  assert (H2 : port usb_a = port usb_b) by (vm_compute; reflexivity).
  assert (H3 : Worker.slave_names (state (process_of two_ports)) !! port usb_a = None)
    by (vm_compute; reflexivity).
  destruct (add_same_name_twice (string_order := in_order) (config_order := objects_in_order)
              (config_eq := identity_eq) os_ok usb_a usb_b 40 40
              (fst two_ports) (snd two_ports) (process_of two_ports)
              two_ports_running H1 H2 H3 (usb_opens usb_a) (usb_opens usb_b))
    as (s' & w' & first & second & Hadd & _ & _ & _ & Hrecv & _).
  split; [exact two_ports_running |]. split; [exact H1 |]. split; [exact H2 |].
  exists s', w'. split; [exact Hadd | exact Hrecv].
Defined.

(** C5, as stated, fails. With Python's identity comparison the two
    descriptors for [/dev/ttyUSB0] are both sent, so not one descriptor per
    name; and were descriptors compared by port name, one would be sent and
    would draw its [OK], but no [EXIST]. *)
Lemma add_sends_both_descriptors :
  ~ add_dedups_by_name (H := identity_eq) (H0 := objects_in_order) (H1 := in_order)
      os_ok (fst two_ports) (snd two_ports) [usb_a; usb_b] "/dev/ttyUSB0" /\
  ~ add_dedups_by_name (H := port_name_eq) (H0 := objects_in_order) (H1 := in_order)
      os_ok (fst two_ports) (snd two_ports) [usb_a; usb_b] "/dev/ttyUSB0".
Proof.
  split; intros (s' & w' & dicts & rs & Hadd & Hcmd & Hrecv & Hnd & Hok & Hexist).
  - vm_compute in Hadd. injection Hadd as <- <-.
    vm_compute in Hcmd. injection Hcmd as <-.
    apply List.NoDup_cons_iff in Hnd as [Hnd _]. apply Hnd. by left.
  - vm_compute in Hadd. injection Hadd as <- <-.
    vm_compute in Hrecv. injection Hrecv as <-.
    vm_compute in Hexist. discriminate Hexist.
Qed.

Lemma two_ports_names :
  Worker.slave_names (state (process_of two_ports))
  = <["/dev/pts/1" := 12]> (<["/dev/pts/0" := 10]> ∅).
Proof. vm_compute. reflexivity. Qed.

Lemma two_ports_registry : registry_ok os_ok (state (process_of two_ports)).
Proof.
  assert (forall name fd,
            Worker.slave_names (state (process_of two_ports)) !! name = Some fd ->
            (name = "/dev/pts/1" /\ fd = 12) \/ (name = "/dev/pts/0" /\ fd = 10))
    as Hnames.
  { intros name fd. rewrite two_ports_names.
    rewrite !lookup_insert_Some, lookup_empty.
    intros [[<- <-] | [_ [[<- <-] | [_ [=]]]]]; auto. }
  split.
  - intros name fd H. apply Hnames in H. clear Hnames.
    destruct H as [[-> ->] | [-> ->]]; vm_compute; repeat split; eauto.
  - intros name1 name2 fd H1 H2. apply Hnames in H1. apply Hnames in H2. clear Hnames.
    destruct H1 as [[-> ->] | [-> ->]], H2 as [[-> E] | [-> E]];
      first [reflexivity | discriminate E].
Defined.

(** A registered name, an unknown one and the registered one again,
    removed from the network of two ports. *)
Lemma remove_registered_or_not_witness :
  running (fst two_ports) (snd two_ports) (process_of two_ports) /\
  registry_ok os_ok (state (process_of two_ports)) /\
  exists s' w',
    remove (string_order := in_order) os_ok ["/dev/pts/1"; "nope"; "/dev/pts/1"]
      (fst two_ports, snd two_ports) = Some (tt, (s', w')) /\
    received w' = received (snd two_ports)
                  ++ [OK "/dev/pts/1"; NOT_EXIST "nope"; NOT_EXIST "/dev/pts/1"].
Proof.
  destruct (remove_registered_or_not (string_order := in_order) os_ok
              ["/dev/pts/1"; "nope"; "/dev/pts/1"] (fst two_ports) (snd two_ports)
              (process_of two_ports) two_ports_running two_ports_registry)
    as (s' & w' & pr' & Hrun & Hrecv & _).
  assert (remove_replies (Worker.slave_names (state (process_of two_ports)))
            ["/dev/pts/1"; "nope"; "/dev/pts/1"]
          = [OK "/dev/pts/1"; NOT_EXIST "nope"; NOT_EXIST "/dev/pts/1"]) as Hreplies
    by (vm_compute; reflexivity).
  split; [exact two_ports_running |]. split; [exact two_ports_registry |].
  exists s', w'. split; [exact Hrun |]. rewrite <- Hreplies. exact Hrecv.
Defined.

(** C6, as stated, fails: [/dev/pts/1] is registered, but its file does
    not close; the worker answers [ERROR], not [OK], and the name stays in
    the list. *)
Lemma remove_draws_error :
  ~ registered_name_goes (H := in_order) os_no_close (fst two_ports) (snd two_ports)
      (process_of two_ports) "/dev/pts/1".
Proof.
  intros H.
  assert (Hreg : is_Some (Worker.slave_names (state (process_of two_ports)) !! "/dev/pts/1"))
    by (rewrite two_ports_names; by eexists).
  destruct (H two_ports_running Hreg) as (s' & w' & Hremove & Hrecv & _).
  vm_compute in Hremove. injection Hremove as <- <-.
  vm_compute in Hrecv. discriminate Hrecv.
Qed.

(** [stop] on the network that got two of its three virtual ports. *)
Lemma stop_clears_names_witness :
  p (fst two_of_three) <> None /\
  exists s' w',
    stop os_ok (fst two_of_three, snd two_of_three) = Some (tt, (s', w')) /\
    serial_ports s' = [] /\
    external_ports s' = external_ports (fst two_of_three) /\
    virtual_ports_num s' = virtual_ports_num (fst two_of_three).
Proof.
  assert (Hp : p (fst two_of_three) <> None) by (vm_compute; discriminate).
  destruct (proj1 (stop_clears_names os_ok (fst two_of_three) (snd two_of_three)) Hp)
    as (s' & w' & Hstop & _ & _ & _ & Hnames & Hext & Hnum & _).
  split; [exact Hp |]. exists s', w'.
  split; [exact Hstop |]. split; [exact Hnames |]. split; [exact Hext | exact Hnum].
Defined.

(** C7, as stated, fails: after [stop] the network that got two of its
    three virtual ports still has its external descriptor and still counts
    two virtual ports. *)
Lemma stop_keeps_descriptors_and_count :
  ~ stop_clears_everything os_ok (fst two_of_three) (snd two_of_three).
Proof.
  intros H.
  specialize (H (fst (after two_of_three (stop os_ok))) (snd (after two_of_three (stop os_ok)))).
  assert (stop os_ok (fst two_of_three, snd two_of_three)
          = Some (tt, (fst (after two_of_three (stop os_ok)),
                       snd (after two_of_three (stop os_ok))))) as Hstop
    by (vm_compute; reflexivity).
  destruct (H Hstop) as (_ & Hext & _). vm_compute in Hext. discriminate Hext.
Qed.

(** The three methods on a network that was never started. *)
Lemma mutations_without_pipe_witness :
  master_io (init 2 None false) = None /\
  add (string_order := in_order) (config_order := objects_in_order) (config_eq := identity_eq)
    os_ok [usb_a] (init 2 None false, world0) = Some (tt, (init 2 None false, world0)) /\
  create os_ok 1 (init 2 None false, world0) = Some (tt, (init 2 None false, world0)) /\
  remove (string_order := in_order) os_ok ["/dev/pts/0"] (init 2 None false, world0)
    = Some (tt, (init 2 None false, world0)).
Proof.
  assert (H : master_io (init 2 None false) = None) by reflexivity.
  destruct (mutations_without_pipe (string_order := in_order)
              (config_order := objects_in_order) (config_eq := identity_eq)
              os_ok (init 2 None false) world0 [usb_a] 1 ["/dev/pts/0"] H)
    as (Hadd & Hcreate & Hremove & _).
  split; [exact H |]. split; [exact Hadd |]. split; [exact Hcreate | exact Hremove].
Defined.

(** A pair started with a factory that runs out after one pty. *)
Lemma pair_is_fixed_witness :
  external_ports VirtualSerialPair.init = [] /\
  exists s' w',
    VirtualSerialPair.start (string_order := in_order) os_ok (Some openpty_one)
      (VirtualSerialPair.init, world0) = Some (tt, (s', w')) /\
    p s' = None /\ serial_ports s' = [] /\ process w' = None.
Proof.
  assert (H : external_ports VirtualSerialPair.init = []) by reflexivity.
  destruct (pair_is_fixed (string_order := in_order) os_ok (Some openpty_one)
              VirtualSerialPair.init world0 [usb_a] 1 ["/dev/pts/0"] H)
    as (_ & _ & _ & s' & w' & Hstart & Hnum & Hfew & _).
  assert (virtual_ports_num s' < 2) as Hlt by (rewrite Hnum; vm_compute; reflexivity).
  destruct (Hfew Hlt) as (Hp & _ & _ & Hnames & _ & Hproc).
  split; [exact H |]. exists s', w'.
  split; [exact Hstart |]. split; [exact Hp |]. split; [exact Hnames | exact Hproc].
Defined.

(** C9, as stated, fails: the pair that got one pty is stopped again, but
    its state is not empty: it still counts the one virtual port. *)
Lemma failed_pair_keeps_count :
  ~ failed_start_clears_everything (H := in_order) os_ok (Some openpty_one)
      VirtualSerialPair.init world0.
Proof.
  intros H.
  assert (VirtualSerialPair.start (string_order := in_order) os_ok (Some openpty_one)
            (VirtualSerialPair.init, world0)
          = Some (tt, (fst failed_pair, snd failed_pair))) as Hstart
    by (vm_compute; reflexivity).
  assert (length (ok_names (received (snd failed_pair))) < 2)%nat as Hfew
    by (vm_compute; lia).
  destruct (H _ _ Hstart Hfew) as (_ & _ & _ & Hnum).
  vm_compute in Hnum. discriminate Hnum.
Qed.

(** An external port added to the network of two ports. *)
Lemma names_stay_distinct_witness :
  List.NoDup (serial_ports (fst two_ports)) /\
  add (string_order := in_order) (config_order := objects_in_order) (config_eq := identity_eq)
    os_ok [usb_a] (fst two_ports, snd two_ports)
  = Some (tt, (fst (after two_ports
                      (add (string_order := in_order) (config_order := objects_in_order)
                         (config_eq := identity_eq) os_ok [usb_a])),
               snd (after two_ports
                      (add (string_order := in_order) (config_order := objects_in_order)
                         (config_eq := identity_eq) os_ok [usb_a])))) /\
  List.NoDup (serial_ports
                (fst (after two_ports
                        (add (string_order := in_order) (config_order := objects_in_order)
                           (config_eq := identity_eq) os_ok [usb_a])))).
Proof.
  assert (Hnd : List.NoDup (serial_ports (fst two_ports))).
  { vm_compute. repeat constructor; intros H;
      repeat (destruct H as [H | H]; [discriminate H |]); exact H. }
  assert (Hadd :
    add (string_order := in_order) (config_order := objects_in_order) (config_eq := identity_eq)
      os_ok [usb_a] (fst two_ports, snd two_ports)
    = Some (tt, (fst (after two_ports
                        (add (string_order := in_order) (config_order := objects_in_order)
                           (config_eq := identity_eq) os_ok [usb_a])),
                 snd (after two_ports
                        (add (string_order := in_order) (config_order := objects_in_order)
                           (config_eq := identity_eq) os_ok [usb_a])))))
    by (vm_compute; reflexivity).
  destruct (names_stay_distinct (string_order := in_order) (config_order := objects_in_order)
              (config_eq := identity_eq) os_ok (fst two_ports) (snd two_ports)
              (fst (after two_ports
                      (add (string_order := in_order) (config_order := objects_in_order)
                         (config_eq := identity_eq) os_ok [usb_a])))
              (snd (after two_ports
                      (add (string_order := in_order) (config_order := objects_in_order)
                         (config_eq := identity_eq) os_ok [usb_a])))
              Hnd)
    as (_ & _ & Hkeep & _).
  split; [exact Hnd |]. split; [exact Hadd |]. exact (Hkeep [usb_a] Hadd).
Defined.

(** C10, as stated, fails for [create]: the factory hands out two ptys with
    the same slave, the worker answers [OK] with the same name twice, and
    the name is twice in the list. *)
Lemma create_repeats_a_name :
  ~ create_keeps_names_distinct os_ok (fst same_slave) (snd same_slave) 2.
Proof.
  intros H.
  assert (Hnd : List.NoDup (serial_ports (fst same_slave))) by (vm_compute; constructor).
  assert (create os_ok 2 (fst same_slave, snd same_slave)
          = Some (tt, (fst (after same_slave (create os_ok 2)),
                       snd (after same_slave (create os_ok 2))))) as Hcreate
    by (vm_compute; reflexivity).
  specialize (H Hnd _ _ Hcreate). vm_compute in H.
  apply List.NoDup_cons_iff in H as [Hin _]. apply Hin. left. reflexivity.
Qed.

End Witnesses.

(** ** Runs of the worker *)

Section WorkerRunProofs.

Import Worker ReplySpec LoopSpec ForwardSpec.

Variable os : OS.

Lemma for_range_0 (body : M unit) (w : State) : for_range 0 body w = (Ret tt, w).
Proof. reflexivity. Qed.

Lemma process_cmd_run (message : option Command) (openpty_func : option Callable) (w : State) :
  exists rs,
    fst (process_cmd os message openpty_func w) = outcome message /\
    worker_io (snd (process_cmd os message openpty_func w)) = worker_io w ++ rs /\
    length rs = units message.
Proof.
  destruct message as [[| remove_list | external_ports | ports_number | cmd | e
                         | remove_list e | external_ports e | e] |];
    try (exists []; cbn; by rewrite app_nil_r).
  - destruct (remove_ports_answers os remove_list w) as (rs & Hret & Hio & HP).
    exists rs. unfold process_cmd. cbv beta iota delta [mbind worker_bind bind].
    destruct (remove_ports os remove_list w) as [r w']. cbn in *. subst r.
    split; [done |]. split; [done |]. symmetry. by apply Forall2_length in HP.
  - destruct (add_external_ports_answers os external_ports w) as (rs & Hret & Hio & HP).
    exists rs. unfold process_cmd. cbv beta iota delta [mbind worker_bind bind].
    destruct (add_external_ports os external_ports w) as [r w']. cbn in *. subst r.
    split; [done |]. split; [done |]. symmetry. by apply Forall2_length in HP.
  - destruct (generate_virtual_ports_answers os ports_number openpty_func w)
      as (rs & Hret & Hio & Hlen & _).
    exists rs. unfold process_cmd. cbv beta iota delta [mbind worker_bind bind].
    destruct (generate_virtual_ports os ports_number openpty_func w) as [r w']. cbn in *.
    by subst r.
  - exists [ERROR e (format_exc e)]. done.
  - destruct (remove_ports_answers os remove_list w) as (rs & Hret & Hio & HP).
    exists rs. unfold process_cmd. cbv beta iota delta [mbind worker_bind bind].
    destruct (remove_ports os remove_list w) as [r w']. cbn in *. subst r.
    split; [done |]. split; [done |]. symmetry. by apply Forall2_length in HP.
  - destruct (add_external_ports_answers os external_ports w) as (rs & Hret & Hio & HP).
    exists rs. unfold process_cmd. cbv beta iota delta [mbind worker_bind bind].
    destruct (add_external_ports os external_ports w) as [r w']. cbn in *. subst r.
    split; [done |]. split; [done |]. symmetry. by apply Forall2_length in HP.
Qed.

(** The items in front of the one that raises are handled as the items of
    a message that can be used are. *)
Lemma process_cmd_unusable (openpty_func : option Callable) (w : State) (e : string) :
  (forall remove_list,
     snd (process_cmd os (Some (CmdRemoveUnusable remove_list e)) openpty_func w)
     = snd (process_cmd os (Some (CmdRemove remove_list)) openpty_func w)) /\
  (forall external_ports,
     snd (process_cmd os (Some (CmdAddUnusable external_ports e)) openpty_func w)
     = snd (process_cmd os (Some (CmdAdd external_ports)) openpty_func w)).
Proof.
  split.
  - intros remove_list. unfold process_cmd. cbv beta iota delta [mbind worker_bind bind].
    by destruct (remove_ports os remove_list w) as [[[] | e'] w'].
  - intros external_ports. unfold process_cmd. cbv beta iota delta [mbind worker_bind bind].
    by destruct (add_external_ports os external_ports w) as [[[] | e'] w'].
Qed.

(** X1. [process_cmd] raises for one kind of message only, whatever the
    operating system does: a [remove], [add] or [create] whose data it
    cannot use; the items in front of the one that raises have been handled
    and answered by then, as those of a message that can be used are. For
    every other message it returns, [False] for [stop] only. It sends as
    many responses as the message has units of work: one per port to create,
    to add or to remove, one [ERROR] for a message whose command cannot be
    read, and none otherwise. A message without work, such as no message at
    all, [stop], an unknown command, an empty list or a count that is not
    positive, leaves the worker as it was. *)
Theorem process_cmd_outcome (message : option Command) (openpty_func : option Callable)
    (w : State) :
  fst (process_cmd os message openpty_func w) = outcome message /\
  (exists rs,
     worker_io (snd (process_cmd os message openpty_func w)) = worker_io w ++ rs /\
     length rs = units message) /\
  (units message = 0%nat -> snd (process_cmd os message openpty_func w) = w) /\
  (forall e, message = Some (CmdMissing e) ->
             snd (process_cmd os message openpty_func w)
             = set_worker_io (worker_io w ++ [ERROR e (format_exc e)]) w) /\
  (forall remove_list e, message = Some (CmdRemoveUnusable remove_list e) ->
     snd (process_cmd os message openpty_func w)
     = snd (process_cmd os (Some (CmdRemove remove_list)) openpty_func w)) /\
  (forall external_ports e, message = Some (CmdAddUnusable external_ports e) ->
     snd (process_cmd os message openpty_func w)
     = snd (process_cmd os (Some (CmdAdd external_ports)) openpty_func w)).
Proof.
  destruct (process_cmd_run message openpty_func w) as (rs & Hret & Hio & Hlen).
  split; [done |]. split; [by exists rs |]. split; [| split; [| split]].
  - destruct message as [[| remove_list | external_ports | ports_number | cmd | e
                           | remove_list e | external_ports e | e] |];
      cbn [units]; try done.
    + intros H. by destruct remove_list.
    + intros H. by destruct external_ports.
    + intros H. unfold process_cmd, generate_virtual_ports. by rewrite H.
    + intros H. by destruct remove_list.
    + intros H. by destruct external_ports.
  - by intros e ->.
  - intros remove_list e ->. apply process_cmd_unusable.
  - intros external_ports e ->. apply process_cmd_unusable.
Qed.

Lemma turn_run message ready loopback openpty_func w :
  exists rs,
    fst (create_serial_network_turn os message ready loopback openpty_func w)
      = outcome message /\
    worker_io (snd (create_serial_network_turn os message ready loopback openpty_func w))
      = worker_io w ++ rs /\
    length rs = units message /\
    snd (create_serial_network_turn os message ready loopback openpty_func w)
      = match unusable message with
        | Some _ => snd (process_cmd os message openpty_func w)
        | None => snd (forward_data os ready loopback (snd (process_cmd os message openpty_func w)))
        end.
Proof.
  destruct (process_cmd_run message openpty_func w) as (rs & Hret & Hio & Hlen).
  exists rs. unfold create_serial_network_turn.
  cbv beta iota delta [mbind worker_bind bind].
  destruct (process_cmd os message openpty_func w) as [r w1]. cbn [fst snd] in *. subst r.
  unfold outcome. destruct (unusable message) as [e |]; [done |].
  pose proof (forward_data_returns os ready loopback w1) as Hfwd.
  destruct (forward_data_keeps_registry os ready loopback w1) as (_ & _ & _ & Hio').
  destruct (forward_data os ready loopback w1) as [r w2]. cbn [fst snd] in *. subst r.
  cbn. by rewrite Hio', Hio.
Qed.

Lemma until_last_idem schedule : until_last (until_last schedule) = until_last schedule.
Proof.
  induction schedule as [| [message ready] schedule IH]; [done |]. cbn.
  destruct (is_last message) eqn:E; cbn; rewrite E; [done | by rewrite IH].
Qed.

Lemma is_last_outcome message :
  (is_last message = true -> outcome message <> Ret true) /\
  (is_last message = false -> outcome message = Ret true).
Proof.
  unfold is_last, outcome. destruct (unusable message); [by rewrite orb_true_r |].
  rewrite orb_false_r. by destruct (is_stop message).
Qed.

Lemma loop_run schedule loopback openpty_func w :
  exists rs,
    fst (create_serial_network_loop os schedule loopback openpty_func w)
      = run_outcome schedule /\
    worker_io (snd (create_serial_network_loop os schedule loopback openpty_func w))
      = worker_io w ++ rs /\
    length rs = total_units (until_last schedule) /\
    create_serial_network_loop os (until_last schedule) loopback openpty_func w
      = create_serial_network_loop os schedule loopback openpty_func w.
Proof.
  revert w. induction schedule as [| [message ready] schedule IH]; intros w.
  - exists []. cbn. by rewrite app_nil_r.
  - destruct (turn_run message ready loopback openpty_func w) as (rs1 & Hret & Hio & Hlen & _).
    destruct (is_last_outcome message) as [Hlast Hgoes].
    cbn [create_serial_network_loop until_last run_outcome].
    destruct (is_last message).
    + exists rs1. cbn [create_serial_network_loop]. unfold bind.
      destruct (create_serial_network_turn os message ready loopback openpty_func w)
        as [r w1]. cbn [fst snd] in *. subst r.
      specialize (Hlast eq_refl).
      unfold total_units. cbn [map list_sum fst].
      destruct (outcome message) as [[|] | e]; [done | |].
      * cbn. split; [done |]. split; [done |]. split; [lia | done].
      * cbn. split; [done |]. split; [done |]. split; [lia | done].
    + cbn [create_serial_network_loop]. unfold bind.
      destruct (create_serial_network_turn os message ready loopback openpty_func w)
        as [r w1]. cbn [fst snd] in *. subst r. rewrite (Hgoes eq_refl).
      destruct (IH w1) as (rs2 & Hret2 & Hio2 & Hlen2 & Heq).
      exists (rs1 ++ rs2). split; [done |].
      split; [by rewrite Hio2, Hio, app_assoc |].
      split; [| done].
      rewrite length_app, Hlen, Hlen2. unfold total_units. done.
Qed.

Lemma setup_returns ports_number external_ports openpty_func w :
  exists rs1 rs2,
    fst (create_serial_network_setup os ports_number external_ports openpty_func w) = Ret tt /\
    worker_io (snd (create_serial_network_setup os ports_number external_ports openpty_func w))
      = worker_io w ++ rs1 ++ rs2 /\
    length rs1 = Z.to_nat ports_number /\ Forall create_reply rs1 /\
    Forall2 add_reply (default [] external_ports) rs2.
Proof.
  unfold create_serial_network_setup. cbv beta iota delta [mbind worker_bind bind].
  destruct (generate_virtual_ports_answers os ports_number openpty_func w)
    as (rs1 & Hret1 & Hio1 & Hlen1 & HP1).
  destruct (generate_virtual_ports os ports_number openpty_func w) as [r w1].
  cbn [fst snd] in *. subst r.
  destruct (add_external_ports_answers os (default [] external_ports) w1)
    as (rs2 & Hret2 & Hio2 & HP2).
  exists rs1, rs2. rewrite Hret2, Hio2, Hio1, app_assoc. done.
Qed.

(** X2. Inside the [with] block of [create_serial_network] nothing that the
    operating system does ends the run: it goes on until a [stop] arrives,
    or a message whose data cannot be used, which is the one thing that
    makes the block raise. The worker first sends one response per virtual
    port wanted and one per external port given; then, turn by turn, the
    responses that the messages ask for, up to that last turn: what the
    schedule holds after it is neither answered nor has it any other
    effect. *)
Theorem create_serial_network_answers (ports_number : Z)
    (external_ports : option (list ConParams)) (loopback : bool)
    (openpty_func : option Callable) (schedule : list (option Command * list (Z * Z))) :
  exists rs1 rs2 rs3,
    fst (create_serial_network_body os ports_number external_ports loopback openpty_func
           schedule empty)
      = run_outcome schedule /\
    worker_io (snd (create_serial_network_body os ports_number external_ports loopback
                      openpty_func schedule empty))
      = rs1 ++ rs2 ++ rs3 /\
    length rs1 = Z.to_nat ports_number /\
    length rs2 = length (default [] external_ports) /\
    length rs3 = total_units (until_last schedule) /\
    create_serial_network_body os ports_number external_ports loopback openpty_func
      (until_last schedule) empty
    = create_serial_network_body os ports_number external_ports loopback openpty_func schedule
        empty.
Proof.
  destruct (setup_returns ports_number external_ports openpty_func empty)
    as (rs1 & rs2 & Hret & Hio & Hlen1 & _ & HP2).
  unfold create_serial_network_body. cbv beta iota delta [mbind worker_bind bind].
  destruct (create_serial_network_setup os ports_number external_ports openpty_func empty)
    as [r w1]. cbn [fst snd] in *. subst r.
  destruct (loop_run schedule loopback openpty_func w1) as (rs3 & Hret3 & Hio3 & Hlen3 & Heq).
  exists rs1, rs2, rs3. rewrite Heq. split; [done |].
  split; [rewrite Hio3, Hio; cbn [worker_io empty app]; by rewrite <- app_assoc |].
  split; [done |]. split; [symmetry; by apply Forall2_length in HP2 | done].
Qed.

(** *** The selector *)

Lemma dict_get_set_eq {V : Type} (d : list (Z * V)) (k : Z) (v : V) :
  Py.dict_get (Py.dict_set d k v) k = Some v.
Proof.
  induction d as [| [k' v'] d IH]; cbn.
  - by rewrite Z.eqb_refl.
  - destruct (Z.eqb k' k) eqn:E; cbn; by rewrite E.
Qed.

Lemma dict_get_set_ne {V : Type} (d : list (Z * V)) (k k' : Z) (v : V) :
  k <> k' -> Py.dict_get (Py.dict_set d k v) k' = Py.dict_get d k'.
Proof.
  intros Hne. induction d as [| [k0 v0] d IH]; cbn.
  - by apply Z.eqb_neq in Hne as ->.
  - destruct (Z.eqb_spec k0 k) as [-> | Hk0]; cbn.
    + by apply Z.eqb_neq in Hne as ->.
    + by rewrite IH.
Qed.

Lemma dict_get_set_Some {V : Type} (d : list (Z * V)) (k k' : Z) (v : V) :
  is_Some (Py.dict_get d k') -> is_Some (Py.dict_get (Py.dict_set d k v) k').
Proof.
  intros H. destruct (Z.eq_dec k k') as [<- | Hne].
  - rewrite dict_get_set_eq. by eexists.
  - by rewrite dict_get_set_ne.
Qed.

Lemma selector_ok_frame (w w' : State) :
  selector w' = selector w -> master_files w' = master_files w ->
  selector_ok w -> selector_ok w'.
Proof. unfold selector_ok. by intros -> ->. Qed.

Lemma existsb_Z_false (fd : Z) (l : list Z) : existsb (Z.eqb fd) l = false -> ~ In fd l.
Proof.
  intros H Hin. assert (existsb (Z.eqb fd) l = true); [| congruence].
  apply existsb_exists. exists fd. split; [done | apply Z.eqb_refl].
Qed.

Lemma NoDup_snoc {A : Type} (l : list A) (x : A) :
  List.NoDup l -> ~ In x l -> List.NoDup (l ++ [x]).
Proof.
  intros Hnd Hin. apply (Permutation_NoDup (l := x :: l)).
  - apply Permutation_cons_append.
  - by constructor.
Qed.

(** Registering a descriptor whose file has just been stored. *)
Lemma selector_ok_register (w : State) (fd : Z) (f : FileObj) (names : gmap string Z)
    (stk : list Z) (r : Result unit) (w' : State) :
  selector_ok w ->
  selector_register fd
    (set_stack stk (set_slave_names names
       (set_master_files (Py.dict_set (master_files w) fd f) w))) = (r, w') ->
  selector_ok w' /\ worker_io w' = worker_io w.
Proof.
  intros [Hnd Hok]. unfold selector_register.
  cbv beta iota delta [mbind worker_bind bind get modify raise].
  cbn [selector set_stack set_slave_names set_master_files].
  destruct (Z.ltb_spec fd 0) as [Hneg | Hpos].
  - intros [= <- <-]. split; [| done]. split; [done |]. cbn. intros fd' Hin.
    destruct (Hok fd' Hin) as [? ?]. split; [done | by apply dict_get_set_Some].
  - destruct (existsb (Z.eqb fd) (selector w)) eqn:E.
    + intros [= <- <-]. split; [| done]. split; [done |]. cbn. intros fd' Hin.
      destruct (Hok fd' Hin) as [? ?]. split; [done | by apply dict_get_set_Some].
    + intros [= <- <-]. split; [| done]. apply existsb_Z_false in E. split; cbn.
      * by apply NoDup_snoc.
      * intros fd' [Hin | [<- | []]]%in_app_iff.
        -- destruct (Hok fd' Hin) as [? ?]. split; [done | by apply dict_get_set_Some].
        -- split; [done |]. rewrite dict_get_set_eq. by eexists.
Qed.

Lemma generate_virtual_port_selector openpty_func w :
  selector_ok w -> selector_ok (snd (generate_virtual_port os openpty_func w)).
Proof.
  intros Hok. unfold generate_virtual_port, call_openpty, send.
  cbv beta iota delta [try_except mbind worker_bind bind get modify expect check ret raise].
  destruct (match openpty_func with
            | Some f => f (openpty_calls w)
            | None => pty_openpty os (openpty_calls w)
            end) as [[master_fd slave_fd] |]; [| exact Hok].
  destruct (tty_setraw os master_fd); [| exact Hok].
  destruct (os_set_blocking os master_fd); [| exact Hok].
  destruct (os_ttyname os slave_fd) as [slave_name |]; [| exact Hok].
  destruct (io_open os master_fd); [| exact Hok].
  match goal with
  | |- context [selector_register master_fd ?st] =>
      destruct (selector_register master_fd st) as [r w'] eqn:E
  end.
  assert (selector_ok w' /\ worker_io w' = worker_io w) as [Hok' _].
  { apply (selector_ok_register (set_openpty_calls (S (openpty_calls w)) w)
             master_fd FileIO
             (<[slave_name := master_fd]> (slave_names w)) (stack w ++ [master_fd]) r w');
      [exact Hok | exact E]. }
  destruct r; exact Hok'.
Qed.

Lemma add_external_port_selector con_params w :
  selector_ok w -> selector_ok (snd (add_external_port os con_params w)).
Proof.
  intros Hok. unfold add_external_port, send.
  cbv beta iota delta [try_except mbind worker_bind bind get modify expect check ret raise].
  destruct (decide (is_Some (slave_names w !! cp_port con_params))); [exact Hok |].
  destruct (Serial_open os con_params) as [port_fd |]; [| exact Hok].
  destruct (os_set_blocking os port_fd); [| exact Hok].
  match goal with
  | |- context [selector_register port_fd ?st] =>
      destruct (selector_register port_fd st) as [r w'] eqn:E
  end.
  assert (selector_ok w' /\ worker_io w' = worker_io w) as [Hok' _].
  { apply (selector_ok_register w port_fd (Serial con_params)
             (<[cp_port con_params := port_fd]> (slave_names w)) (stack w ++ [port_fd]) r w');
      [exact Hok | exact E]. }
  destruct r; exact Hok'.
Qed.

Lemma selector_ok_unregister (w : State) (fd : Z) :
  selector_ok w ->
  selector_ok (set_selector (List.filter (fun x => negb (Z.eqb fd x)) (selector w)) w) /\
  forall files,
    (files = master_files w \/ files = Py.dict_del (master_files w) fd) ->
    forall w',
      selector w' = List.filter (fun x => negb (Z.eqb fd x)) (selector w) ->
      master_files w' = files ->
      selector_ok w'.
Proof.
  intros [Hnd Hok].
  assert (forall files,
            files = master_files w \/ files = Py.dict_del (master_files w) fd ->
            forall w',
              selector w' = List.filter (fun x => negb (Z.eqb fd x)) (selector w) ->
              master_files w' = files -> selector_ok w') as H.
  { intros files Hfiles w' Hsel Hmf. split.
    - rewrite Hsel. by apply List.NoDup_filter.
    - rewrite Hsel, Hmf. intros fd' [Hin Hne]%filter_In.
      destruct (Hok fd' Hin) as [? ?]. split; [done |].
      destruct Hfiles as [-> | ->]; [done |].
      rewrite dict_get_del_ne; [done |].
      intros ->. by rewrite Z.eqb_refl in Hne. }
  split; [| exact H]. apply (H (master_files w)); [by left | done | done].
Qed.

Lemma remove_port_selector slave_name w :
  selector_ok w -> selector_ok (snd (remove_port os slave_name w)).
Proof.
  intros Hok. unfold remove_port, selector_unregister, master_files_get, close, send.
  cbv beta iota delta [try_except mbind worker_bind bind get modify expect check ret raise].
  destruct (slave_names w !! slave_name) as [master_fd |]; [| exact Hok].
  destruct (existsb (Z.eqb master_fd) (selector w)); [| exact Hok].
  cbn [master_files set_selector].
  destruct (selector_ok_unregister w master_fd Hok) as [Hok1 Hany].
  destruct (Py.dict_get (master_files w) master_fd); [| exact Hok1].
  destruct (file_close os master_fd); [| exact Hok1].
  apply (Hany (Py.dict_del (master_files w) master_fd)); [by right | done | done].
Qed.

Lemma for_each_selector {A : Type} (body : A -> M unit) (l : list A) :
  (forall x w, selector_ok w -> selector_ok (snd (body x w))) ->
  forall w, selector_ok w -> selector_ok (snd (for_each l body w)).
Proof.
  intros Hbody. induction l as [| x l IH]; intros w Hok; [done |].
  cbn [for_each]. cbv beta iota delta [mbind worker_bind bind].
  specialize (Hbody x w Hok). destruct (body x w) as [[[] | e] w1]; cbn [snd] in *.
  - by apply IH.
  - done.
Qed.

Lemma for_range_selector (body : M unit) (n : nat) :
  (forall w, selector_ok w -> selector_ok (snd (body w))) ->
  forall w, selector_ok w -> selector_ok (snd (for_range n body w)).
Proof.
  intros Hbody. induction n as [| n IH]; intros w Hok; [done |].
  cbn [for_range]. cbv beta iota delta [mbind worker_bind bind].
  specialize (Hbody w Hok). destruct (body w) as [[[] | e] w1]; cbn [snd] in *.
  - by apply IH.
  - done.
Qed.

Lemma process_cmd_selector message openpty_func w :
  selector_ok w -> selector_ok (snd (process_cmd os message openpty_func w)).
Proof.
  intros Hok.
  destruct message as [[| remove_list | external_ports | ports_number | cmd | e
                         | remove_list e | external_ports e | e] |];
    try exact Hok; unfold process_cmd; cbv beta iota delta [mbind worker_bind bind].
  - pose proof (for_each_selector (remove_port os) remove_list remove_port_selector w Hok) as H.
    unfold remove_ports. by destruct (for_each remove_list (remove_port os) w) as [[[] | e] w1].
  - pose proof (for_each_selector (add_external_port os) external_ports
                  add_external_port_selector w Hok) as H.
    unfold add_external_ports.
    by destruct (for_each external_ports (add_external_port os) w) as [[[] | e] w1].
  - pose proof (for_range_selector (generate_virtual_port os openpty_func)
                  (Z.to_nat ports_number)
                  (generate_virtual_port_selector openpty_func) w Hok) as H.
    unfold generate_virtual_ports.
    by destruct (for_range (Z.to_nat ports_number) (generate_virtual_port os openpty_func) w)
      as [[[] | e] w1].
  - pose proof (for_each_selector (remove_port os) remove_list remove_port_selector w Hok) as H.
    unfold remove_ports. by destruct (for_each remove_list (remove_port os) w) as [[[] | e'] w1].
  - pose proof (for_each_selector (add_external_port os) external_ports
                  add_external_port_selector w Hok) as H.
    unfold add_external_ports.
    by destruct (for_each external_ports (add_external_port os) w) as [[[] | e'] w1].
Qed.

Lemma turn_selector message ready loopback openpty_func w :
  selector_ok w ->
  selector_ok (snd (create_serial_network_turn os message ready loopback openpty_func w)).
Proof.
  intros Hok.
  destruct (turn_run message ready loopback openpty_func w) as (_ & _ & _ & _ & ->).
  pose proof (process_cmd_selector message openpty_func w Hok) as H.
  destruct (unusable message); [done |].
  destruct (forward_data_keeps_registry os ready loopback
              (snd (process_cmd os message openpty_func w))) as (Hmf & _ & Hsel & _).
  by apply (selector_ok_frame _ _ Hsel Hmf).
Qed.

Lemma loop_selector schedule loopback openpty_func w :
  selector_ok w ->
  selector_ok (snd (create_serial_network_loop os schedule loopback openpty_func w)).
Proof.
  revert w. induction schedule as [| [message ready] schedule IH]; intros w Hok; [done |].
  cbn [create_serial_network_loop]. unfold bind.
  pose proof (turn_selector message ready loopback openpty_func w Hok) as H.
  destruct (create_serial_network_turn os message ready loopback openpty_func w)
    as [[[] | e] w1]; cbn [snd] in *; [by apply IH | done | done].
Qed.

Lemma setup_selector ports_number external_ports openpty_func w :
  selector_ok w ->
  selector_ok (snd (create_serial_network_setup os ports_number external_ports openpty_func w)).
Proof.
  intros Hok. unfold create_serial_network_setup.
  cbv beta iota delta [mbind worker_bind bind].
  pose proof (for_range_selector (generate_virtual_port os openpty_func)
                (Z.to_nat ports_number)
                (generate_virtual_port_selector openpty_func) w Hok) as H.
  unfold generate_virtual_ports.
  destruct (for_range (Z.to_nat ports_number) (generate_virtual_port os openpty_func) w)
    as [[[] | e] w1]; cbn [snd] in *; [| done].
  by apply (for_each_selector (add_external_port os) _ add_external_port_selector).
Qed.

(** X3. At every point of a run of [create_serial_network] inside its
    [with] block, whatever the operating system and the pty factory do and
    whichever messages arrive, no descriptor is registered with the selector
    twice, and every registered descriptor is a valid one whose file is in
    [master_files]: when the selector reports it ready, [forward_data] finds
    its file. *)
Theorem selector_always_backed (ports_number : Z) (external_ports : option (list ConParams))
    (loopback : bool) (openpty_func : option Callable)
    (schedule : list (option Command * list (Z * Z))) :
  let w := snd (create_serial_network_body os ports_number external_ports loopback
                  openpty_func schedule empty) in
  List.NoDup (selector w) /\
  forall fd, In fd (selector w) ->
    0 <= fd /\
    exists f, fst (master_files_get fd w) = Ret f.
Proof.
  cbv zeta.
  assert (selector_ok (snd (create_serial_network_body os ports_number external_ports
                              loopback openpty_func schedule empty))) as [Hnd Hok].
  { unfold create_serial_network_body. cbv beta iota delta [mbind worker_bind bind].
    assert (selector_ok empty) as H0 by (split; [constructor | by intros ? []]).
    pose proof (setup_selector ports_number external_ports openpty_func empty H0) as H.
    destruct (create_serial_network_setup os ports_number external_ports openpty_func empty)
      as [[[] | e] w1]; cbn [snd] in *; [| done].
    by apply loop_selector. }
  split; [done |]. intros fd Hin. destruct (Hok fd Hin) as [Hpos [f Hf]].
  split; [done |]. exists f. unfold master_files_get.
  cbv beta iota delta [mbind worker_bind bind get expect]. by rewrite Hf.
Qed.

(** *** Forwarding, event after event *)

Lemma forward_event_skips (loopback : bool) (key_fd events : Z) (w : State) :
  Z.land events EVENT_READ = 0 \/
  Py.dict_get (master_files w) key_fd = None \/
  file_read os key_fd = ReadRaises \/
  file_read os key_fd = ReadNone ->
  forward_event os loopback (key_fd, events) w = (Ret tt, w).
Proof.
  intros H. unfold forward_event.
  destruct (Z.eqb_spec (Z.land events EVENT_READ) 0) as [E | E]; [done |]. cbn [negb].
  destruct H as [H | H]; [done |].
  cbv beta iota delta [try_except mbind worker_bind bind master_files_get get expect read].
  destruct (Py.dict_get (master_files w) key_fd) as [f |] eqn:Hf; [| done].
  destruct H as [H | [H | H]]; [done | by rewrite H |]. rewrite H.
  unfold ret at 1. unfold ret at 1.
  pose proof (broadcast_none os key_fd loopback (master_files w) w) as Hw.
  destruct (broadcast os key_fd None loopback (master_files w) w) as [[[] | e] w'];
    cbn [snd] in Hw; by subst w'.
Qed.

(** X4. An event is forwarded only if it is a read event on a descriptor
    that has a file from which bytes can be read: an event without
    [EVENT_READ], an event on a descriptor without a file, a read that
    raises and a read that returns [None] all write nothing and leave the
    worker as it was, with or without loopback, and so does any batch of
    such events, whichever descriptors they are on. *)
Theorem forward_data_idle (loopback : bool) (ready : list (Z * Z)) (w : State) :
  Forall (idle os w) ready ->
  forward_data os ready loopback w = (Ret tt, w) /\
  forall event, In event ready -> forward_event os loopback event w = (Ret tt, w).
Proof.
  intros Hidle.
  assert (forall event, In event ready -> forward_event os loopback event w = (Ret tt, w))
    as Hskip.
  { intros [key_fd events] Hin. apply forward_event_skips.
    rewrite List.Forall_forall in Hidle. apply (Hidle _ Hin). }
  split; [| exact Hskip]. clear Hidle.
  induction ready as [| event ready IH]; [done |].
  unfold forward_data in *. cbn [for_each].
  cbv beta iota delta [mbind worker_bind bind].
  rewrite (Hskip event) by (by left).
  apply IH. intros event' Hin. apply Hskip. by right.
Qed.

(** X5. [forward_data] handles the events one after the other, and a write
    that failed for one event costs the events after it nothing: an event
    with bytes to read is broadcast from the files as they are, whatever
    happened to the events before it, and reaches every target when its own
    writes succeed. *)
Theorem forward_data_goes_on (ready : list (Z * Z)) (key_fd events : Z) (f : FileObj)
    (data : list byte) (loopback : bool) (w : State) :
  Z.land events EVENT_READ <> 0 ->
  Py.dict_get (master_files w) key_fd = Some f ->
  file_read os key_fd = ReadBytes data ->
  exists out,
    written (snd (forward_data os ready loopback w)) = written w ++ out /\
    fst (forward_data os (ready ++ [(key_fd, events)]) loopback w) = Ret tt /\
    written (snd (forward_data os (ready ++ [(key_fd, events)]) loopback w))
      = written w ++ out
        ++ map (fun fd => (fd, data))
             (delivered os data (targets loopback key_fd (master_files w))) /\
    ((forall fd, In fd (Py.keys (master_files w)) -> file_write os fd data = true) ->
     forall fd, In fd (targets loopback key_fd (master_files w)) ->
       In (fd, data) (written (snd (forward_data os (ready ++ [(key_fd, events)]) loopback w)))).
Proof.
  intros Hread Hf Hdata.
  destruct (forward_data_frame os ready loopback w) as (out & Hw1).
  exists out. split; [by rewrite Hw1 |].
  split; [apply forward_data_returns |].
  assert (written (snd (forward_data os (ready ++ [(key_fd, events)]) loopback w))
          = written w ++ out
            ++ map (fun fd => (fd, data))
                 (delivered os data (targets loopback key_fd (master_files w)))) as Hall.
  { rewrite forward_data_app, Hw1. unfold forward_data. cbn [for_each].
    cbv beta iota delta [mbind worker_bind bind].
    rewrite (forward_event_run os key_fd events f data) by done.
    cbn. by rewrite <- app_assoc. }
  split; [done |]. intros Hwrite fd Hin. rewrite Hall.
  rewrite delivered_all.
  - rewrite !in_app_iff. right. right. apply in_map_iff. by exists fd.
  - intros fd' Hin'. apply Hwrite. by apply in_targets in Hin' as [? _].
Qed.

End WorkerRunProofs.

(** ** What forwarding writes *)

Section ForwardSafety.

Import Worker ForwardSpec.

Variable os : OS.

Lemma delivered_In data fds fd : In fd (delivered os data fds) -> In fd fds.
Proof.
  induction fds as [| x fds IH]; [done |]. cbn [delivered].
  destruct (file_write os x data); [| done].
  intros [-> | Hin]; [by left | right; by apply IH].
Qed.

Lemma forward_event_writes loopback key_fd events w :
  exists out,
    snd (forward_event os loopback (key_fd, events) w) = set_written (written w ++ out) w /\
    forall fd b, In (fd, b) out ->
      In fd (Py.keys (master_files w)) /\
      Z.land events EVENT_READ <> 0 /\
      is_Some (Py.dict_get (master_files w) key_fd) /\
      file_read os key_fd = ReadBytes b /\
      file_write os fd b = true /\
      (loopback = false -> fd <> key_fd).
Proof.
  destruct (Z.eq_dec (Z.land events EVENT_READ) 0) as [E | E].
  { exists []. rewrite forward_event_skips by (by left). by rewrite set_written_nil. }
  destruct (Py.dict_get (master_files w) key_fd) as [f |] eqn:Hf.
  2: { exists []. rewrite forward_event_skips by (right; by left). by rewrite set_written_nil. }
  destruct (file_read os key_fd) as [| | data] eqn:Hread.
  - exists []. rewrite forward_event_skips by (right; right; by left). by rewrite set_written_nil.
  - exists []. rewrite forward_event_skips by (right; right; by right). by rewrite set_written_nil.
  - rewrite (forward_event_run os key_fd events f data) by done. eexists. split; [reflexivity |].
    intros fd b (x & [= <- <-] & Hin)%in_map_iff.
    assert (file_write os x data = true) as Hwrite.
    { clear -Hin. induction (targets loopback key_fd (master_files w)) as [| y l IH]; [done |].
      cbn [delivered] in Hin. destruct (file_write os y data) eqn:Ey; [| done].
      destruct Hin as [<- | Hin]; [done | by apply IH]. }
    apply delivered_In, in_targets in Hin as [Hkey Hlb].
    split; [done |]. split; [done |]. split; [by eexists |]. split; [done |].
    split; [done |]. intros ->. by destruct Hlb.
Qed.

(** X6. [forward_data] never raises, and it writes and does nothing
    else: files, names, selector and pipe are as before. Every write it
    completes puts bytes that were read from a ready descriptor with a file
    into the file of a descriptor of [master_files]; and without loopback
    never into the file they were read from. *)
Theorem forward_data_only_forwards (ready : list (Z * Z)) (loopback : bool) (w : State) :
  fst (forward_data os ready loopback w) = Ret tt /\
  exists out,
    snd (forward_data os ready loopback w) = set_written (written w ++ out) w /\
    forall fd b, In (fd, b) out ->
      In fd (Py.keys (master_files w)) /\
      exists key_fd events,
        In (key_fd, events) ready /\
        Z.land events EVENT_READ <> 0 /\
        is_Some (Py.dict_get (master_files w) key_fd) /\
        file_read os key_fd = ReadBytes b /\
        (loopback = false -> fd <> key_fd).
Proof.
  split; [apply forward_data_returns |].
  revert w. induction ready as [| [key_fd events] ready IH]; intros w.
  - exists []. split; [by rewrite set_written_nil | by intros ? ? []].
  - unfold forward_data in *. cbn [for_each].
    cbv beta iota delta [mbind worker_bind bind].
    pose proof (forward_event_returns os loopback (key_fd, events) w) as Hret.
    destruct (forward_event_writes loopback key_fd events w) as (out1 & Hw & Hout1).
    destruct (forward_event os loopback (key_fd, events) w) as [r w']. cbn [fst snd] in *.
    subst r w'.
    destruct (IH (set_written (written w ++ out1) w)) as (out2 & -> & Hout2).
    exists (out1 ++ out2). split; [apply set_written_app |].
    intros fd b [Hin | Hin]%in_app_iff.
    + destruct (Hout1 fd b Hin) as (? & ? & ? & ? & _ & ?).
      split; [done |]. exists key_fd, events. split; [by left | done].
    + destruct (Hout2 fd b Hin) as (? & k & e & ? & ?).
      split; [done |]. exists k, e. split; [by right | done].
Qed.

End ForwardSafety.

(** ** What a response says about the worker *)

Section ResponseProofs.

Import Worker CreatedSpec.

Variable os : OS.

Lemma register_says (w0 w : State) (fd : Z) :
  selector w = selector w0 ->
  (selector_register fd w = (Ret tt, set_selector (selector w0 ++ [fd]) w) /\
   ~ In fd (selector w0)) \/
  (exists e, selector_register fd w = (Raise e, w)).
Proof.
  intros Hsel. unfold selector_register.
  cbv beta iota delta [mbind worker_bind bind get modify raise]. rewrite Hsel.
  destruct (Z.ltb fd 0); [right; by eexists |].
  destruct (existsb (Z.eqb fd) (selector w0)) eqn:E; [right; by eexists |].
  left. split; [done |]. by apply existsb_Z_false.
Qed.

Lemma generate_virtual_port_says openpty_func w :
  exists r,
    worker_io (snd (generate_virtual_port os openpty_func w)) = worker_io w ++ [r] /\
    create_says w (snd (generate_virtual_port os openpty_func w)) r.
Proof.
  unfold generate_virtual_port, call_openpty, send.
  cbv beta iota delta [try_except mbind worker_bind bind get modify expect check ret raise].
  destruct (match openpty_func with
            | Some f => f (openpty_calls w)
            | None => pty_openpty os (openpty_calls w)
            end) as [[master_fd slave_fd] |]; [| by eexists].
  destruct (tty_setraw os master_fd); [| by eexists].
  destruct (os_set_blocking os master_fd); [| by eexists].
  destruct (os_ttyname os slave_fd) as [slave_name |]; [| by eexists].
  destruct (io_open os master_fd); [| by eexists].
  match goal with
  | |- context [selector_register master_fd ?st] =>
      destruct (register_says w st master_fd eq_refl) as [[-> Hnew] | [e ->]]
  end.
  - eexists. split; [reflexivity |]. exists master_fd. split; [| done].
    unfold registered. cbn. split; [by rewrite lookup_insert_eq |].
    split; [apply in_app_iff; right; by left |].
    rewrite dict_get_set_eq. by eexists.
  - by eexists.
Qed.

Lemma add_external_port_says con_params w :
  exists r,
    worker_io (snd (add_external_port os con_params w)) = worker_io w ++ [r] /\
    add_says con_params w (snd (add_external_port os con_params w)) r.
Proof.
  unfold add_external_port, send.
  cbv beta iota delta [try_except mbind worker_bind bind get modify expect check ret raise].
  destruct (decide (is_Some (slave_names w !! cp_port con_params))) as [Hreg | Hfree].
  { eexists. split; [reflexivity |]. by cbn. }
  apply eq_None_not_Some in Hfree.
  destruct (Serial_open os con_params) as [port_fd |]; [| by eexists].
  destruct (os_set_blocking os port_fd); [| by eexists].
  match goal with
  | |- context [selector_register port_fd ?st] =>
      destruct (register_says w st port_fd eq_refl) as [[-> Hnew] | [e ->]]
  end.
  - eexists. split; [reflexivity |]. split; [done |]. split; [done |].
    exists port_fd. split; [| done].
    unfold registered. cbn. split; [by rewrite lookup_insert_eq |].
    split; [apply in_app_iff; right; by left |].
    rewrite dict_get_set_eq. by eexists.
  - by eexists.
Qed.

Lemma remove_port_says slave_name w :
  exists r,
    worker_io (snd (remove_port os slave_name w)) = worker_io w ++ [r] /\
    remove_says slave_name w (snd (remove_port os slave_name w)) r.
Proof.
  unfold remove_port, selector_unregister, master_files_get, close, send.
  cbv beta iota delta [try_except mbind worker_bind bind get modify expect check ret raise].
  destruct (slave_names w !! slave_name) as [master_fd |] eqn:Hname;
    [| eexists; split; [reflexivity |]; by cbn].
  destruct (existsb (Z.eqb master_fd) (selector w));
    [| eexists; split; [reflexivity |]; cbn; rewrite Hname; by eauto].
  cbn [master_files set_selector].
  destruct (Py.dict_get (master_files w) master_fd);
    [| eexists; split; [reflexivity |]; cbn; rewrite Hname; by eauto].
  destruct (file_close os master_fd);
    [| eexists; split; [reflexivity |]; cbn; rewrite Hname; by eauto].
  eexists. split; [reflexivity |]. cbn. split; [done |]. split; [| done].
  exists master_fd. split; [done |]. intros [_ Hne]%filter_In.
  by rewrite Z.eqb_refl in Hne.
Qed.


End ResponseProofs.

(** ** The list of external descriptors *)

Section DescriptorProofs.

Import VirtualSerialNetwork ControllerSpec RunSpec ConfigSpec.

Lemma existsb_port_In (c : SerialConnectionMinimalConfig)
    (l : list SerialConnectionMinimalConfig) :
  existsb (fun added_port => String.eqb (port c) (port added_port)) l = true
  <-> In (port c) (map port l).
Proof.
  rewrite existsb_exists, in_map_iff. split.
  - intros (x & Hin & Heq). apply String.eqb_eq in Heq. by exists x.
  - intros (x & Heq & Hin). exists x. split; [done |]. apply String.eqb_eq. done.
Qed.

Lemma distinct_ports_snoc (l : list SerialConnectionMinimalConfig)
    (c : SerialConnectionMinimalConfig) :
  distinct_ports l -> ~ In (port c) (map port l) -> distinct_ports (l ++ [c]).
Proof.
  unfold distinct_ports. intros Hnd Hin. rewrite map_app. cbn.
  apply (Permutation_NoDup (l := port c :: map port l)).
  - apply Permutation_cons_append.
  - by constructor.
Qed.

Lemma first_with_app name l k :
  first_with name (l ++ k)
  = match first_with name l with Some c => Some c | None => first_with name k end.
Proof.
  unfold first_with. induction l as [| x l IH]; [done |]. cbn.
  by destruct (String.eqb (port x) name).
Qed.

Lemma first_with_None name l : first_with name l = None <-> ~ In name (map port l).
Proof.
  unfold first_with. split.
  - intros H (x & Heq & Hin)%in_map_iff.
    apply (find_none _ _ H) in Hin. by apply String.eqb_neq in Hin.
  - intros H. destruct (List.find _ l) as [c |] eqn:E; [| done].
    apply find_some in E as [Hin Heq]. apply String.eqb_eq in Heq.
    exfalso. apply H, in_map_iff. by exists c.
Qed.

(** What the loop of [_ext_ports_remove_duplicates] makes of the list it
    has built so far and the descriptors it has yet to see. *)
Lemma remove_duplicates_from_spec acc l :
  distinct_ports acc ->
  exists k,
    remove_duplicates_from acc l = acc ++ k /\
    sublist k l /\
    distinct_ports (acc ++ k) /\
    forall name,
      first_with name (acc ++ k)
      = match first_with name acc with Some c => Some c | None => first_with name l end.
Proof.
  revert acc. induction l as [| c l IH]; intros acc Hacc.
  - exists []. rewrite app_nil_r. split; [done |]. split; [done |]. split; [done |].
    intros name. by destruct (first_with name acc).
  - cbn [remove_duplicates_from].
    destruct (existsb _ acc) eqn:E.
    + apply existsb_port_In in E.
      destruct (IH acc Hacc) as (k & Heq & Hsub & Hnd & Hfirst).
      exists k. split; [done |]. split; [by apply sublist_cons |]. split; [done |].
      intros name. rewrite Hfirst. destruct (first_with name acc) eqn:Ea; [done |].
      unfold first_with at 2. cbn. destruct (String.eqb_spec (port c) name) as [<- | _]; [| done].
      by apply first_with_None in Ea.
    + assert (~ In (port c) (map port acc)) as Hnew.
      { intros Hin. apply existsb_port_In in Hin. congruence. }
      destruct (IH (acc ++ [c]) (distinct_ports_snoc _ _ Hacc Hnew))
        as (k & Heq & Hsub & Hnd & Hfirst).
      exists (c :: k). rewrite Heq, <- app_assoc. cbn.
      split; [done |]. split; [by apply sublist_skip |].
      change (acc ++ c :: k) with (acc ++ [c] ++ k). rewrite app_assoc.
      split; [done |]. intros name. rewrite Hfirst, first_with_app.
      destruct (first_with name acc); [done |]. unfold first_with. cbn.
      by destruct (String.eqb (port c) name).
Qed.

Lemma remove_duplicates_distinct l : distinct_ports (remove_duplicates_from [] l).
Proof.
  destruct (remove_duplicates_from_spec [] l) as (k & -> & _ & Hnd & _); [constructor | done].
Qed.

Lemma remove_duplicates_sublist l : sublist (remove_duplicates_from [] l) l.
Proof.
  destruct (remove_duplicates_from_spec [] l) as (k & -> & Hsub & _); [constructor | done].
Qed.

Lemma remove_duplicates_id acc l :
  distinct_ports (acc ++ l) -> remove_duplicates_from acc l = acc ++ l.
Proof.
  revert acc. induction l as [| c l IH]; intros acc Hnd; [by rewrite app_nil_r |].
  cbn [remove_duplicates_from].
  assert (existsb (fun added_port => String.eqb (port c) (port added_port)) acc = false) as ->.
  { destruct (existsb _ acc) eqn:E; [| done]. apply existsb_port_In in E.
    unfold distinct_ports in Hnd. rewrite map_app in Hnd. cbn in Hnd.
    apply List.NoDup_remove_2 in Hnd. exfalso. apply Hnd, in_app_iff. by left. }
  change (acc ++ c :: l) with (acc ++ [c] ++ l) in *. rewrite app_assoc in *. by apply IH.
Qed.

(** X8. [_ext_ports_remove_duplicates] keeps, of the descriptors with one
    port name, the first: the new list has no port name twice, is the old
    one with some descriptors left out, and the first descriptor with a
    given port name is the same in both. A list without a repeated port
    name is left as it is, so that removing the duplicates twice is the same
    as removing them once. *)
Theorem remove_duplicates_keeps_first (l : list SerialConnectionMinimalConfig) :
  distinct_ports (remove_duplicates_from [] l) /\
  sublist (remove_duplicates_from [] l) l /\
  (forall name, first_with name (remove_duplicates_from [] l) = first_with name l) /\
  (forall name, In name (map port (remove_duplicates_from [] l)) <-> In name (map port l)) /\
  remove_duplicates_from [] (remove_duplicates_from [] l) = remove_duplicates_from [] l /\
  (distinct_ports l <-> remove_duplicates_from [] l = l).
Proof.
  destruct (remove_duplicates_from_spec [] l) as (k & Heq & Hsub & Hnd & Hfirst);
    [constructor |].
  cbn [app] in *. rewrite Heq.
  assert (forall name, In name (map port k) <-> In name (map port l)) as Hports.
  { intros name. specialize (Hfirst name). cbn in Hfirst.
    split; intros Hin.
    - destruct (first_with name l) eqn:E.
      + apply find_some in E as [Hc Hname]. apply String.eqb_eq in Hname.
        apply in_map_iff. by eexists.
      + apply first_with_None in Hfirst. done.
    - destruct (first_with name k) eqn:E.
      + apply find_some in E as [Hc Hname]. apply String.eqb_eq in Hname.
        apply in_map_iff. by eexists.
      + symmetry in Hfirst. apply first_with_None in Hfirst. done. }
  split; [done |]. split; [done |]. split; [done |]. split; [done |].
  split; [by apply (remove_duplicates_id []) |]. split.
  - intros Hl. rewrite <- Heq. by apply (remove_duplicates_id []).
  - by intros <-.
Qed.

Lemma sublist_In {A : Type} (l k : list A) (x : A) : sublist l k -> In x l -> In x k.
Proof.
  induction 1 as [| y l k _ IH | y l k _ IH]; [done | |].
  - intros [-> | Hin]; [by left | right; by apply IH].
  - intros Hin. right. by apply IH.
Qed.

Lemma filter_sublist {A : Type} (f : A -> bool) (l : list A) : sublist (List.filter f l) l.
Proof.
  induction l as [| x l IH]; cbn; [constructor |].
  destruct (f x); by constructor.
Qed.

Lemma del_first_distinct name l l' :
  distinct_ports l -> del_first name l = Some l' -> distinct_ports l'.
Proof.
  unfold distinct_ports. revert l'. induction l as [| c l IH]; intros l' Hnd; [done |].
  cbn [del_first]. apply List.NoDup_cons_iff in Hnd as [Hc Hl].
  destruct (String.eqb (port c) name).
  - by intros [= <-].
  - destruct (del_first name l) as [r |] eqn:E; [| done]. cbn. intros [= <-]. cbn.
    constructor; [| by apply IH].
    intros Hin. apply Hc. clear -E Hin. revert r E Hin.
    induction l as [| x l IH]; intros r E Hin; [done |]. cbn [del_first] in E.
    destruct (String.eqb (port x) name).
    + injection E as <-. by right.
    + destruct (del_first name l) as [r' |] eqn:E'; [| done]. injection E as <-.
      destruct Hin as [Hin | Hin]; [by left | right; by apply (IH r')].
Qed.

Lemma forget_distinct removed s :
  distinct_ports (external_ports s) ->
  distinct_ports (external_ports (fold_left (fun s0 name => forget name s0) removed s)).
Proof.
  revert s. induction removed as [| name removed IH]; intros s Hnd; [done |].
  cbn [fold_left]. apply IH. unfold forget.
  destruct (del_first name (external_ports s)) as [l' |] eqn:E; [| done].
  cbn. by apply (del_first_distinct name (external_ports s)).
Qed.

End DescriptorProofs.

(** ** The methods of the controller on every network *)

Section MethodProofs.

Import VirtualSerialNetwork ControllerSpec RunSpec ReplySpec LoopSpec ConfigSpec.

Variable os : OS.
Context {string_order : Py.SetOrder string}.
Context {config_order : Py.SetOrder SerialConnectionMinimalConfig}.
Context {config_eq : ConfigEq}.

(** A loop over responses whose body leaves the object alone leaves the
    object alone. *)
Lemma for_range_self {A : Type} (body : A -> C A) (n : nat) :
  (forall acc s w acc' s' w', body acc (s, w) = Some (acc', (s', w')) -> s' = s) ->
  forall acc s w acc' s' w',
    for_range n acc body (s, w) = Some (acc', (s', w')) -> s' = s.
Proof.
  intros Hbody. induction n as [| n IH]; intros acc s w acc' s' w'.
  - by intros [= _ <- _].
  - cbn [for_range]. cbv beta iota delta [mbind controller_bind].
    destruct (body acc (s, w)) as [[acc1 [s1 w1]] |] eqn:E; [| done].
    apply Hbody in E as ->. apply IH.
Qed.

Lemma recv_self s w r s' w' : recv (s, w) = Some (r, (s', w')) -> s' = s.
Proof. unfold recv. cbn [fst snd]. destruct (pipe w); [done |]. by intros [= _ <- _]. Qed.

Lemma recv_added_ports_self candidates n s w a s' w' :
  recv_added_ports candidates n (s, w) = Some (a, (s', w')) -> s' = s.
Proof.
  apply for_range_self. clear. intros acc s w acc' s' w'.
  cbv beta iota delta [mbind controller_bind].
  destruct (recv (s, w)) as [[r [s1 w1]] |] eqn:E; [| done]. apply recv_self in E as ->.
  destruct r; [destruct (List.find _ candidates) | ..];
    cbv beta iota delta [mbind mret controller_bind controller_ret log modify_world fst snd];
    by intros [= _ <- _].
Qed.

Lemma recv_removed_ports_self n s w a s' w' :
  recv_removed_ports n (s, w) = Some (a, (s', w')) -> s' = s.
Proof.
  apply for_range_self. clear. intros acc s w acc' s' w'.
  cbv beta iota delta [mbind controller_bind].
  destruct (recv (s, w)) as [[r [s1 w1]] |] eqn:E; [| done]. apply recv_self in E as ->.
  destruct r;
    cbv beta iota delta [mbind mret controller_bind controller_ret log modify_world fst snd];
    by intros [= _ <- _].
Qed.

Lemma add_descriptors external_ports_arg s w s' w' :
  add os external_ports_arg (s, w) = Some (tt, (s', w')) ->
  s' = s \/
  exists ports_connected,
    external_ports s' = remove_duplicates_from [] (external_ports s ++ ports_connected).
Proof.
  unfold add. cbv beta iota delta [mbind controller_bind get_self fst snd].
  destruct (master_io s); [| intros [= <- _]; by left].
  destruct (send_frame os (CmdAdd (map to_dict (Py.list_set config_eqb external_ports_arg))) s w)
    as (w1 & -> & _).
  destruct (recv_added_ports _ _ _) as [[a [s1 w2]] |] eqn:E; [| done].
  apply recv_added_ports_self in E as ->.
  unfold _ext_ports_remove_duplicates.
  cbv beta iota delta [mbind controller_bind modify_self fst snd].
  intros [= <- _]. right. by exists a.
Qed.

Lemma remove_descriptors remove_list s w s' w' :
  remove os remove_list (s, w) = Some (tt, (s', w')) ->
  exists removed,
    external_ports s' = external_ports (fold_left (fun s0 name => forget name s0) removed s).
Proof.
  unfold remove. cbv beta iota delta [mbind controller_bind get_self fst snd].
  destruct (master_io s); [| intros [= <- _]; by exists []].
  destruct (send_frame os (CmdRemove remove_list) s w) as (w1 & -> & _).
  destruct (recv_removed_ports _ _) as [[a [s1 w2]] |] eqn:E; [| done].
  apply recv_removed_ports_self in E as ->.
  rewrite forget_ports_run.
  cbv beta iota delta [mbind controller_bind modify_self fst snd].
  intros [= <- _]. by exists a.
Qed.

Lemma create_descriptors ports_num s w s' w' :
  create os ports_num (s, w) = Some (tt, (s', w')) -> external_ports s' = external_ports s.
Proof.
  unfold create. cbv beta iota delta [mbind controller_bind get_self fst snd].
  destruct (master_io s); [| by intros [= <- _]].
  destruct (send_frame os (CmdCreate ports_num) s w) as (w1 & -> & _).
  intros Hrun. by apply recv_virtual_ports_inv in Hrun as (rs & _ & _ & -> & _).
Qed.

Lemma stop_descriptors s w s' w' :
  stop os (s, w) = Some (tt, (s', w')) -> external_ports s' = external_ports s.
Proof.
  intros Hstop. destruct (stop_run os s w) as [Hrun Hidle].
  destruct (p s) eqn:E.
  - destruct Hrun as (w1 & Heq & _); [done |]. rewrite Heq in Hstop. by injection Hstop as <- _.
  - rewrite Hidle in Hstop by done. by injection Hstop as <- _.
Qed.

(** X9. The list of external descriptors never holds two descriptors with
    the same port name: the constructor and [start] leave none, whatever
    list they were given, and so does [add], whatever the worker answers;
    [remove], [create] and [stop] keep a list without repeated port names
    that way. After [start] every descriptor left in the list is one that
    was in the list before. *)
Theorem descriptors_stay_distinct (s : Self) (w : World) (s' : Self) (w' : World) :
  distinct_ports (external_ports s) ->
  (forall n ext lb, distinct_ports (external_ports (init n ext lb))) /\
  (forall openpty_func s0 w0,
     exists s1 w1, start os openpty_func (s0, w0) = Some (tt, (s1, w1)) /\
                   distinct_ports (external_ports s1) /\
                   sublist (external_ports s1) (external_ports s0)) /\
  (forall l, add os l (s, w) = Some (tt, (s', w')) -> distinct_ports (external_ports s')) /\
  (forall l, remove os l (s, w) = Some (tt, (s', w')) -> distinct_ports (external_ports s')) /\
  (forall n, create os n (s, w) = Some (tt, (s', w')) -> distinct_ports (external_ports s')) /\
  (stop os (s, w) = Some (tt, (s', w')) -> distinct_ports (external_ports s')).
Proof.
  intros Hnd. split; [| split; [| split; [| split; [| split]]]].
  - intros. cbn. apply remove_duplicates_distinct.
  - intros openpty_func s0 w0.
    destruct (start_run os openpty_func s0 w0) as (rs2 & lg & st & _ & Hrun).
    eexists _, _. split; [exact Hrun |]. cbn [external_ports].
    split; [apply remove_duplicates_distinct |].
    etrans; [apply remove_duplicates_sublist |]. apply filter_sublist.
  - intros l [-> | (a & ->)]%add_descriptors; [done | apply remove_duplicates_distinct].
  - intros l (removed & ->)%remove_descriptors. by apply forget_distinct.
  - intros n ->%create_descriptors. done.
  - intros ->%stop_descriptors. done.
Qed.

(** *** Running networks *)

Lemma process_cmd_alive message openpty_func st :
  is_last (Some message) = false ->
  fst (Worker.process_cmd os (Some message) openpty_func st) = Worker.Ret true /\
  exists rs,
    Worker.worker_io (snd (Worker.process_cmd os (Some message) openpty_func st))
      = Worker.worker_io st ++ rs /\
    length rs = units (Some message).
Proof.
  intros Hne. destruct (process_cmd_run os (Some message) openpty_func st)
    as (rs & Hret & Hio & Hlen).
  split; [| by exists rs]. rewrite Hret. by destruct message.
Qed.

(** A command other than [stop] whose data can be used, sent to a running
    network: the worker answers it with its units of responses and lives
    on. *)
Lemma send_running message s w pr :
  is_last (Some message) = false ->
  running s w pr ->
  exists rs pr',
    length rs = units (Some message) /\
    send os message (s, w) =
    Some (tt, (s, {| process := Some pr'; pipe := rs; commands := commands w ++ [message];
                     received := received w; logger := logger w |})) /\
    process_loopback pr' = process_loopback pr /\
    process_openpty_func pr' = process_openpty_func pr /\
    state pr' = worker_next (Worker.process_cmd os (Some message) (process_openpty_func pr))
                  (state pr).
Proof.
  intros Hne (Hio & Hp & Hpr & Hpipe).
  destruct (process_cmd_alive message (process_openpty_func pr)
              (Worker.set_worker_io [] (state pr)) Hne) as (Hret & rs & Hout & Hlen).
  exists rs. eexists. split; [done |].
  rewrite (send_run os message s w pr Hpr Hret). unfold worker_out. rewrite Hout, Hpipe.
  cbn [app Worker.worker_io Worker.set_worker_io]. split; [reflexivity |]. done.
Qed.

(** X10. On a running network [add], [create] and [remove] always return,
    whatever the operating system does to the worker: the command is sent,
    the worker answers with one response per descriptor of the set, per port
    or per name, the method receives exactly these, and the network is
    running as before, with an empty pipe. *)
Theorem running_methods_return (s : Self) (w : World) (pr : Process) :
  running s w pr ->
  (forall l, exists s' w' pr' rs,
     add os l (s, w) = Some (tt, (s', w')) /\ running s' w' pr' /\
     commands w' = commands w ++ [CmdAdd (map to_dict (Py.list_set config_eqb l))] /\
     received w' = received w ++ rs /\
     length rs = length (Py.list_set config_eqb l)) /\
  (forall n, exists s' w' pr' rs,
     create os n (s, w) = Some (tt, (s', w')) /\ running s' w' pr' /\
     commands w' = commands w ++ [CmdCreate n] /\
     received w' = received w ++ rs /\
     length rs = Z.to_nat n) /\
  (forall l, exists s' w' pr' rs,
     remove os l (s, w) = Some (tt, (s', w')) /\ running s' w' pr' /\
     commands w' = commands w ++ [CmdRemove l] /\
     received w' = received w ++ rs /\
     length rs = length l).
Proof.
  intros Hrun. pose proof Hrun as (Hio & Hp & Hpr & Hpipe).
  destruct (master_io s) as [io |] eqn:Hmaster; [| done].
  split; [| split].
  - intros l.
    destruct (send_running (CmdAdd (map to_dict (Py.list_set config_eqb l))) s w pr)
      as (rs & pr' & Hlen & Hsend & _); [done | done |].
    cbn [units] in Hlen. rewrite length_map in Hlen.
    unfold add. cbv beta iota delta [mbind controller_bind get_self fst snd].
    rewrite Hmaster, Hsend, length_map, <- Hlen.
    match goal with
    | |- context [recv_added_ports ?c _ (?s1, ?w1)] =>
        destruct (recv_added_ports_run c rs [] s1 w1) as (lg & Heq);
          [cbn [pipe]; by rewrite app_nil_r |]
    end.
    rewrite Heq. clear Heq.
    unfold _ext_ports_remove_duplicates.
    cbv beta iota delta [mbind controller_bind modify_self fst snd].
    eexists _, _, pr', rs. split; [reflexivity |].
    unfold running. cbn. rewrite Hmaster. done.
  - intros n.
    destruct (send_running (CmdCreate n) s w pr) as (rs & pr' & Hlen & Hsend & _);
      [done | done |].
    cbn [units] in Hlen.
    unfold create. cbv beta iota delta [mbind controller_bind get_self fst snd].
    rewrite Hmaster, Hsend.
    match goal with
    | |- context [recv_virtual_ports _ (?s1, ?w1)] =>
        destruct (recv_virtual_ports_run n rs [] s1 w1) as (lg & Heq);
          [done | cbn [pipe]; by rewrite app_nil_r |]
    end.
    rewrite Heq. clear Heq.
    eexists _, _, pr', rs. split; [reflexivity |].
    unfold running. cbn. rewrite Hmaster. done.
  - intros l.
    destruct (send_running (CmdRemove l) s w pr) as (rs & pr' & Hlen & Hsend & _);
      [done | done |].
    cbn [units] in Hlen.
    unfold remove. cbv beta iota delta [mbind controller_bind get_self fst snd].
    rewrite Hmaster, Hsend, <- Hlen.
    match goal with
    | |- context [recv_removed_ports _ (?s1, ?w1)] =>
        destruct (recv_removed_ports_run rs [] s1 w1) as (lg & Heq);
          [cbn [pipe]; by rewrite app_nil_r |]
    end.
    rewrite Heq. clear Heq. rewrite forget_ports_run.
    cbv beta iota delta [mbind controller_bind modify_self fst snd].
    eexists _, _, pr', rs. split; [reflexivity |].
    assert (forall removed s0,
              master_io (fold_left (fun s1 name => forget name s1) removed s0) = master_io s0 /\
              p (fold_left (fun s1 name => forget name s1) removed s0) = p s0) as Hkept.
    { induction removed as [| name removed IH]; intros s0; [done |]. cbn [fold_left].
      destruct (IH (forget name s0)) as (-> & ->).
      unfold forget. by destruct (del_first name (external_ports s0)). }
    unfold running. cbn. destruct (Hkept (ok_names rs) s) as (-> & ->).
    rewrite Hmaster. done.
Qed.

(** X11. [create] on a running network keeps the books: the names of the
    [OK] responses are appended to the list of names, in the order of their
    arrival, the count of virtual ports grows by their number, which is at
    most the number of ports asked for, and the external descriptors are
    untouched. For a count that is not positive nothing changes but the
    record of the command sent. *)
Theorem create_keeps_count (n : Z) (s : Self) (w : World) (pr : Process) :
  running s w pr ->
  exists s' w' rs,
    create os n (s, w) = Some (tt, (s', w')) /\
    received w' = received w ++ rs /\
    length rs = Z.to_nat n /\
    serial_ports s' = serial_ports s ++ ok_names rs /\
    virtual_ports_num s' = virtual_ports_num s + Z.of_nat (length (ok_names rs)) /\
    virtual_ports_num s' - virtual_ports_num s
      = Z.of_nat (length (serial_ports s')) - Z.of_nat (length (serial_ports s)) /\
    virtual_ports_num s' <= virtual_ports_num s + Z.max 0 n /\
    external_ports s' = external_ports s /\
    (n <= 0 -> s' = s /\ rs = []).
Proof.
  intros Hrun. pose proof Hrun as (Hio & Hp & Hpr & Hpipe).
  destruct (master_io s) as [io |] eqn:Hmaster; [| done].
  destruct (send_running (CmdCreate n) s w pr) as (rs & pr' & Hlen & Hsend & _);
    [done | done |].
  cbn [units] in Hlen.
  unfold create. cbv beta iota delta [mbind controller_bind get_self fst snd].
  rewrite Hmaster, Hsend.
  match goal with
  | |- context [recv_virtual_ports _ (?s1, ?w1)] =>
      destruct (recv_virtual_ports_run n rs [] s1 w1) as (lg & Heq);
        [done | cbn [pipe]; by rewrite app_nil_r |]
  end.
  rewrite Heq. clear Heq.
  eexists _, _, rs. split; [reflexivity |].
  pose proof (ok_names_length rs) as Hok.
  unfold absorb_virtual.
  cbn [received serial_ports virtual_ports_num external_ports set_virtual_ports_num
       set_serial_ports].
  rewrite length_app.
  split; [done |]. split; [done |]. split; [done |]. split; [done |].
  split; [lia |]. split; [lia |]. split; [done |].
  intros Hle. assert (rs = []) as -> by (destruct rs; [done | cbn in Hlen; lia]).
  split; [| done]. destruct s. unfold set_virtual_ports_num, set_serial_ports. cbn.
  by rewrite app_nil_r, Z.add_0_r.
Qed.

End MethodProofs.

(** ** Descriptors and names *)

Section ConsistencyProofs.

Import VirtualSerialNetwork ControllerSpec RunSpec ConfigSpec.

Variable os : OS.
Context {string_order : Py.SetOrder string}.
Context {config_order : Py.SetOrder SerialConnectionMinimalConfig}.
Context {config_eq : ConfigEq}.

Lemma add_inv external_ports_arg s w s' w' :
  add os external_ports_arg (s, w) = Some (tt, (s', w')) ->
  s' = s \/
  exists ports_connected,
    external_ports s' = remove_duplicates_from [] (external_ports s ++ ports_connected) /\
    serial_ports s' = Py.list_set String.eqb (serial_ports s ++ map port ports_connected).
Proof.
  unfold add. cbv beta iota delta [mbind controller_bind get_self fst snd].
  destruct (master_io s); [| intros [= <- _]; by left].
  destruct (send_frame os (CmdAdd (map to_dict (Py.list_set config_eqb external_ports_arg))) s w)
    as (w1 & -> & _).
  destruct (recv_added_ports _ _ _) as [[a [s1 w2]] |] eqn:E; [| done].
  apply recv_added_ports_self in E as ->.
  unfold _ext_ports_remove_duplicates.
  cbv beta iota delta [mbind controller_bind modify_self fst snd].
  intros [= <- _]. right. by exists a.
Qed.

Lemma forget_names removed s :
  serial_ports (fold_left (fun s0 name => forget name s0) removed s) = serial_ports s.
Proof.
  revert s. induction removed as [| name removed IH]; intros s; [done |].
  cbn [fold_left]. rewrite IH. unfold forget. by destruct (del_first name (external_ports s)).
Qed.

Lemma remove_inv remove_list s w s' w' :
  remove os remove_list (s, w) = Some (tt, (s', w')) ->
  s' = s \/
  exists removed,
    external_ports s' = external_ports (fold_left (fun s0 name => forget name s0) removed s) /\
    serial_ports s' = Py.list_set_diff String.eqb (serial_ports s) removed.
Proof.
  unfold remove. cbv beta iota delta [mbind controller_bind get_self fst snd].
  destruct (master_io s); [| intros [= <- _]; by left].
  destruct (send_frame os (CmdRemove remove_list) s w) as (w1 & -> & _).
  destruct (recv_removed_ports _ _) as [[a [s1 w2]] |] eqn:E; [| done].
  apply recv_removed_ports_self in E as ->.
  rewrite forget_ports_run.
  cbv beta iota delta [mbind controller_bind modify_self fst snd].
  intros [= <- _]. right. exists a. cbn. by rewrite forget_names.
Qed.

Lemma del_first_In name l l' c :
  distinct_ports l -> del_first name l = Some l' -> In c l' -> In c l /\ port c <> name.
Proof.
  unfold distinct_ports. revert l'. induction l as [| x l IH]; intros l' Hnd; [done |].
  cbn [del_first]. cbn in Hnd. apply List.NoDup_cons_iff in Hnd as [Hx Hl].
  destruct (String.eqb_spec (port x) name) as [Heq | Hne].
  - intros [= <-] Hin. split; [by right |]. intros Hc. apply Hx. rewrite Heq, <- Hc.
    apply in_map_iff. by exists c.
  - destruct (del_first name l) as [r |] eqn:E; [| done]. cbn. intros [= <-] [<- | Hin].
    + split; [by left | done].
    + destruct (IH r Hl eq_refl Hin) as [? ?]. split; [by right | done].
Qed.

Lemma forget_In removed s c :
  distinct_ports (external_ports s) ->
  In c (external_ports (fold_left (fun s0 name => forget name s0) removed s)) ->
  In c (external_ports s) /\ ~ In (port c) removed.
Proof.
  revert s. induction removed as [| name removed IH]; intros s Hnd Hin;
    [split; [exact Hin | by intros []] |].
  cbn [fold_left] in Hin.
  assert (distinct_ports (external_ports (forget name s)) /\
          forall c, In c (external_ports (forget name s)) ->
                    In c (external_ports s) /\ port c <> name) as [Hnd' Hstep].
  { unfold forget. destruct (del_first name (external_ports s)) as [l' |] eqn:E; cbn.
    - split; [by apply (del_first_distinct name (external_ports s)) |].
      intros c0. by apply del_first_In.
    - split; [done |]. intros c0 Hc. split; [done | by apply (del_first_None name _ c0 E)]. }
  destruct (IH (forget name s) Hnd' Hin) as [Hc Hnot].
  destruct (Hstep c Hc) as [? ?]. split; [done |].
  intros [-> | ?]; done.
Qed.

(** X12. While a network runs, its two lists agree: no two external
    descriptors have the same port name and the port name of each of them
    is in the list of names. [start] brings this about, whatever the object
    held before, and [add], [create] and [remove] keep it, whatever the
    worker answers. *)
Theorem names_cover_descriptors (s : Self) (w : World) (s' : Self) (w' : World) :
  descriptors_named s ->
  (forall openpty_func s0 w0,
     exists s1 w1, start os openpty_func (s0, w0) = Some (tt, (s1, w1)) /\
                   descriptors_named s1) /\
  (forall l, add os l (s, w) = Some (tt, (s', w')) -> descriptors_named s') /\
  (forall n, create os n (s, w) = Some (tt, (s', w')) -> descriptors_named s') /\
  (forall l, remove os l (s, w) = Some (tt, (s', w')) -> descriptors_named s').
Proof.
  intros [Hnd Hcover]. split; [| split; [| split]].
  - intros openpty_func s0 w0.
    destruct (start_run os openpty_func s0 w0) as (rs2 & lg & st & _ & Hrun).
    eexists _, _. split; [exact Hrun |]. split; cbn [external_ports serial_ports].
    + apply remove_duplicates_distinct.
    + intros c Hin.
      apply (sublist_In _ _ _ (remove_duplicates_sublist _)) in Hin.
      apply filter_In in Hin as [_ Hok]. apply existsb_exists in Hok as (x & Hx & Heq).
      apply String.eqb_eq in Heq. subst x.
      apply (list_set_In String.eqb string_eqb_spec), in_app_iff. by right.
  - intros l [-> | (a & Hext & Hnames)]%add_inv; [done |]. split.
    + rewrite Hext. apply remove_duplicates_distinct.
    + rewrite Hext, Hnames. intros c Hin.
      apply (sublist_In _ _ _ (remove_duplicates_sublist _)) in Hin.
      apply (list_set_In String.eqb string_eqb_spec), in_app_iff.
      apply in_app_iff in Hin as [Hin | Hin]; [left; by apply Hcover |].
      right. apply in_map_iff. by exists c.
  - intros n Hcreate. pose proof (create_descriptors os n s w s' w' Hcreate) as Hext.
    apply create_names in Hcreate as (rs & _ & Hnames). split.
    + by rewrite Hext.
    + rewrite Hext, Hnames. intros c Hin. apply in_app_iff. left. by apply Hcover.
  - intros l [-> | (removed & Hext & Hnames)]%remove_inv; [done |]. split.
    + rewrite Hext. by apply forget_distinct.
    + rewrite Hext, Hnames. intros c Hin. apply forget_In in Hin as [Hc Hnot]; [| done].
      apply (list_set_diff_In String.eqb string_eqb_spec). split; [by apply Hcover | done].
Qed.

End ConsistencyProofs.

(** ** Factories that fail *)

Section FailingFactories.

Import VirtualSerialNetwork ControllerSpec RunSpec ReplySpec LoopSpec Mock.

Variable os : OS.
Context {string_order : Py.SetOrder string}.

Lemma generate_virtual_port_mock (w : Worker.State) :
  Worker.generate_virtual_port os (Some mock_openpty) w
  = (Worker.Ret tt,
     Worker.set_worker_io
       (Worker.worker_io w
        ++ [ERROR "OSError: out of pty devices"
              (Worker.format_exc "OSError: out of pty devices")])
       (Worker.set_openpty_calls (S (Worker.openpty_calls w)) w)).
Proof. reflexivity. Qed.

Lemma generate_virtual_ports_mock (n : nat) (w : Worker.State) :
  exists rs,
    length rs = n /\ Forall is_error rs /\ ok_names rs = [] /\
    Worker.for_range n (Worker.generate_virtual_port os (Some mock_openpty)) w
    = (Worker.Ret tt,
       Worker.set_worker_io (Worker.worker_io w ++ rs)
         (Worker.set_openpty_calls (Worker.openpty_calls w + n) w)).
Proof.
  revert w. induction n as [| n IH]; intros w.
  - exists []. cbn. rewrite app_nil_r, Nat.add_0_r. by destruct w.
  - cbn [Worker.for_range]. cbv beta iota delta [mbind Worker.worker_bind Worker.bind].
    rewrite generate_virtual_port_mock.
    match goal with
    | |- context [Worker.for_range n _ ?w1] => destruct (IH w1) as (rs & Hlen & Herr & Hok & ->)
    end.
    eexists (_ :: rs). split; [cbn; by rewrite Hlen |].
    split; [constructor; [by eexists _, _ | done] |].
    split; [done |]. destruct w. cbn. rewrite <- app_assoc. cbn.
    by rewrite Nat.add_succ_r.
Qed.

Lemma iter_nil {A : Type} `{Py.SetOrder A} : Py.iter (@nil A) = [].
Proof. apply Permutation_nil. symmetry. apply Py.iter_perm. Qed.

(** [VirtualSerialPair.start], run. *)
Lemma pair_start_run openpty_func s w :
  external_ports s = [] ->
  exists s' w' created,
    created = Z.of_nat (length (ok_names (Worker.worker_io
                (snd (Worker.generate_virtual_ports os (virtual_ports_num s) openpty_func
                        Worker.empty))))) /\
    VirtualSerialPair.start os openpty_func (s, w) = Some (tt, (s', w')) /\
    virtual_ports_num s' = created /\
    external_ports s' = [] /\
    (created < 2 ->
     p s' = None /\ master_io s' = None /\ worker_io s' = None /\ serial_ports s' = [] /\
     process w' = None /\ exists sent, commands w' = commands w ++ sent ++ [CmdStop]) /\
    (2 <= created -> p s' <> None /\ master_io s' <> None /\ process w' <> None).
Proof.
  intros Hext.
  destruct (start_run os openpty_func s w) as (rs2 & lg & st & HP & Hrun).
  rewrite Hext in HP. cbn in HP. apply Forall2_nil_inv_l in HP. subst rs2.
  unfold VirtualSerialPair.start.
  cbv beta iota delta [mbind controller_bind get_self fst snd].
  rewrite Hrun. cbn [virtual_ports_num].
  set (created := Z.of_nat _).
  destruct (Z.ltb_spec created 2) as [Hlt | Hge].
  - cbv beta iota delta [mbind controller_bind log modify_world fst snd].
    match goal with
    | |- context [stop os (?s1, ?w1)] =>
        destruct (stop_run os s1 w1) as [Hstop _]
    end.
    destruct Hstop as (w' & Hstop & Hproc & Hcmd); [done |].
    rewrite Hstop.
    eexists _, w', created. split; [reflexivity |]. split; [reflexivity |].
    cbn. rewrite Hext. cbn. split; [done |]. split; [done |]. split; [| lia].
    intros _. do 5 (split; [done |]). exists []. by rewrite Hcmd.
  - eexists _, _, created. split; [reflexivity |]. split; [reflexivity |].
    cbn. rewrite Hext. cbn. split; [done |]. split; [done |]. split; [lia |]. done.
Qed.

(** X13. With [mock_openpty] for a factory every attempt to create a port
    is answered by [ERROR] and registers nothing with the worker. [start]
    of a network without external ports then returns with no name and a
    count of zero, having received one [ERROR] per port wanted; and [start]
    of a pair stops the network again. *)
Theorem mock_openpty_creates_nothing (n : Z) (loopback : bool) (w : World)
    (st : Worker.State) :
  (exists rs,
     Worker.generate_virtual_ports os n (Some mock_openpty) st
     = (Worker.Ret tt,
        Worker.set_worker_io (Worker.worker_io st ++ rs)
          (Worker.set_openpty_calls (Worker.openpty_calls st + Z.to_nat n) st)) /\
     length rs = Z.to_nat n /\ Forall is_error rs) /\
  (exists s' w' rs,
     start os (Some mock_openpty) (init n None loopback, w) = Some (tt, (s', w')) /\
     serial_ports s' = [] /\ virtual_ports_num s' = 0 /\ p s' <> None /\
     received w' = received w ++ rs /\ length rs = Z.to_nat n /\ Forall is_error rs) /\
  (exists s' w',
     VirtualSerialPair.start os (Some mock_openpty) (VirtualSerialPair.init, w)
     = Some (tt, (s', w')) /\
     p s' = None /\ master_io s' = None /\ serial_ports s' = [] /\ process w' = None).
Proof.
  split; [| split].
  - unfold Worker.generate_virtual_ports.
    destruct (generate_virtual_ports_mock (Z.to_nat n) st) as (rs & Hlen & Herr & _ & ->).
    by exists rs.
  - destruct (start_run os (Some mock_openpty) (init n None loopback) w)
      as (rs2 & lg & st' & HP & Hrun).
    cbn in HP. apply Forall2_nil_inv_l in HP. subst rs2.
    unfold Worker.generate_virtual_ports in Hrun.
    destruct (generate_virtual_ports_mock (Z.to_nat (virtual_ports_num (init n None loopback)))
                Worker.empty) as (rs & Hlen & Herr & Hok & Heq).
    rewrite Heq in Hrun. cbn [snd Worker.worker_io Worker.set_worker_io Worker.empty app] in Hrun.
    rewrite Hok in Hrun.
    eexists _, _, rs. split; [exact Hrun |]. cbn.
    rewrite app_nil_r. unfold Py.list_set. cbn. rewrite iter_nil. done.
  - destruct (pair_start_run (Some mock_openpty) VirtualSerialPair.init w eq_refl)
      as (s' & w' & created & Hcreated & Hstart & _ & _ & Hfew & _).
    unfold Worker.generate_virtual_ports in Hcreated.
    destruct (generate_virtual_ports_mock
                (Z.to_nat (virtual_ports_num VirtualSerialPair.init)) Worker.empty)
      as (rs & _ & _ & Hok & Heq).
    rewrite Heq in Hcreated.
    cbn [snd Worker.worker_io Worker.set_worker_io Worker.empty app] in Hcreated.
    rewrite Hok in Hcreated. cbn in Hcreated.
    destruct Hfew as (? & ? & _ & ? & ? & _); [lia |].
    by exists s', w'.
Qed.

Lemma created_at_most (n : Z) (openpty_func : option Callable) :
  0 <= Z.of_nat (length (ok_names (Worker.worker_io
          (snd (Worker.generate_virtual_ports os n openpty_func Worker.empty)))))
    <= Z.max 0 n.
Proof.
  destruct (generate_virtual_ports_answers os n openpty_func Worker.empty)
    as (rs & _ & Hio & Hlen & _).
  rewrite Hio. cbn [Worker.worker_io Worker.empty app].
  pose proof (ok_names_length rs). lia.
Qed.

(** X14. [start] asks the worker for as many virtual ports as the count
    says at that moment and sets the count to the number it got, which is
    never more. So a pair whose count is below two, as it is after a
    [start] that failed, is stopped again by every later [start], whatever
    factory it is given. *)
Theorem pair_stays_failed (openpty_func : option Callable) (s : Self) (w : World) :
  external_ports s = [] ->
  virtual_ports_num s < 2 ->
  (exists s1 w1,
     start os openpty_func (s, w) = Some (tt, (s1, w1)) /\
     0 <= virtual_ports_num s1 <= Z.max 0 (virtual_ports_num s)) /\
  (exists s' w',
     VirtualSerialPair.start os openpty_func (s, w) = Some (tt, (s', w')) /\
     0 <= virtual_ports_num s' <= Z.max 0 (virtual_ports_num s) /\
     virtual_ports_num s' < 2 /\ external_ports s' = [] /\
     p s' = None /\ master_io s' = None /\ serial_ports s' = [] /\ process w' = None).
Proof.
  intros Hext Hfew.
  pose proof (created_at_most (virtual_ports_num s) openpty_func) as Hmost. split.
  - destruct (start_run os openpty_func s w) as (rs2 & lg & st & _ & Hrun).
    eexists _, _. split; [exact Hrun |]. done.
  - destruct (pair_start_run openpty_func s w Hext)
      as (s' & w' & created & -> & Hstart & Hnum & Hext' & Hstopped & _).
    exists s', w'. split; [done |]. rewrite Hnum. split; [done |].
    split; [lia |]. split; [done |].
    destruct Hstopped as (? & ? & _ & ? & ? & _); [lia | done].
Qed.

End FailingFactories.

(** ** What start creates, remove takes away *)

Section RoundTrip.

Import VirtualSerialNetwork ControllerSpec RunSpec ReplySpec FactorySpec RegistrySpec
  CreatedSpec.

Variable os : OS.
Context {string_order : Py.SetOrder string}.

Lemma generate_with_ptys openpty_func todo done_ w :
  returns_from os openpty_func (length done_) todo ->
  Worker.openpty_calls w = length done_ ->
  (forall fd, In fd (Worker.selector w) -> In fd (masters done_)) ->
  List.NoDup (masters (done_ ++ todo)) ->
  Worker.for_range (length todo) (Worker.generate_virtual_port os openpty_func) w
  = (Worker.Ret tt, with_ptys w todo).
Proof.
  revert done_ w. induction todo as [| [[master_fd slave_fd] name] todo IH];
    intros done_ w Hret Hcalls Hsel Hnd; [done |].
  destruct Hret as (Hf & Hworks & Hrest). cbn [length Worker.for_range].
  cbv beta iota delta [mbind Worker.worker_bind Worker.bind].
  rewrite (generate_virtual_port_ok os openpty_func w master_fd slave_fd name);
    [| by rewrite Hcalls | done |].
  - apply (IH (done_ ++ [(master_fd, slave_fd, name)])).
    + by rewrite length_app, Nat.add_1_r.
    + cbn. rewrite length_app, Nat.add_1_r. by rewrite Hcalls.
    + cbn. intros fd Hin. unfold masters. rewrite map_app, in_app_iff.
      apply in_app_iff in Hin as [Hin | [<- | []]]; [left; by apply Hsel | right; by left].
    + by rewrite <- app_assoc.
  - intros Hin. apply Hsel in Hin. unfold masters in Hnd. rewrite map_app in Hnd.
    apply List.NoDup_remove_2 in Hnd. apply Hnd, in_app_iff. by left.
Qed.

Lemma created_only_step done_ w master_fd slave_fd name :
  created_only os done_ w ->
  ~ In master_fd (masters done_) ->
  file_close os master_fd = true ->
  created_only os (done_ ++ [(master_fd, slave_fd, name)])
    (with_pty w (master_fd, slave_fd, name)).
Proof.
  intros ((Hreg & Hone) & Hsel & Hnames) Hnew Hclose.
  assert (forall n fd, Worker.slave_names w !! n = Some fd -> fd <> master_fd) as Hold.
  { intros n fd Hn ->. apply Hnew, Hsel. by apply (Hreg n). }
  split; [split |]; [| | split].
  - intros n fd. cbn. rewrite lookup_insert_Some. intros [[<- <-] | [Hne Hn]].
    + split; [apply in_app_iff; right; by left |]. split; [| done].
      rewrite dict_get_set_eq. by eexists.
    + destruct (Hreg n fd Hn) as (? & ? & ?).
      split; [apply in_app_iff; by left |]. split; [by apply dict_get_set_Some | done].
  - intros n1 n2 fd. cbn. rewrite !lookup_insert_Some.
    intros [[<- <-] | [Hne1 Hn1]] [[<- E] | [Hne2 Hn2]]; try done.
    + by apply Hold in Hn2.
    + subst fd. by apply Hold in Hn1.
    + by apply (Hone n1 n2 fd).
  - cbn. intros fd. unfold masters. rewrite map_app, !in_app_iff. cbn.
    intros [Hin | [<- | []]]; [left; by apply Hsel | right; by left].
  - cbn. intros n. unfold names. rewrite map_app, in_app_iff. cbn.
    rewrite lookup_insert_is_Some. rewrite Hnames. unfold names.
    destruct (decide (name = n)) as [-> | Hne]; [tauto |]. split.
    + intros [-> | [_ ?]]; [done | by left].
    + intros [? | [-> | []]]; [right; by split | done].
Qed.

Lemma created_only_with_ptys todo done_ w :
  created_only os done_ w ->
  List.NoDup (masters (done_ ++ todo)) ->
  (forall fd, In fd (masters todo) -> file_close os fd = true) ->
  created_only os (done_ ++ todo) (with_ptys w todo).
Proof.
  revert done_ w. induction todo as [| [[master_fd slave_fd] name] todo IH];
    intros done_ w Hcreated Hnd Hclose; [by rewrite app_nil_r |].
  cbn [with_ptys fold_left].
  change (done_ ++ (master_fd, slave_fd, name) :: todo)
    with (done_ ++ [(master_fd, slave_fd, name)] ++ todo) in *.
  rewrite app_assoc in *. apply IH; [| done | intros fd Hin; apply Hclose; by right].
  apply created_only_step; [done | | apply Hclose; by left].
  unfold masters in Hnd. rewrite !map_app in Hnd. apply List.NoDup_app_remove_r in Hnd.
  cbn in Hnd. intros Hin. apply (Permutation_NoDup (l' := master_fd :: map (fun x => x.1.1) done_))
    in Hnd; [| symmetry; apply Permutation_cons_append].
  by apply List.NoDup_cons_iff in Hnd as [? _].
Qed.

Lemma remove_replies_registered (registered : gmap string Z) (l : list string) :
  List.NoDup l ->
  (forall name, In name l -> is_Some (registered !! name)) ->
  remove_replies registered l = map OK l.
Proof.
  revert registered. induction l as [| name l IH]; intros registered Hnd Hall; [done |].
  apply List.NoDup_cons_iff in Hnd as [Hname Hl]. cbn [remove_replies map].
  destruct (Hall name) as [fd ->]; [by left |]. f_equal. apply IH; [done |].
  intros n Hin. rewrite lookup_delete_is_Some. split; [by intros -> | apply Hall; by right].
Qed.

Lemma forget_virtual (removed : list string) (s : Self) :
  external_ports s = [] ->
  fold_left (fun s0 name => forget name s0) removed s
  = set_virtual_ports_num (virtual_ports_num s - Z.of_nat (length removed)) s.
Proof.
  revert s. induction removed as [| name removed IH]; intros s Hext.
  - cbn. destruct s. unfold set_virtual_ports_num. cbn. f_equal. lia.
  - cbn [fold_left]. unfold forget at 2. rewrite Hext. cbn [del_first].
    rewrite IH by done. destruct s. unfold set_virtual_ports_num. cbn. f_equal. lia.
Qed.

Lemma empty_list {A : Type} (l : list A) : (forall x, ~ In x l) -> l = [].
Proof. destruct l as [| x l]; [done |]. intros H. exfalso. apply (H x). by left. Qed.

(** [remove] on a running network whose registry is in order, run. *)
Lemma remove_run (remove_list : list string) (s : Self) (w : World) (pr : Process) :
  running s w pr ->
  registry_ok os (state pr) ->
  exists lg,
    let replies := remove_replies (Worker.slave_names (state pr)) remove_list in
    let st' := Worker.set_worker_io []
                 (snd (Worker.remove_ports os remove_list
                         (Worker.set_worker_io [] (state pr)))) in
    remove os remove_list (s, w) =
    Some (tt,
      (set_serial_ports
         (Py.list_set_diff String.eqb
            (serial_ports (fold_left (fun s0 name => forget name s0) (ok_names replies) s))
            (ok_names replies))
         (fold_left (fun s0 name => forget name s0) (ok_names replies) s),
       {| process := Some {| state := st'; process_loopback := process_loopback pr;
                             process_openpty_func := process_openpty_func pr |};
          pipe := []; commands := commands w ++ [CmdRemove remove_list];
          received := received w ++ replies; logger := logger w ++ lg |})) /\
    registry_ok os st' /\
    (forall name, In name remove_list -> Worker.slave_names st' !! name = None) /\
    (forall name, Worker.slave_names (state pr) !! name = None ->
                  Worker.slave_names st' !! name = None).
Proof.
  intros (Hio & Hp & Hpr & Hpipe) Hok.
  pose proof (registry_ok_set_worker_io os [] _ Hok) as Hok0.
  pose proof (process_cmd_remove os remove_list (process_openpty_func pr) _ Hok0) as Hcmd.
  destruct (remove_ports_exact os remove_list _ Hok0) as (_ & Hout & Hok' & Hgone & Hstay).
  change (Worker.worker_io (Worker.set_worker_io [] (state pr))) with (@nil Response) in Hout.
  change (Worker.slave_names (Worker.set_worker_io [] (state pr)))
    with (Worker.slave_names (state pr)) in *.
  cbn [app] in Hout.
  unfold remove. cbv beta iota delta [mbind controller_bind get_self fst snd].
  destruct (master_io s) eqn:Hmaster; [| done].
  rewrite (send_run os _ s w pr Hpr) by (by rewrite Hcmd).
  unfold worker_out, worker_next. rewrite Hcmd. cbn [snd]. rewrite Hout, Hpipe. cbn [app].
  rewrite <- (remove_replies_length (Worker.slave_names (state pr)) remove_list).
  edestruct (recv_removed_ports_run
               (remove_replies (Worker.slave_names (state pr)) remove_list) [])
    as (lg & ->); [cbn [pipe]; by rewrite app_nil_r |].
  rewrite forget_ports_run.
  cbv beta iota delta [mbind controller_bind modify_self fst snd].
  exists lg. cbv zeta. split; [reflexivity |].
  split; [by apply registry_ok_set_worker_io |]. split; [exact Hgone | exact Hstay].
Qed.

(** [start], run, with the worker it leaves behind. *)
Lemma start_run_state openpty_func s w :
  exists rs2 lg,
    Forall2 add_reply (map to_dict (external_ports s)) rs2 /\
    start os openpty_func (s, w) =
    Some (tt,
      ({| master_io := Some Pipe_end; worker_io := Some Pipe_end; p := Some Process_handle;
          loopback := loopback s;
          external_ports :=
            remove_duplicates_from []
              (List.filter (fun c => existsb (String.eqb (port c)) (ok_names rs2))
                 (external_ports s));
          virtual_ports_num :=
            Z.of_nat (length (ok_names (Worker.worker_io
              (snd (Worker.generate_virtual_ports os (virtual_ports_num s) openpty_func
                      Worker.empty)))));
          serial_ports :=
            Py.list_set String.eqb
              ((serial_ports s ++
                ok_names (Worker.worker_io
                  (snd (Worker.generate_virtual_ports os (virtual_ports_num s) openpty_func
                          Worker.empty)))) ++ ok_names rs2) |},
       {| process :=
            Some {| state :=
                      worker_next
                        (Worker.create_serial_network_setup os (virtual_ports_num s)
                           (match external_ports s with
                            | [] => None
                            | _ => Some (map to_dict (external_ports s))
                            end) openpty_func) Worker.empty;
                    process_loopback := loopback s;
                    process_openpty_func := openpty_func |};
          pipe := []; commands := commands w;
          received := received w ++
            Worker.worker_io
              (snd (Worker.generate_virtual_ports os (virtual_ports_num s) openpty_func
                      Worker.empty)) ++ rs2;
          logger := logger w ++ lg |})).
Proof.
  destruct (setup_run os (virtual_ports_num s)
              (match external_ports s with [] => None | _ => Some (map to_dict (external_ports s)) end)
              openpty_func) as (rs2 & Hsetup & HP).
  rewrite default_dicts in HP.
  destruct (generate_virtual_ports_answers os (virtual_ports_num s) openpty_func Worker.empty)
    as (rs1 & _ & Hio1 & Hlen1 & _).
  simpl in Hio1. rewrite Hio1 in *. clear Hio1.
  unfold start, Pipe, spawn.
  cbv beta iota delta [mbind controller_bind log modify_world modify_self get_self fst snd].
  cbn [external_ports virtual_ports_num loopback set_worker_io set_master_io pipe set_pipe
       set_logger].
  rewrite Hsetup.
  set (st := worker_next _ _).
  edestruct (recv_virtual_ports_run (virtual_ports_num s) rs1 rs2) as (lg1 & ->);
    [by rewrite Hlen1 | reflexivity |].
  cbn [process pipe commands received logger set_process set_pipe].
  assert (length (external_ports s) = length rs2) as ->
    by (rewrite <- (Forall2_length _ _ _ HP); by rewrite length_map).
  edestruct (recv_connected_ports_run rs2 []) as (lg2 & ->);
    [cbn [pipe]; by rewrite app_nil_r |].
  unfold _update_ext_ports, _ext_ports_remove_duplicates.
  cbv beta iota delta [mbind controller_bind log modify_world modify_self get_self fst snd].
  destruct s, w. unfold absorb_virtual, set_logger.
  eexists rs2, _. split; [exact HP |].
  cbn. rewrite <- !app_assoc. reflexivity.
Qed.

Lemma setup_virtual n openpty_func w :
  snd (Worker.create_serial_network_setup os n None openpty_func w)
  = snd (Worker.generate_virtual_ports os n openpty_func w).
Proof.
  unfold Worker.create_serial_network_setup.
  cbv beta iota delta [mbind Worker.worker_bind Worker.bind].
  destruct (generate_virtual_ports_answers os n openpty_func w) as (rs & Hret & _).
  destruct (Worker.generate_virtual_ports os n openpty_func w) as [r w1].
  cbn [fst snd] in *. by subst r.
Qed.

(** X15. What [start] creates, [remove] takes away. A network for [n]
    virtual ports whose factory succeeds comes up with the [n] names of the
    ptys and a count of [n]; if the files of the ptys close without an
    error, [remove] of these names, in any order, gets [OK] for each of
    them and leaves a running network with no name, a count of zero and a
    worker in which no name is registered. *)
Theorem start_then_remove_all (n : Z) (loopback : bool) (openpty_func : option Callable)
    (w : World) (ptys : list (Z * Z * string)) (remove_list : list string) :
  Z.of_nat (length ptys) = n ->
  factory_succeeds os openpty_func ptys ->
  (forall fd, In fd (masters ptys) -> file_close os fd = true) ->
  Permutation remove_list (names ptys) ->
  exists s1 w1 s2 w2 pr2,
    start os openpty_func (init n None loopback, w) = Some (tt, (s1, w1)) /\
    Permutation (serial_ports s1) (names ptys) /\
    virtual_ports_num s1 = n /\
    remove os remove_list (s1, w1) = Some (tt, (s2, w2)) /\
    received w2 = received w1 ++ map OK remove_list /\
    serial_ports s2 = [] /\
    virtual_ports_num s2 = 0 /\
    external_ports s2 = [] /\
    running s2 w2 pr2 /\
    Worker.slave_names (state pr2) = ∅.
Proof.
  intros Hn (Hret & Hmasters & Hnames) Hclose Hperm.
  destruct (start_run_state openpty_func (init n None loopback) w) as (rs2 & lg & HP & Hstart).
  cbn [external_ports virtual_ports_num VirtualSerialNetwork.loopback serial_ports init
       remove_duplicates_from default map List.filter app] in HP, Hstart.
  apply Forall2_nil_inv_l in HP. subst rs2.
  unfold worker_next in Hstart.
  change (Worker.set_worker_io [] Worker.empty) with Worker.empty in Hstart.
  rewrite setup_virtual in Hstart.
  assert (Worker.generate_virtual_ports os n openpty_func Worker.empty
          = (Worker.Ret tt, with_ptys Worker.empty ptys)) as Hgen.
  { unfold Worker.generate_virtual_ports. rewrite <- Hn, Nat2Z.id.
    by apply (generate_with_ptys openpty_func ptys []). }
  assert (created_only os ptys (with_ptys Worker.empty ptys)) as (Hreg & _ & Hregistered).
  { apply (created_only_with_ptys ptys [] Worker.empty); [| done | done].
    split; [split |]; [| | split]; cbn.
    - intros name fd. by rewrite lookup_empty.
    - intros name1 name2 fd. by rewrite lookup_empty.
    - by intros fd [].
    - intros name. rewrite lookup_empty. split; [by intros [? ?] | by intros []]. }
  assert (Worker.worker_io (with_ptys Worker.empty ptys) = map OK (names ptys)) as Hio.
  { pose proof (generate_virtual_ports_fresh os openpty_func ptys
                  (conj Hret (conj Hmasters Hnames))) as H.
    rewrite Hn, Hgen in H. exact H. }
  rewrite Hgen in Hstart. cbn [snd] in Hstart.
  cbn [ok_names] in Hstart. rewrite Hio, ok_names_map_OK, !app_nil_r in Hstart.
  set (s1 := {| master_io := Some Pipe_end; worker_io := Some Pipe_end;
                p := Some Process_handle; loopback := loopback; external_ports := [];
                virtual_ports_num := Z.of_nat (length (names ptys));
                serial_ports := Py.list_set String.eqb (names ptys) |}) in *.
  set (pr1 := {| state := Worker.set_worker_io [] (with_ptys Worker.empty ptys);
                 process_loopback := loopback; process_openpty_func := openpty_func |}) in *.
  set (w1 := {| process := Some pr1; pipe := []; commands := commands w;
                received := received w ++ map OK (names ptys);
                logger := logger w ++ lg |}) in *.
  assert (running s1 w1 pr1) as Hrun by (by repeat split).
  assert (registry_ok os (state pr1)) as Hreg1 by (by apply registry_ok_set_worker_io).
  destruct (remove_run remove_list s1 w1 pr1 Hrun Hreg1) as (lg2 & Hremove & _ & Hgone & Hstay).
  cbv zeta in Hremove, Hgone, Hstay.
  set (st2 := Worker.set_worker_io [] (snd (Worker.remove_ports os remove_list _))) in *.
  set (pr2 := {| state := st2; process_loopback := process_loopback pr1;
                 process_openpty_func := process_openpty_func pr1 |}) in *.
  assert (remove_replies (Worker.slave_names (state pr1)) remove_list = map OK remove_list)
    as Hreplies.
  { apply remove_replies_registered.
    - by apply (Permutation_NoDup (l := names ptys)).
    - intros name Hin. apply Hregistered. by apply (Permutation_in _ Hperm). }
  rewrite Hreplies, ok_names_map_OK in Hremove.
  rewrite (forget_virtual remove_list s1 eq_refl) in Hremove.
  eexists s1, w1, _, _, pr2. split; [exact Hstart |].
  split.
  { cbn [serial_ports s1]. unfold Py.list_set.
    rewrite (set_of_id String.eqb string_eqb_spec) by done. apply Py.iter_perm. }
  split; [cbn; unfold names; rewrite length_map; lia |].
  split; [exact Hremove |].
  cbn [received serial_ports virtual_ports_num external_ports set_serial_ports
       set_virtual_ports_num s1 w1].
  split; [done |]. split.
  { apply empty_list. intros x Hin.
    apply (proj1 (list_set_diff_In String.eqb string_eqb_spec _ _ _)) in Hin as [Hin Hnot].
    apply (proj1 (list_set_In String.eqb string_eqb_spec _ _)) in Hin.
    apply Hnot. by apply (Permutation_in _ (Permutation_sym Hperm)). }
  split.
  { rewrite (Permutation_length Hperm). lia. }
  split; [done |]. split; [by repeat split |].
  apply map_empty. intros name.
  destruct (in_dec String.string_dec name remove_list) as [Hin | Hout]; [by apply Hgone |].
  apply Hstay. apply eq_None_not_Some. intros Hsome. apply Hregistered in Hsome.
  apply Hout. by apply (Permutation_in _ (Permutation_sym Hperm)).
Qed.

End RoundTrip.

(** ** What add connects, remove disconnects *)

Section AddRemove.

Import VirtualSerialNetwork ControllerSpec RunSpec ReplySpec RegistrySpec ConfigSpec.

Variable os : OS.
Context {string_order : Py.SetOrder string}.
Context {config_order : Py.SetOrder SerialConnectionMinimalConfig}.
Context {config_eq : ConfigEq}.

Lemma list_set_singleton {A : Type} `{Py.SetOrder A} (eqb : A -> A -> bool) (x : A) :
  Py.list_set eqb [x] = [x].
Proof.
  unfold Py.list_set. cbn. apply Permutation_length_1_inv. symmetry. apply Py.iter_perm.
Qed.

Lemma registry_ok_insert (st st' : Worker.State) (name : string) (fd : Z) (f : Worker.FileObj) :
  registry_ok os st ->
  ~ In fd (Worker.selector st) ->
  file_close os fd = true ->
  Worker.master_files st' = Py.dict_set (Worker.master_files st) fd f ->
  Worker.slave_names st' = <[name := fd]> (Worker.slave_names st) ->
  Worker.selector st' = Worker.selector st ++ [fd] ->
  registry_ok os st'.
Proof.
  intros (Hreg & Hone) Hnew Hclose Hmf Hsn Hsel.
  assert (forall n fd', Worker.slave_names st !! n = Some fd' -> fd' <> fd) as Hold.
  { intros n fd' Hn ->. apply Hnew. by apply (Hreg n). }
  split.
  - intros n fd'. rewrite Hsn, Hsel, Hmf, lookup_insert_Some. intros [[<- <-] | [Hne Hn]].
    + split; [apply in_app_iff; right; by left |]. split; [| done].
      rewrite dict_get_set_eq. by eexists.
    + destruct (Hreg n fd' Hn) as (? & ? & ?).
      split; [apply in_app_iff; by left |]. split; [by apply dict_get_set_Some | done].
  - intros n1 n2 fd'. rewrite Hsn, !lookup_insert_Some.
    intros [[<- <-] | [Hne1 Hn1]] [[<- E] | [Hne2 Hn2]]; try done.
    + by apply Hold in Hn2.
    + subst fd'. by apply Hold in Hn1.
    + by apply (Hone n1 n2 fd').
Qed.

Lemma del_first_snoc (l : list SerialConnectionMinimalConfig) (c : SerialConnectionMinimalConfig) :
  ~ In (port c) (map port l) -> del_first (port c) (l ++ [c]) = Some l.
Proof.
  induction l as [| x l IH]; intros Hnot; cbn [app del_first].
  - by rewrite String.eqb_refl.
  - destruct (String.eqb_spec (port x) (port c)) as [Heq | Hne].
    + exfalso. apply Hnot. left. done.
    + rewrite IH; [done |]. intros Hin. apply Hnot. by right.
Qed.

(** [add] of one descriptor whose name is free and whose device opens,
    on a running network, run. *)
Lemma add_run_single c port_fd s w pr :
  running s w pr ->
  Worker.slave_names (state pr) !! port c = None ->
  opens os (state pr) (to_dict c) port_fd ->
  exists lg,
    add os [c] (s, w) =
    Some (tt,
      ({| master_io := master_io s; worker_io := worker_io s; p := p s;
          loopback := loopback s;
          external_ports := remove_duplicates_from [] (external_ports s ++ [c]);
          virtual_ports_num := virtual_ports_num s;
          serial_ports := Py.list_set String.eqb (serial_ports s ++ [port c]) |},
       {| process :=
            Some {| state :=
                      {| Worker.master_files :=
                           Py.dict_set (Worker.master_files (state pr)) port_fd
                             (Worker.Serial (to_dict c));
                         Worker.slave_names :=
                           <[port c := port_fd]> (Worker.slave_names (state pr));
                         Worker.selector := Worker.selector (state pr) ++ [port_fd];
                         Worker.stack := Worker.stack (state pr) ++ [port_fd];
                         Worker.worker_io := [];
                         Worker.openpty_calls := Worker.openpty_calls (state pr);
                         Worker.written := Worker.written (state pr);
                         Worker.closed := Worker.closed (state pr) |};
                    process_loopback := process_loopback pr;
                    process_openpty_func := process_openpty_func pr |};
          pipe := []; commands := commands w ++ [CmdAdd [to_dict c]];
          received := received w ++ [OK (port c)]; logger := logger w ++ lg |})).
Proof.
  intros (Hio & Hp & Hpr & Hpipe) Hfree Hopens.
  assert (Worker.process_cmd os (Some (CmdAdd [to_dict c])) (process_openpty_func pr)
            (Worker.set_worker_io [] (state pr))
          = (Worker.Ret true,
             {| Worker.master_files :=
                  Py.dict_set (Worker.master_files (state pr)) port_fd
                    (Worker.Serial (to_dict c));
                Worker.slave_names := <[port c := port_fd]> (Worker.slave_names (state pr));
                Worker.selector := Worker.selector (state pr) ++ [port_fd];
                Worker.stack := Worker.stack (state pr) ++ [port_fd];
                Worker.worker_io := [OK (port c)];
                Worker.openpty_calls := Worker.openpty_calls (state pr);
                Worker.written := Worker.written (state pr);
                Worker.closed := Worker.closed (state pr) |})) as Hcmd.
  { unfold Worker.process_cmd, Worker.add_external_ports. cbn [Worker.for_each].
    cbv beta iota delta [mbind Worker.worker_bind Worker.bind].
    rewrite (add_external_port_ok os (to_dict c) port_fd);
      [reflexivity | exact Hfree | by destruct (state pr)]. }
  unfold add. cbv beta iota delta [mbind controller_bind get_self fst snd].
  destruct (master_io s) eqn:Hmaster; [| done].
  rewrite list_set_singleton. cbn [map length].
  rewrite (send_run os _ s w pr Hpr) by (by rewrite Hcmd).
  unfold worker_out, worker_next. rewrite Hcmd. cbn [snd Worker.worker_io]. rewrite Hpipe.
  cbn [app].
  match goal with
  | |- context [recv_added_ports _ _ (?s1, ?w1)] =>
      destruct (recv_added_ports_run [c] [OK (port c)] [] s1 w1) as (lg & Heq); [reflexivity |]
  end.
  cbn [length] in Heq. rewrite Heq. clear Heq.
  unfold connected, _ext_ports_remove_duplicates.
  cbn [ok_names flat_map List.find]. rewrite String.eqb_refl. cbn [app map].
  cbv beta iota delta [mbind controller_bind modify_self fst snd].
  exists lg. destruct s. cbn in Hmaster. subst. reflexivity.
Qed.

(** X16. What [add] connects, [remove] disconnects. On a running network
    whose lists agree, with a worker whose registry is in order: a
    descriptor whose port name is new and whose device opens is answered
    [OK] and joins both lists; [remove] of its port name is answered [OK] as
    well and takes it out of both again, leaving the descriptors and the
    count of virtual ports as they were before the two calls, the same names
    in the list, and in the worker the names that were registered before. *)
Theorem add_then_remove (c : SerialConnectionMinimalConfig) (port_fd : Z)
    (s : Self) (w : World) (pr : Process) :
  running s w pr ->
  registry_ok os (state pr) ->
  descriptors_named s ->
  List.NoDup (serial_ports s) ->
  ~ In (port c) (serial_ports s) ->
  Worker.slave_names (state pr) !! port c = None ->
  opens os (state pr) (to_dict c) port_fd ->
  file_close os port_fd = true ->
  exists s1 w1 s2 w2 pr2,
    add os [c] (s, w) = Some (tt, (s1, w1)) /\
    received w1 = received w ++ [OK (port c)] /\
    external_ports s1 = external_ports s ++ [c] /\
    In (port c) (serial_ports s1) /\
    remove os [port c] (s1, w1) = Some (tt, (s2, w2)) /\
    received w2 = received w1 ++ [OK (port c)] /\
    external_ports s2 = external_ports s /\
    virtual_ports_num s2 = virtual_ports_num s /\
    Permutation (serial_ports s2) (serial_ports s) /\
    running s2 w2 pr2 /\
    registry_ok os (state pr2) /\
    Worker.slave_names (state pr2) = Worker.slave_names (state pr).
Proof.
  intros Hrun Hreg [Hdistinct Hcover] Hnd Hnew Hfree Hopens Hclose.
  pose proof Hrun as (Hio & Hp & Hpr & Hpipe).
  assert (~ In (port c) (map port (external_ports s))) as Hnoport.
  { intros (x & Heq & Hin)%in_map_iff. apply Hnew. rewrite <- Heq. by apply Hcover. }
  assert (remove_duplicates_from [] (external_ports s ++ [c]) = external_ports s ++ [c]) as Hrd.
  { apply (remove_duplicates_id []). by apply distinct_ports_snoc. }
  destruct (add_run_single c port_fd s w pr Hrun Hfree Hopens) as (lg & Hadd).
  rewrite Hrd in Hadd.
  set (s1 := {| master_io := master_io s; worker_io := worker_io s; p := p s;
                loopback := loopback s; external_ports := external_ports s ++ [c];
                virtual_ports_num := virtual_ports_num s;
                serial_ports := Py.list_set String.eqb (serial_ports s ++ [port c]) |}) in *.
  set (st1 := {| Worker.master_files :=
                   Py.dict_set (Worker.master_files (state pr)) port_fd
                     (Worker.Serial (to_dict c));
                 Worker.slave_names := <[port c := port_fd]> (Worker.slave_names (state pr));
                 Worker.selector := Worker.selector (state pr) ++ [port_fd];
                 Worker.stack := Worker.stack (state pr) ++ [port_fd];
                 Worker.worker_io := [];
                 Worker.openpty_calls := Worker.openpty_calls (state pr);
                 Worker.written := Worker.written (state pr);
                 Worker.closed := Worker.closed (state pr) |}) in *.
  set (pr1 := {| state := st1; process_loopback := process_loopback pr;
                 process_openpty_func := process_openpty_func pr |}) in *.
  set (w1 := {| process := Some pr1; pipe := []; commands := commands w ++ [CmdAdd [to_dict c]];
                received := received w ++ [OK (port c)]; logger := logger w ++ lg |}) in *.
  assert (running s1 w1 pr1) as Hrun1 by (by repeat split).
  assert (registry_ok os st1) as Hreg1.
  { destruct Hopens as (_ & _ & _ & Hfresh).
    by apply (registry_ok_insert (state pr) st1 (port c) port_fd (Worker.Serial (to_dict c))). }
  destruct (remove_run os [port c] s1 w1 pr1 Hrun1 Hreg1) as (lg2 & Hremove & Hreg2 & _ & _).
  cbv zeta in Hremove, Hreg2.
  assert (Worker.remove_ports os [port c] (Worker.set_worker_io [] (state pr1))
          = (Worker.Ret tt,
             {| Worker.master_files := Py.dict_del (Worker.master_files st1) port_fd;
                Worker.slave_names := delete (port c) (Worker.slave_names st1);
                Worker.selector :=
                  List.filter (fun x => negb (Z.eqb port_fd x)) (Worker.selector st1);
                Worker.stack := Worker.stack st1;
                Worker.worker_io := [OK (port c)];
                Worker.openpty_calls := Worker.openpty_calls st1;
                Worker.written := Worker.written st1;
                Worker.closed := Worker.closed st1 ++ [port_fd] |})) as Hports.
  { unfold Worker.remove_ports. cbn [Worker.for_each].
    cbv beta iota delta [mbind Worker.worker_bind Worker.bind].
    rewrite (remove_port_registered os (port c) port_fd); [reflexivity | ..].
    - cbn. by rewrite lookup_insert_eq.
    - cbn. apply in_app_iff. right. by left.
    - cbn. rewrite dict_get_set_eq. by eexists.
    - done. }
  rewrite Hports in Hremove, Hreg2. cbn [snd] in Hremove, Hreg2.
  assert (remove_replies (Worker.slave_names (state pr1)) [port c] = [OK (port c)]) as Hreplies.
  { cbn. by rewrite lookup_insert_eq. }
  rewrite Hreplies in Hremove. cbn [ok_names fold_left] in Hremove.
  assert (forget (port c) s1 = set_external_ports (external_ports s) s1) as Hforget.
  { unfold forget. cbn [external_ports s1]. by rewrite del_first_snoc. }
  rewrite Hforget in Hremove.
  eexists s1, w1, _, _, _. split; [exact Hadd |].
  split; [done |]. split; [done |].
  split; [apply (list_set_In String.eqb string_eqb_spec), in_app_iff; right; by left |].
  split; [exact Hremove |].
  cbn [received external_ports virtual_ports_num serial_ports set_serial_ports
       set_external_ports s1 w1].
  split; [done |]. split; [done |]. split; [done |]. split.
  { apply Permutation.NoDup_Permutation.
    - apply (list_set_diff_NoDup String.eqb string_eqb_spec).
    - done.
    - intros x. rewrite (list_set_diff_In String.eqb string_eqb_spec).
      rewrite (list_set_In String.eqb string_eqb_spec), in_app_iff. cbn. split.
      + intros [[? | [<- | []]] Hnot]; [done |]. exfalso. apply Hnot. by left.
      + intros Hin. split; [by left |]. intros [<- | []]. done. }
  split; [unfold running; cbn; by repeat split |].
  split; [by apply registry_ok_set_worker_io |].
  cbn. by apply delete_insert_id.
Qed.

End AddRemove.

(** ** Validated descriptors *)

Section ConfigProofs.

Import Defaults Validation ConfigSpec.

Lemma existsb_Z_In (n : Z) (l : list Z) : existsb (Z.eqb n) l = true <-> In n l.
Proof.
  rewrite existsb_exists. split.
  - intros (x & Hin & Heq). apply Z.eqb_eq in Heq. by subst.
  - intros Hin. exists n. split; [done | apply Z.eqb_refl].
Qed.

Lemma existsb_string_In (s : string) (l : list string) :
  existsb (String.eqb s) l = true <-> In s l.
Proof.
  rewrite existsb_exists. split.
  - intros (x & Hin & Heq). apply String.eqb_eq in Heq. by subst.
  - intros Hin. exists s. split; [done | apply String.eqb_refl].
Qed.

Lemma validate_port_Valid (v : Value) (s : string) :
  validate_port v = Valid s <-> v = PyStr s /\ (3 <= String.length s)%nat.
Proof.
  unfold validate_port. destruct v as [| s0 | n | b | ty tx tr]; cbn.
  - split; [done | by intros [? _]].
  - destruct (String.eqb_spec s0 "") as [-> | Hne]; cbn.
    + split; [done |]. intros [[= <-] Hlen]. cbn in Hlen. lia.
    + destruct (Nat.leb_spec (String.length s0) 2).
      * split; [done |]. intros [[= <-] Hlen]. lia.
      * split; [by intros [= <-] | by intros [[= <-] _]].
  - destruct (negb (Z.eqb n 0)); cbn; (split; [done | by intros [? _]]).
  - destruct b; cbn; (split; [done | by intros [? _]]).
  - destruct tr; cbn; (split; [done | by intros [? _]]).
Qed.

(** X17. [validate_port] accepts exactly the strings of three characters or
    more and returns them as they are; for every other argument, [None] and
    the empty string among them, it raises. *)
Theorem validate_port_accepts (v : Value) :
  (forall s, validate_port v = Valid s <-> v = PyStr s /\ (3 <= String.length s)%nat) /\
  ((forall s, v = PyStr s -> (String.length s < 3)%nat) ->
   exists message, validate_port v = SerialConnectionConfigError message) /\
  (truth_value v = false ->
   validate_port v = SerialConnectionConfigError "Port cannot be empty").
Proof.
  split; [intros s; apply validate_port_Valid |]. split.
  - intros Hshort. destruct (validate_port v) as [s | message] eqn:E; [| by eexists].
    apply validate_port_Valid in E as [-> Hlen]. specialize (Hshort s eq_refl). lia.
  - intros Hfalse. unfold validate_port. by rewrite Hfalse.
Qed.

(** The validators of an integer and of a string with a default and a
    list of allowed values are all of one shape; so are their proofs. *)
Ltac validator_cases v :=
  destruct v as [| s0 | m | b | ty tx tr]; cbv beta iota delta [as_int as_str];
  [ split; [intros [= <-]; by left | by intros [[_ ->] | [[=] _]]]
  | .. ];
  repeat match goal with
    | |- context [existsb ?f ?l] =>
        let E := fresh "E" in
        destruct (existsb f l) eqn:E; cbv beta iota delta [negb];
        [ first [apply existsb_Z_In in E | apply existsb_string_In in E];
          (split; [intros [= <-]; by right | by intros [[[=] _] | [[= <-] _]]])
        | split; [done |]; intros [[[=] _] | [[= <-] Hin]];
          first [apply existsb_Z_In in Hin | apply existsb_string_In in Hin]; congruence ]
    end;
  try (split; [done | by intros [[[=] _] | [[=] _]]]).

Lemma validate_baudrate_Valid v n :
  validate_baudrate v = Valid n <->
  (v = PyNone /\ n = DEFAULT_BAUDRATE) \/ (as_int v = Some n /\ In n DEFAULT_BAUDRATE_LIST).
Proof. unfold validate_baudrate. validator_cases v. Qed.

Lemma validate_bytesize_Valid v n :
  validate_bytesize v = Valid n <->
  (v = PyNone /\ n = DEFAULT_BYTESIZE) \/ (as_int v = Some n /\ In n DEFAULT_BYTESIZE_LIST).
Proof. unfold validate_bytesize. validator_cases v. Qed.

Lemma validate_stopbits_Valid v n :
  validate_stopbits v = Valid n <->
  (v = PyNone /\ n = DEFAULT_STOPBITS) \/ (as_int v = Some n /\ In n DEFAULT_STOPBITS_LIST).
Proof. unfold validate_stopbits. validator_cases v. Qed.

Lemma validate_parity_Valid v s :
  validate_parity v = Valid s <->
  (v = PyNone /\ s = DEFAULT_PARITY) \/ (v = PyStr s /\ In s DEFAULT_PARITY_LIST).
Proof. unfold validate_parity. validator_cases v. Qed.

Lemma validate_framer_Valid v s :
  validate_framer v = Valid s <->
  (v = PyNone /\ s = DEFAULT_FRAMER) \/ (v = PyStr s /\ In s DEFAULT_FRAMER_LIST).
Proof. unfold validate_framer. validator_cases v. Qed.

Lemma defaults_allowed :
  In DEFAULT_BAUDRATE DEFAULT_BAUDRATE_LIST /\ In DEFAULT_BYTESIZE DEFAULT_BYTESIZE_LIST /\
  In DEFAULT_PARITY DEFAULT_PARITY_LIST /\ In DEFAULT_STOPBITS DEFAULT_STOPBITS_LIST /\
  In DEFAULT_FRAMER DEFAULT_FRAMER_LIST.
Proof. cbn. tauto. Qed.

(** X18. Each of [validate_baudrate], [validate_bytesize], [validate_parity],
    [validate_stopbits] and [validate_framer] returns only members of its
    list of allowed values: the default for [None], which is itself a
    member, and the argument for an argument that is one ([True] counts as
    the integer 1, so it is a stop-bit count). For everything else it
    raises. *)
Theorem validators_accept_allowed (v : Value) :
  (forall n, validate_baudrate v = Valid n <->
     (v = PyNone /\ n = DEFAULT_BAUDRATE) \/ (as_int v = Some n /\ In n DEFAULT_BAUDRATE_LIST)) /\
  (forall n, validate_bytesize v = Valid n <->
     (v = PyNone /\ n = DEFAULT_BYTESIZE) \/ (as_int v = Some n /\ In n DEFAULT_BYTESIZE_LIST)) /\
  (forall s, validate_parity v = Valid s <->
     (v = PyNone /\ s = DEFAULT_PARITY) \/ (v = PyStr s /\ In s DEFAULT_PARITY_LIST)) /\
  (forall n, validate_stopbits v = Valid n <->
     (v = PyNone /\ n = DEFAULT_STOPBITS) \/ (as_int v = Some n /\ In n DEFAULT_STOPBITS_LIST)) /\
  (forall s, validate_framer v = Valid s <->
     (v = PyNone /\ s = DEFAULT_FRAMER) \/ (v = PyStr s /\ In s DEFAULT_FRAMER_LIST)) /\
  (forall n, validate_baudrate v = Valid n -> In n DEFAULT_BAUDRATE_LIST) /\
  (forall n, validate_bytesize v = Valid n -> In n DEFAULT_BYTESIZE_LIST) /\
  (forall s, validate_parity v = Valid s -> In s DEFAULT_PARITY_LIST) /\
  (forall n, validate_stopbits v = Valid n -> In n DEFAULT_STOPBITS_LIST) /\
  (forall s, validate_framer v = Valid s -> In s DEFAULT_FRAMER_LIST).
Proof.
  destruct defaults_allowed as (H1 & H2 & H3 & H4 & H5).
  split; [intros n; apply validate_baudrate_Valid |].
  split; [intros n; apply validate_bytesize_Valid |].
  split; [intros s; apply validate_parity_Valid |].
  split; [intros n; apply validate_stopbits_Valid |].
  split; [intros s; apply validate_framer_Valid |].
  split; [intros n [[_ ->] | [_ ?]]%validate_baudrate_Valid; done |].
  split; [intros n [[_ ->] | [_ ?]]%validate_bytesize_Valid; done |].
  split; [intros s [[_ ->] | [_ ?]]%validate_parity_Valid; done |].
  split; [intros n [[_ ->] | [_ ?]]%validate_stopbits_Valid; done |].
  intros s [[_ ->] | [_ ?]]%validate_framer_Valid; done.
Qed.

Lemma and_then_Valid {A B : Type} (r : Result A) (k : A -> Result B) (b : B) :
  and_then r k = Valid b <-> exists a, r = Valid a /\ k a = Valid b.
Proof.
  destruct r as [a | message]; cbn.
  - split; [by exists a | by intros (? & [= <-] & ?)].
  - split; [done | by intros (? & ? & ?)].
Qed.

Lemma init_Valid i p b z pa st c :
  MinimalConfig.init i p b z pa st = Valid c <->
  obj_id c = i /\ validate_port p = Valid (port c) /\
  validate_baudrate b = Valid (baudrate c) /\ validate_bytesize z = Valid (bytesize c) /\
  validate_parity pa = Valid (parity c) /\ validate_stopbits st = Valid (stopbits c).
Proof.
  unfold MinimalConfig.init. rewrite !and_then_Valid. split.
  - intros (x1 & H1 & H). apply and_then_Valid in H as (x2 & H2 & H).
    apply and_then_Valid in H as (x3 & H3 & H). apply and_then_Valid in H as (x4 & H4 & H).
    apply and_then_Valid in H as (x5 & H5 & [= <-]). done.
  - intros (Hi & H1 & H2 & H3 & H4 & H5). eexists. split; [exact H1 |].
    apply and_then_Valid. eexists. split; [exact H2 |].
    apply and_then_Valid. eexists. split; [exact H3 |].
    apply and_then_Valid. eexists. split; [exact H4 |].
    apply and_then_Valid. eexists. split; [exact H5 |].
    destruct c; cbn in *. by subst.
Qed.

Lemma valid_fields c :
  valid c <->
  (exists v, validate_port v = Valid (port c)) /\
  (exists v, validate_baudrate v = Valid (baudrate c)) /\
  (exists v, validate_bytesize v = Valid (bytesize c)) /\
  (exists v, validate_parity v = Valid (parity c)) /\
  (exists v, validate_stopbits v = Valid (stopbits c)).
Proof.
  unfold valid. split.
  - intros (H1 & H2 & H3 & H4 & H5). split_and!.
    + exists (PyStr (port c)). by apply validate_port_Valid.
    + exists (PyInt (baudrate c)). apply validate_baudrate_Valid. by right.
    + exists (PyInt (bytesize c)). apply validate_bytesize_Valid. by right.
    + exists (PyStr (parity c)). apply validate_parity_Valid. by right.
    + exists (PyInt (stopbits c)). apply validate_stopbits_Valid. by right.
  - destruct defaults_allowed as (D1 & D2 & D3 & D4 & _).
    intros ((v1 & H1) & (v2 & H2) & (v3 & H3) & (v4 & H4) & (v5 & H5)).
    apply validate_port_Valid in H1 as [_ H1].
    apply validate_baudrate_Valid in H2 as [[_ ->] | [_ H2]];
    apply validate_bytesize_Valid in H3 as [[_ ->] | [_ H3]];
    apply validate_parity_Valid in H4 as [[_ ->] | [_ H4]];
    apply validate_stopbits_Valid in H5 as [[_ ->] | [_ H5]]; done.
Qed.

(** X19. Every descriptor object that the constructor returned, and every
    one that came from such an object by setting its properties, holds a
    port name of three characters or more and a baud rate, a byte size, a
    parity and a stop-bit count from the lists of allowed values. *)
Theorem built_descriptors_are_valid (self : SerialConnectionMinimalConfig) :
  built self -> valid self.
Proof.
  induction 1 as [i p b z pa st self Hinit
                 | self value self' _ IH Hset | self value self' _ IH Hset
                 | self value self' _ IH Hset | self value self' _ IH Hset
                 | self value self' _ IH Hset].
  - apply init_Valid in Hinit as (_ & H1 & H2 & H3 & H4 & H5).
    apply valid_fields. split_and!; by eexists.
  - apply and_then_Valid in Hset as (x & Hx & [= <-]).
    apply valid_fields in IH as (_ & ? & ? & ? & ?). apply valid_fields.
    split_and!; [by eexists | done ..].
  - apply and_then_Valid in Hset as (x & Hx & [= <-]).
    apply valid_fields in IH as (? & _ & ? & ? & ?). apply valid_fields.
    split_and!; [done | by eexists | done ..].
  - apply and_then_Valid in Hset as (x & Hx & [= <-]).
    apply valid_fields in IH as (? & ? & _ & ? & ?). apply valid_fields.
    split_and!; [done | done | by eexists | done ..].
  - apply and_then_Valid in Hset as (x & Hx & [= <-]).
    apply valid_fields in IH as (? & ? & ? & _ & ?). apply valid_fields.
    split_and!; [done | done | done | by eexists | done].
  - apply and_then_Valid in Hset as (x & Hx & [= <-]).
    apply valid_fields in IH as (? & ? & ? & ? & _). apply valid_fields.
    split_and!; [done | done | done | done | by eexists].
Qed.

(** X20. A descriptor can be rebuilt from its own dictionary exactly when
    its values are valid: the constructor, called with the entries of
    [to_dict], returns a descriptor with the same values and, from that
    one, [to_dict] gives the same dictionary again. *)
Theorem to_dict_round_trip (self : SerialConnectionMinimalConfig) (obj_id' : nat) :
  (valid self <->
   exists self', MinimalConfig.from_dict obj_id' (to_dict self) = Valid self') /\
  (forall self',
     MinimalConfig.from_dict obj_id' (to_dict self) = Valid self' ->
     to_dict self' = to_dict self /\ obj_id self' = obj_id' /\
     MinimalConfig.from_dict (obj_id self) (to_dict self') = Valid self).
Proof.
  assert (forall self',
            MinimalConfig.from_dict obj_id' (to_dict self) = Valid self' ->
            valid self /\ to_dict self' = to_dict self /\ obj_id self' = obj_id') as Hinv.
  { intros self' H. apply init_Valid in H as (Hi & H1 & H2 & H3 & H4 & H5).
    cbn [to_dict cp_port cp_baudrate cp_bytesize cp_parity cp_stopbits] in *.
    apply validate_port_Valid in H1 as [[= E1] L1].
    apply validate_baudrate_Valid in H2 as [[[=] _] | [[= E2] L2]].
    apply validate_bytesize_Valid in H3 as [[[=] _] | [[= E3] L3]].
    apply validate_parity_Valid in H4 as [[[=] _] | [[= E4] L4]].
    apply validate_stopbits_Valid in H5 as [[[=] _] | [[= E5] L5]].
    unfold valid, to_dict. rewrite E1, E2, E3, E4, E5. done. }
  assert (forall i c, valid c ->
            MinimalConfig.from_dict i (to_dict c)
            = Valid {| obj_id := i; port := port c; baudrate := baudrate c;
                       bytesize := bytesize c; parity := parity c;
                       stopbits := stopbits c |}) as Hbuild.
  { intros i c (L1 & L2 & L3 & L4 & L5). apply init_Valid.
    cbn [to_dict cp_port cp_baudrate cp_bytesize cp_parity cp_stopbits
         obj_id port baudrate bytesize parity stopbits].
    split_and!; [done | ..].
    - by apply validate_port_Valid.
    - apply validate_baudrate_Valid. by right.
    - apply validate_bytesize_Valid. by right.
    - apply validate_parity_Valid. by right.
    - apply validate_stopbits_Valid. by right. }
  split; [split |].
  - intros Hv. eexists. by apply Hbuild.
  - intros (self' & H). by apply Hinv in H as [? _].
  - intros self' H. destruct (Hinv self' H) as (Hv & Hd & Hi).
    split; [done |]. split; [done |]. rewrite Hd, (Hbuild _ _ Hv). by destruct self.
Qed.

End ConfigProofs.

(** ** Signed and unsigned words *)

Section NumericProofs.

Import Numeric.

Lemma land_ones_32 (n : Z) : Z.land n 0xFFFFFFFF = n mod 2 ^ 32.
Proof. change 0xFFFFFFFF with (Z.ones 32). by rewrite Z.land_ones. Qed.

Lemma land_ones_16 (n : Z) : Z.land n 0xFFFF = n mod 2 ^ 16.
Proof. change 0xFFFF with (Z.ones 16). by rewrite Z.land_ones. Qed.

(** The test of the sign bit. *)
Lemma land_top_bit (k m : Z) :
  0 <= k -> 0 <= m < 2 ^ (k + 1) ->
  Z.eqb (Z.land m (2 ^ k)) 0 = Z.ltb m (2 ^ k).
Proof.
  intros Hk Hm.
  assert (Z.land m (2 ^ k) = if Z.testbit m k then 2 ^ k else 0) as ->.
  { apply Z.bits_inj'. intros i Hi. rewrite Z.land_spec, Z.pow2_bits_eqb by done.
    destruct (Z.eqb_spec k i) as [<- | Hne].
    - rewrite andb_true_r. destruct (Z.testbit m k) eqn:E.
      + by rewrite Z.pow2_bits_eqb, Z.eqb_refl.
      + by rewrite Z.bits_0.
    - rewrite andb_false_r. destruct (Z.testbit m k).
      + rewrite Z.pow2_bits_eqb by done. symmetry. by apply Z.eqb_neq.
      + by rewrite Z.bits_0. }
  assert (Z.testbit m k = negb (Z.ltb m (2 ^ k))) as ->.
  { rewrite Z.testbit_eqb by done. rewrite Z.pow_add_r, Z.pow_1_r in Hm by lia.
    assert (0 < 2 ^ k) by (apply Z.pow_pos_nonneg; lia).
    destruct (Z.ltb_spec m (2 ^ k)) as [Hlt | Hge]; cbn.
    - rewrite Z.div_small by lia. done.
    - assert (m / 2 ^ k = 1) as -> by (symmetry; apply Z.div_unique with (m - 2 ^ k); lia). done. }
  assert (0 < 2 ^ k) by (apply Z.pow_pos_nonneg; lia).
  destruct (Z.ltb m (2 ^ k)); cbn; [done |]. apply Z.eqb_neq. lia.
Qed.

Lemma to_signed32_eq (n : Z) :
  to_signed32 n = if Z.ltb (n mod 2 ^ 32) (2 ^ 31) then n mod 2 ^ 32 else n mod 2 ^ 32 - 2 ^ 32.
Proof.
  unfold to_signed32. cbv zeta. rewrite land_ones_32.
  pose proof (Z.mod_pos_bound n (2 ^ 32) ltac:(lia)) as Hn.
  change 0x80000000 with (2 ^ 31). rewrite (land_top_bit 31) by (done || lia).
  done.
Qed.

Lemma to_signed16_eq (n : Z) :
  to_signed16 n = if Z.ltb (n mod 2 ^ 16) (2 ^ 15) then n mod 2 ^ 16 else n mod 2 ^ 16 - 2 ^ 16.
Proof.
  unfold to_signed16. cbv zeta. rewrite land_ones_16.
  pose proof (Z.mod_pos_bound n (2 ^ 16) ltac:(lia)) as Hn.
  change 0x8000 with (2 ^ 15). rewrite (land_top_bit 15) by (done || lia).
  done.
Qed.

Ltac mod_lia :=
  change (2 ^ 32) with 4294967296 in *; change (2 ^ 31) with 2147483648 in *;
  change (2 ^ 16) with 65536 in *; change (2 ^ 15) with 32768 in *;
  Z.to_euclidean_division_equations; lia.

(** X21. [to_signed32] lands in the signed 32-bit range and is congruent to its
    argument modulo [2^32]; [from_signed32] lands in the unsigned range; each
    undoes the other on its range. *)
Theorem signed32_round_trip (n : Z) :
  - 2 ^ 31 <= to_signed32 n < 2 ^ 31 /\
  (to_signed32 n - n) mod 2 ^ 32 = 0 /\
  0 <= from_signed32 n < 2 ^ 32 /\
  (from_signed32 n - n) mod 2 ^ 32 = 0 /\
  from_signed32 (to_signed32 n) = from_signed32 n /\
  to_signed32 (from_signed32 n) = to_signed32 n /\
  (- 2 ^ 31 <= n < 2 ^ 31 -> to_signed32 (from_signed32 n) = n) /\
  (0 <= n < 2 ^ 32 -> from_signed32 (to_signed32 n) = n).
Proof.
  unfold from_signed32. rewrite !to_signed32_eq, !land_ones_32.
  rewrite !Zmod_mod.
  destruct (Z.ltb_spec (n mod 2 ^ 32) (2 ^ 31)) as [Hlt | Hge];
    split_and!; mod_lia.
Qed.

(** X22. The same for 16 bits. *)
Theorem signed16_round_trip (n : Z) :
  - 2 ^ 15 <= to_signed16 n < 2 ^ 15 /\
  (to_signed16 n - n) mod 2 ^ 16 = 0 /\
  0 <= from_signed16 n < 2 ^ 16 /\
  (from_signed16 n - n) mod 2 ^ 16 = 0 /\
  from_signed16 (to_signed16 n) = from_signed16 n /\
  to_signed16 (from_signed16 n) = to_signed16 n /\
  (- 2 ^ 15 <= n < 2 ^ 15 -> to_signed16 (from_signed16 n) = n) /\
  (0 <= n < 2 ^ 16 -> from_signed16 (to_signed16 n) = n).
Proof.
  unfold from_signed16. rewrite !to_signed16_eq, !land_ones_16.
  rewrite !Zmod_mod.
  destruct (Z.ltb_spec (n mod 2 ^ 16) (2 ^ 15)) as [Hlt | Hge];
    split_and!; mod_lia.
Qed.


End NumericProofs.

(** ** Checksums *)

Section ChecksumProofs.

Import Checksum ChecksumSpec.

Lemma int_range (b : byte) : 0 <= int b < 256.
Proof. unfold int. pose proof (Byte.to_N_bounded b). lia. Qed.

Lemma int_inj (b b' : byte) : int b = int b' -> b = b'.
Proof.
  unfold int. intros H. apply N2Z.inj in H.
  pose proof (Byte.of_to_N b) as Hb. rewrite H, Byte.of_to_N in Hb. congruence.
Qed.

Lemma int_byte (z : Z) : 0 <= z < 256 -> exists b, int b = z.
Proof.
  intros Hz. destruct (Byte.of_N (Z.to_N z)) as [b |] eqn:E.
  - exists b. unfold int. apply Byte.to_of_N in E. lia.
  - apply Byte.of_N_None_iff in E. lia.
Qed.

Lemma land_lxor_distr (a b c : Z) :
  Z.land (Z.lxor a b) c = Z.lxor (Z.land a c) (Z.land b c).
Proof.
  apply Z.bits_inj'. intros i Hi. rewrite Z.lxor_spec, !Z.land_spec, Z.lxor_spec.
  by destruct (Z.testbit a i), (Z.testbit b i), (Z.testbit c i).
Qed.

Lemma lxor_range (n a b : Z) :
  0 <= n -> 0 <= a < 2 ^ n -> 0 <= b < 2 ^ n -> 0 <= Z.lxor a b < 2 ^ n.
Proof.
  intros Hn Ha Hb.
  assert (Z.lxor a b = Z.lxor a b mod 2 ^ n) as ->.
  { rewrite <- !Z.land_ones, land_lxor_distr, !Z.land_ones by done.
    by rewrite !Z.mod_small. }
  apply Z.mod_pos_bound. by apply Z.pow_pos_nonneg.
Qed.

Lemma land_1 (a : Z) : Z.land a 1 = a mod 2.
Proof. change 1 with (Z.ones 1). by rewrite Z.land_ones. Qed.

Lemma land_255 (a : Z) : Z.land a 0xFF = a mod 256.
Proof. change 0xFF with (Z.ones 8). by rewrite Z.land_ones. Qed.

Lemma shift_bits_range (k : nat) (cs : Z) :
  0 <= cs < 2 ^ 16 -> 0 <= shift_bits k cs < 2 ^ 16.
Proof.
  revert cs. induction k as [| k IH]; intros cs Hcs; [done |].
  cbn [shift_bits]. apply IH.
  assert (0 <= Z.shiftr cs 1 < 2 ^ 15).
  { rewrite Z.shiftr_div_pow2 by lia. change (2 ^ 16) with 65536 in *.
    change (2 ^ 15) with 32768. change (2 ^ 1) with 2.
    Z.to_euclidean_division_equations; lia. }
  destruct (Z.eqb _ 0); [lia |].
  apply lxor_range; lia.
Qed.

Lemma check_sum_from_cons (cs : Z) (b : byte) (payload : list byte) :
  check_sum_from cs (b :: payload) =
  check_sum_from (shift_bits 8 (Z.lxor cs (int b))) payload.
Proof. reflexivity. Qed.

Lemma check_sum_from_range (payload : list byte) (cs : Z) :
  0 <= cs < 2 ^ 16 -> 0 <= check_sum_from cs payload < 2 ^ 16.
Proof.
  revert cs. induction payload as [| b payload IH]; intros cs Hcs; [done |].
  rewrite check_sum_from_cons. apply IH, shift_bits_range, lxor_range; [lia | done |].
  pose proof (int_range b). lia.
Qed.

(** Eight even steps are a shift by eight bits. *)
Lemma shift_bits_even (k : nat) (x : Z) : shift_bits k (2 ^ Z.of_nat k * x) = x.
Proof.
  induction k as [| k IH]; [cbn; lia |].
  cbn [shift_bits]. rewrite Nat2Z.inj_succ, Z.pow_succ_r by lia.
  rewrite land_1, Z.shiftr_div_pow2 by lia. change (2 ^ 1) with 2.
  replace (2 * 2 ^ Z.of_nat k * x) with (2 ^ Z.of_nat k * x * 2) by lia.
  rewrite Z.mod_mul, Z.div_mul by lia. cbn [Z.eqb]. apply IH.
Qed.

Lemma land_high_low (n q r : Z) : 0 <= n -> 0 <= r < 2 ^ n -> Z.land (2 ^ n * q) r = 0.
Proof.
  intros Hn Hr. apply Z.bits_inj'. intros i Hi. rewrite Z.land_spec, Z.bits_0.
  destruct (Z.ltb_spec i n).
  - rewrite Z.mul_comm, Z.mul_pow2_bits_low by lia. done.
  - rewrite andb_comm.
    destruct (Z.eqb_spec r 0) as [-> | Hne]; [by rewrite Z.bits_0 |].
    rewrite Z.bits_above_log2; [done | lia |].
    apply Z.lt_le_trans with n; [| done]. apply Z.log2_lt_pow2; lia.
Qed.

Lemma lxor_low_byte (cs : Z) : Z.lxor cs (Z.land cs 0xFF) = 2 ^ 8 * Z.shiftr cs 8.
Proof.
  rewrite land_255, Z.shiftr_div_pow2 by lia. change (2 ^ 8) with 256.
  pose proof (Z.mod_pos_bound cs 256 ltac:(lia)) as Hr.
  rewrite (Z.div_mod cs 256) at 1 by lia.
  rewrite Z.add_nocarry_lxor by (apply (land_high_low 8); lia).
  rewrite Z.lxor_assoc, Z.lxor_nilpotent, Z.lxor_0_r. done.
Qed.

Lemma check_sum_from_app (cs : Z) (l1 l2 : list byte) :
  check_sum_from cs (l1 ++ l2) = check_sum_from (check_sum_from cs l1) l2.
Proof. apply fold_left_app. Qed.

(** X24. The CRC-16 of any payload is a 16-bit value, so it has a low and a
    high byte; a payload followed by these two bytes, low byte first (the way
    a Modbus RTU frame carries its CRC), has checksum zero. *)
Theorem check_sum_residue (payload : list byte) :
  0 <= check_sum payload < 2 ^ 16 /\
  exists lo hi,
    int lo = Z.land (check_sum payload) 0xFF /\
    int hi = Z.shiftr (check_sum payload) 8 /\
    check_sum (payload ++ [lo; hi]) = 0.
Proof.
  assert (0 <= check_sum payload < 2 ^ 16) as Hcs
    by (apply check_sum_from_range; lia).
  split; [done |].
  destruct (int_byte (Z.land (check_sum payload) 0xFF)) as [lo Hlo].
  { rewrite land_255. apply Z.mod_pos_bound. lia. }
  destruct (int_byte (Z.shiftr (check_sum payload) 8)) as [hi Hhi].
  { rewrite Z.shiftr_div_pow2 by lia. change (2 ^ 16) with 65536 in *.
    change (2 ^ 8) with 256. Z.to_euclidean_division_equations; lia. }
  exists lo, hi. split_and!; [done | done |].
  unfold check_sum in *. rewrite check_sum_from_app.
  set (cs := check_sum_from 0xFFFF payload) in *.
  rewrite !check_sum_from_cons. change (check_sum_from ?x []) with x.
  rewrite Hlo, lxor_low_byte. rewrite (shift_bits_even 8), Hhi.
  by rewrite Z.lxor_nilpotent.
Qed.

Lemma fold_total (payload : list byte) (a : Z) :
  fold_left (fun cs data_byte => cs + int data_byte) payload a = a + total payload.
Proof.
  unfold total. revert a. induction payload as [| b payload IH]; intros a; cbn; [lia |].
  rewrite IH, (IH (0 + int b)). lia.
Qed.

Lemma total_app (l1 l2 : list byte) : total (l1 ++ l2) = total l1 + total l2.
Proof. unfold total at 1. rewrite fold_left_app, fold_total. done. Qed.

Lemma total_cons (b : byte) (l : list byte) : total (b :: l) = int b + total l.
Proof. unfold total at 1. cbn. by rewrite fold_total. Qed.

Lemma total_nonneg (l : list byte) : 0 <= total l.
Proof.
  induction l as [| b l IH]; [done |]. rewrite total_cons.
  pose proof (int_range b). lia.
Qed.

Lemma lxor_255 (x : Z) : 0 <= x < 256 -> Z.lxor x 0xFF = 255 - x.
Proof.
  intros Hx. change 0xFF with (Z.ones 8).
  assert (Z.log2 x < 8).
  { destruct (Z.eqb_spec x 0) as [-> | Hne]; [done |]. apply Z.log2_lt_pow2; lia. }
  rewrite <- Z.ldiff_ones_l_low by lia.
  rewrite <- Z.sub_nocarry_ldiff by (apply Z.ldiff_ones_r_low; lia). done.
Qed.

Lemma lrc_eq (payload : list byte) : lrc payload = (- total payload) mod 256.
Proof.
  unfold lrc. fold (total payload). cbv zeta. rewrite land_255.
  rewrite <- Zplus_mod_idemp_l.
  rewrite <- (land_255 (Z.lxor (total payload) 255)), land_lxor_distr, !land_255.
  change (255 mod 256) with 0xFF.
  rewrite lxor_255 by (apply Z.mod_pos_bound; lia).
  Z.to_euclidean_division_equations; lia.
Qed.

Lemma check_lrc_snoc (payload : list byte) (b : byte) :
  check_lrc (payload ++ [b]) = Z.eqb (lrc payload) (int b).
Proof.
  unfold check_lrc. destruct (payload ++ [b]) eqn:E.
  - by destruct payload.
  - rewrite <- E, last_last, removelast_last. by destruct (Z.eqb _ _).
Qed.

(** X25. The LRC of a payload is the byte that makes the sum of all bytes a
    multiple of 256; a message passes [check_lrc] exactly when it is a
    payload followed by that byte, and the empty message never passes. *)
Theorem check_lrc_accepts_lrc (payload : list byte) (b : byte) :
  0 <= lrc payload < 256 /\
  (total payload + lrc payload) mod 256 = 0 /\
  (check_lrc (payload ++ [b]) = true <-> int b = lrc payload) /\
  (exists c, int c = lrc payload /\ check_lrc (payload ++ [c]) = true) /\
  check_lrc [] = false.
Proof.
  assert (0 <= lrc payload < 256) as Hr
    by (rewrite lrc_eq; apply Z.mod_pos_bound; lia).
  split; [done |]. split; [| split; [| split; [| done]]].
  - rewrite lrc_eq. Z.to_euclidean_division_equations; lia.
  - rewrite check_lrc_snoc, Z.eqb_eq. split; by intros ->.
  - destruct (int_byte (lrc payload) Hr) as [c Hc]. exists c.
    by rewrite check_lrc_snoc, Hc, Z.eqb_refl.
Qed.

(** X26. The LRC detects every change of a single byte: a message that passes
    [check_lrc] fails it when one of its bytes, the check byte included, is
    replaced by a different one. *)
Theorem check_lrc_detects_one_byte (pre post : list byte) (b b' : byte) :
  check_lrc (pre ++ b :: post) = true ->
  b <> b' ->
  check_lrc (pre ++ b' :: post) = false.
Proof.
  intros Hok Hne.
  assert (int b <> int b') as Hi by (intros H; by apply Hne, int_inj).
  pose proof (int_range b). pose proof (int_range b').
  destruct (rev post) as [| c tsop] eqn:E.
  - apply (f_equal (@rev byte)) in E. rewrite rev_involutive in E. cbn in E. subst post.
    rewrite check_lrc_snoc in *. apply Z.eqb_eq in Hok. apply Z.eqb_neq. lia.
  - apply (f_equal (@rev byte)) in E. rewrite rev_involutive in E. cbn in E. subst post.
    change (pre ++ b :: rev tsop ++ [c]) with (pre ++ (b :: rev tsop) ++ [c]) in Hok.
    change (pre ++ b' :: rev tsop ++ [c]) with (pre ++ (b' :: rev tsop) ++ [c]).
    rewrite app_assoc in *. rewrite check_lrc_snoc in *.
    apply Z.eqb_eq in Hok. apply Z.eqb_neq.
    rewrite lrc_eq, total_app, total_cons in *.
    Z.to_euclidean_division_equations; lia.
Qed.

End ChecksumProofs.

(** ** The further theorems on concrete inputs *)

Section MoreWitnesses.

Import VirtualSerialNetwork ControllerSpec RunSpec ReplySpec FactorySpec RegistrySpec
  StopSpec Examples Scenarios ForwardSpec ConfigSpec Validation Checksum.

(** The message 01 02 with its LRC, FD, and with the second byte changed
    to 03. *)
Lemma check_lrc_detects_one_byte_witness :
  check_lrc ([x01] ++ x02 :: [xfd]) = true /\
  x02 <> x03 /\
  check_lrc ([x01] ++ x03 :: [xfd]) = false.
Proof.
  assert (H1 : check_lrc ([x01] ++ x02 :: [xfd]) = true) by (vm_compute; reflexivity).
  assert (H2 : x02 <> x03) by discriminate.
  split; [exact H1 |]. split; [exact H2 |].
  exact (check_lrc_detects_one_byte [x01] [xfd] x02 x03 H1 H2).
Defined.

(** The descriptor for [/dev/ttyUSB0] with the defaults, and the same with
    its baud rate set to 115200. *)
Lemma built_descriptors_are_valid_witness :
  built usb_a /\ valid usb_a /\
  exists fast, MinimalConfig.set_baudrate usb_a (PyInt 115200) = Valid fast /\ valid fast.
Proof.
  assert (H : built usb_a).
  { apply (built_init 1 (PyStr "/dev/ttyUSB0") PyNone PyNone PyNone PyNone).
    vm_compute. reflexivity. }
  split; [exact H |]. split; [exact (built_descriptors_are_valid usb_a H) |].
  eexists. split; [vm_compute; reflexivity |].
  apply built_descriptors_are_valid.
  apply (built_set_baudrate usb_a (PyInt 115200)); [exact H |]. vm_compute. reflexivity.
Defined.

(** Descriptor 4 has nothing to read, the event on 5 is no read event,
    and descriptor 9 has no file. *)
Lemma forward_data_idle_witness :
  Forall (ForwardSpec.idle os_ok three_ports) [(4, 1); (5, 0); (9, 1)] /\
  Worker.forward_data os_ok [(4, 1); (5, 0); (9, 1)] false three_ports
  = (Worker.Ret tt, three_ports).
Proof.
  assert (H : Forall (ForwardSpec.idle os_ok three_ports) [(4, 1); (5, 0); (9, 1)]).
  { apply List.Forall_cons; [right; right; right; reflexivity |].
    apply List.Forall_cons; [left; reflexivity |].
    apply List.Forall_cons; [right; left; reflexivity |].
    apply List.Forall_nil. }
  split; [exact H |].
  exact (proj1 (forward_data_idle os_ok false [(4, 1); (5, 0); (9, 1)] three_ports H)).
Defined.

(** An event on descriptor 3 after one on descriptor 4, which has nothing
    to read: [PING] reaches 4 and 5. *)
Lemma forward_data_goes_on_witness :
  (Z.land 1 Worker.EVENT_READ <> 0 /\
   Py.dict_get (Worker.master_files three_ports) 3 = Some Worker.FileIO /\
   file_read os_ok 3 = ReadBytes PING) /\
  Worker.written (snd (Worker.forward_data os_ok ([(4, 1)] ++ [(3, 1)]) false three_ports))
  = [(4, PING); (5, PING)].
Proof.
  assert (H1 : Z.land 1 Worker.EVENT_READ <> 0) by (vm_compute; discriminate).
  assert (H2 : Py.dict_get (Worker.master_files three_ports) 3 = Some Worker.FileIO)
    by reflexivity.
  assert (H3 : file_read os_ok 3 = ReadBytes PING) by reflexivity.
  destruct (forward_data_goes_on os_ok [(4, 1)] 3 1 Worker.FileIO PING false three_ports
              H1 H2 H3) as (out & Hout & _ & Hall & _).
  split; [by repeat split |]. rewrite Hall.
  vm_compute in Hout. destruct out; [| discriminate Hout]. vm_compute. reflexivity.
Defined.

(** One more port, created on the network of two ports. *)
Lemma running_methods_return_witness :
  running (fst two_ports) (snd two_ports) (process_of two_ports) /\
  exists s' w' pr',
    create os_ok 1 (fst two_ports, snd two_ports) = Some (tt, (s', w')) /\
    running s' w' pr'.
Proof.
  destruct (running_methods_return (string_order := in_order)
              (config_order := objects_in_order) (config_eq := identity_eq)
              os_ok (fst two_ports) (snd two_ports) (process_of two_ports) two_ports_running)
    as (_ & Hcreate & _).
  destruct (Hcreate 1) as (s' & w' & pr' & rs & Hrun & Hrunning & _).
  split; [exact two_ports_running |]. exists s', w', pr'. split; [exact Hrun | exact Hrunning].
Defined.

Lemma create_keeps_count_witness :
  running (fst two_ports) (snd two_ports) (process_of two_ports) /\
  exists s' w',
    create os_ok 1 (fst two_ports, snd two_ports) = Some (tt, (s', w')) /\
    virtual_ports_num s' - virtual_ports_num (fst two_ports)
      = Z.of_nat (length (serial_ports s')) - Z.of_nat (length (serial_ports (fst two_ports))).
Proof.
  destruct (create_keeps_count os_ok 1 (fst two_ports) (snd two_ports) (process_of two_ports)
              two_ports_running)
    as (s' & w' & rs & Hrun & _ & _ & _ & _ & Hcount & _).
  split; [exact two_ports_running |]. exists s', w'. split; [exact Hrun | exact Hcount].
Defined.

(** The network that got two of its three virtual ports and its external
    port, and the constructor given two descriptors for one device. *)
Lemma descriptors_stay_distinct_witness :
  distinct_ports (external_ports (fst two_of_three)) /\
  distinct_ports (external_ports (init 2 (Some [usb_a; usb_b]) false)).
Proof.
  assert (H : distinct_ports (external_ports (fst two_of_three))).
  { vm_compute. repeat constructor; intros H;
      repeat (destruct H as [H | H]; [discriminate H |]); exact H. }
  destruct (descriptors_stay_distinct (string_order := in_order)
              (config_order := objects_in_order) (config_eq := identity_eq)
              os_ok (fst two_of_three) (snd two_of_three)
              (fst two_of_three) (snd two_of_three) H) as (Hinit & _).
  split; [exact H | exact (Hinit 2 (Some [usb_a; usb_b]) false)].
Defined.

Lemma names_cover_descriptors_witness :
  descriptors_named (fst two_of_three) /\
  exists s1 w1,
    start (string_order := in_order) os_ok None (fst two_of_three, snd two_of_three)
      = Some (tt, (s1, w1)) /\
    descriptors_named s1.
Proof.
  assert (H : descriptors_named (fst two_of_three)).
  { split.
    - vm_compute. repeat constructor; intros H;
        repeat (destruct H as [H | H]; [discriminate H |]); exact H.
    - vm_compute. intros c [<- | []]. right. right. left. reflexivity. }
  destruct (names_cover_descriptors (string_order := in_order)
              (config_order := objects_in_order) (config_eq := identity_eq)
              os_ok (fst two_of_three) (snd two_of_three)
              (fst two_of_three) (snd two_of_three) H) as (Hstart & _).
  split; [exact H | exact (Hstart None (fst two_of_three) (snd two_of_three))].
Defined.

(** The pair that got one pty, started again on the machine where
    everything works. *)
Lemma pair_stays_failed_witness :
  external_ports (fst failed_pair) = [] /\
  virtual_ports_num (fst failed_pair) < 2 /\
  exists s' w',
    VirtualSerialPair.start (string_order := in_order) os_ok None (fst failed_pair, snd failed_pair)
      = Some (tt, (s', w')) /\
    p s' = None /\ process w' = None.
Proof.
  assert (H1 : external_ports (fst failed_pair) = []) by (vm_compute; reflexivity).
  assert (H2 : virtual_ports_num (fst failed_pair) < 2) by (vm_compute; reflexivity).
  destruct (pair_stays_failed (string_order := in_order) os_ok None
              (fst failed_pair) (snd failed_pair) H1 H2)
    as (_ & s' & w' & Hstart & _ & _ & _ & Hp & _ & _ & Hproc).
  split; [exact H1 |]. split; [exact H2 |]. exists s', w'.
  split; [exact Hstart |]. split; [exact Hp | exact Hproc].
Defined.

(** Two ports created and removed again, the second first. *)
Lemma start_then_remove_all_witness :
  Z.of_nat (length ptys) = 2 /\
  factory_succeeds os_ok None ptys /\
  Permutation ["/dev/pts/1"; "/dev/pts/0"] (names ptys) /\
  exists s1 w1 s2 w2,
    start (string_order := in_order) os_ok None (init 2 None false, world0)
      = Some (tt, (s1, w1)) /\
    remove (string_order := in_order) os_ok ["/dev/pts/1"; "/dev/pts/0"] (s1, w1)
      = Some (tt, (s2, w2)) /\
    serial_ports s2 = [] /\ virtual_ports_num s2 = 0.
Proof.
  assert (H1 : Z.of_nat (length ptys) = 2) by reflexivity.
  assert (H2 : forall fd, In fd (masters ptys) -> file_close os_ok fd = true)
    by (intros; reflexivity).
  assert (H3 : Permutation ["/dev/pts/1"; "/dev/pts/0"] (names ptys)) by apply perm_swap.
  destruct (start_then_remove_all (string_order := in_order) os_ok 2 false None world0 ptys
              ["/dev/pts/1"; "/dev/pts/0"] H1 ptys_succeed H2 H3)
    as (s1 & w1 & s2 & w2 & pr2 & Hstart & _ & _ & Hremove & _ & Hnames & Hnum & _).
  split; [exact H1 |]. split; [exact ptys_succeed |]. split; [exact H3 |].
  exists s1, w1, s2, w2. split; [exact Hstart |]. split; [exact Hremove |].
  split; [exact Hnames | exact Hnum].
Defined.

(** [/dev/ttyUSB0] added to the network of two ports and removed again. *)
Lemma add_then_remove_witness :
  (running (fst two_ports) (snd two_ports) (process_of two_ports) /\
   registry_ok os_ok (state (process_of two_ports)) /\
   descriptors_named (fst two_ports) /\
   List.NoDup (serial_ports (fst two_ports)) /\
   ~ In (port usb_a) (serial_ports (fst two_ports)) /\
   Worker.slave_names (state (process_of two_ports)) !! port usb_a = None /\
   opens os_ok (state (process_of two_ports)) (to_dict usb_a) 40 /\
   file_close os_ok 40 = true) /\
  exists s1 w1 s2 w2,
    add (string_order := in_order) (config_order := objects_in_order) (config_eq := identity_eq)
      os_ok [usb_a] (fst two_ports, snd two_ports) = Some (tt, (s1, w1)) /\
    remove (string_order := in_order) os_ok [port usb_a] (s1, w1) = Some (tt, (s2, w2)) /\
    external_ports s2 = external_ports (fst two_ports) /\
    Permutation (serial_ports s2) (serial_ports (fst two_ports)).
Proof.
  assert (H1 : descriptors_named (fst two_ports)).
  { split; [vm_compute; constructor | vm_compute; intros c []]. }
  assert (H2 : List.NoDup (serial_ports (fst two_ports))).
  { vm_compute. repeat constructor; intros H;
      repeat (destruct H as [H | H]; [discriminate H |]); exact H. }
  assert (H3 : ~ In (port usb_a) (serial_ports (fst two_ports))).
  { vm_compute. intros H; repeat (destruct H as [H | H]; [discriminate H |]); exact H. }
  assert (H4 : Worker.slave_names (state (process_of two_ports)) !! port usb_a = None)
    by (vm_compute; reflexivity).
  assert (H5 : file_close os_ok 40 = true) by reflexivity.
  destruct (add_then_remove (string_order := in_order) (config_order := objects_in_order)
              (config_eq := identity_eq) os_ok usb_a 40
              (fst two_ports) (snd two_ports) (process_of two_ports)
              two_ports_running two_ports_registry H1 H2 H3 H4 (usb_opens usb_a) H5)
    as (s1 & w1 & s2 & w2 & pr2 & Hadd & _ & _ & _ & Hremove & _ & Hext & _ & Hperm & _).
  split.
  { split; [exact two_ports_running |]. split; [exact two_ports_registry |].
    split; [exact H1 |]. split; [exact H2 |]. split; [exact H3 |]. split; [exact H4 |].
    split; [exact (usb_opens usb_a) | exact H5]. }
  exists s1, w1, s2, w2. split; [exact Hadd |]. split; [exact Hremove |].
  split; [exact Hext | exact Hperm].
Defined.

End MoreWitnesses.
